(** * Content Curator: session coordinator, content cleanup and command parsing

    A shallow embedding of the TypeScript sources

      - [types.ts]              (Platform, ContentType, SearchResult,
                                 GenerationResult, SessionContext)
      - [ui/prompts.ts]         (Command, COMMAND_MAP, parseCommand)
      - [prompts/templates.ts]  (getRefinementPrompt, getMoreVariationsPrompt)
      - [services/exa.ts]       (ExaService)
      - [services/copilot.ts]   (CopilotService)
      - [index.ts]              (AppState, handleContent, handleChat, run)

    Modelling conventions.

      - A JavaScript string is a [string]; every character stands for one
        UTF-16 code unit below 256 (the Latin-1 range).  White space,
        lower-casing and the regular expressions of the source are rendered
        on that alphabet.
      - [Map<ContentType, string>] is a [gmap ContentType string].
      - An [async] method of [CopilotService] is a computation in the monad
        [M]: it threads the service object and either returns or throws.
      - The collaborators (Exa client, Copilot SDK, clock, locale) are the
        fields of an [Env]; every call made to one of them is appended to the
        [history] of the service together with the cache as it was then.
      - The clock is read in milliseconds since the epoch; [toISOString]
        follows the calendar of ECMA-262.
      - A prompt of the command loop resolves to the user's answer or
        rejects ([Prompts]); [Answers] are the prompts all answered.
      - The spinner and the console only draw on the terminal and are left
        out. *)

From Stdlib Require Import Ascii String Decimal DecimalString.
From stdpp Require Import gmap strings list.

(** ** JavaScript string primitives *)

Module Js.

Definition newline : ascii := "010"%char.
Definition nl : string := String newline EmptyString.
Definition dquote : string := String "034"%char EmptyString.

(** [\s] of a regular expression, and the set [String.prototype.trim]
    strips: TAB, LF, VT, FF, CR, SPACE and NBSP are the members below 256. *)
Definition is_space (c : ascii) : bool :=
  let n := nat_of_ascii c in
  ((9 <=? n) && (n <=? 13)) || (n =? 32) || (n =? 160).

Fixpoint trimStart (s : string) : string :=
  match s with
  | EmptyString => EmptyString
  | String c s' => if is_space c then trimStart s' else s
  end.

Fixpoint trimEnd (s : string) : string :=
  match s with
  | EmptyString => EmptyString
  | String c s' =>
      match trimEnd s' with
      | EmptyString => if is_space c then EmptyString else String c EmptyString
      | r => String c r
      end
  end.

Definition trim (s : string) : string := trimEnd (trimStart s).

(** [String.prototype.toLowerCase] on code units below 256: A-Z and the
    Latin-1 capitals U+00C0..U+00DE (U+00D7, the multiplication sign,
    excepted) move up by 32. *)
Definition is_upper (c : ascii) : bool :=
  let n := nat_of_ascii c in
  ((65 <=? n) && (n <=? 90))
  || ((192 <=? n) && (n <=? 222) && negb (n =? 215)).

Definition lower_char (c : ascii) : ascii :=
  if is_upper c then ascii_of_nat (nat_of_ascii c + 32) else c.

Fixpoint toLowerCase (s : string) : string :=
  match s with
  | EmptyString => EmptyString
  | String c s' => String (lower_char c) (toLowerCase s')
  end.

Definition startsWith (s prefix : string) : bool := String.prefix prefix s.

(** Truthiness of a string value and of a possibly undefined string. *)
Definition truthy (s : string) : bool :=
  match s with EmptyString => false | _ => true end.

Definition truthy_opt (o : option string) : bool :=
  match o with Some s => truthy s | None => false end.

(** [a || b] on strings. *)
Definition or_else (a b : string) : string := if truthy a then a else b.

Fixpoint join (sep : string) (l : list string) : string :=
  match l with
  | [] => EmptyString
  | [x] => x
  | x :: rest => x +:+ sep +:+ join sep rest
  end.

Definition substring0 (n : nat) (s : string) : string := String.substring 0 n s.

Definition number_to_string (n : nat) : string :=
  NilEmpty.string_of_uint (Nat.to_uint n).

(** The own property names of [Object.prototype]; an object literal
    inherits them, so [obj[key]] finds them when [obj] has no own
    property [key]. *)
Definition Object_prototype_keys : list string :=
  [ "constructor"; "__defineGetter__"; "__defineSetter__"; "hasOwnProperty";
    "__lookupGetter__"; "__lookupSetter__"; "isPrototypeOf";
    "propertyIsEnumerable"; "toString"; "valueOf"; "__proto__";
    "toLocaleString" ].

(** [n] in decimal on [width] digits, zeros in front. *)
Fixpoint padded (width : nat) (n : Z) : string :=
  match width with
  | O => EmptyString
  | S w =>
      padded w (n / 10)
      +:+ String (ascii_of_nat (48 + Z.to_nat (n mod 10))) EmptyString
  end.

(** The calendar of ECMA-262 (Year Number, Month Number, Date Number), on
    day numbers: day 0 is 1 January 1970. *)
Definition msPerDay : Z := 86400000.

Definition DayFromYear (y : Z) : Z :=
  (365 * (y - 1970) + (y - 1969) / 4 - (y - 1901) / 100 + (y - 1601) / 400)%Z.

Definition InLeapYear (y : Z) : bool :=
  ((y mod 4 =? 0) && negb (y mod 100 =? 0) || (y mod 400 =? 0))%Z.

(** The largest year that starts on or before [day]: 400 years have
    146097 days, which gives the year to within one. *)
Definition YearFromDay (day : Z) : Z :=
  let y := (1970 + 400 * day / 146097)%Z in
  if (DayFromYear (y + 1) <=? day)%Z then (y + 1)%Z
  else if (DayFromYear y <=? day)%Z then y
  else (y - 1)%Z.

(** The days of a year that come before month [m], January being 1. *)
Definition days_before_month (leap : bool) (m : Z) : Z :=
  let l := (if leap then 1 else 0)%Z in
  (if m <=? 1 then 0 else if m =? 2 then 31
   else if m =? 3 then 59 + l else if m =? 4 then 90 + l
   else if m =? 5 then 120 + l else if m =? 6 then 151 + l
   else if m =? 7 then 181 + l else if m =? 8 then 212 + l
   else if m =? 9 then 243 + l else if m =? 10 then 273 + l
   else if m =? 11 then 304 + l else 334 + l)%Z.

Definition MonthFromDay (leap : bool) (dayWithinYear : Z) : Z :=
  let l := (if leap then 1 else 0)%Z in
  let d := dayWithinYear in
  (if d <? 31 then 1 else if d <? 59 + l then 2
   else if d <? 90 + l then 3 else if d <? 120 + l then 4
   else if d <? 151 + l then 5 else if d <? 181 + l then 6
   else if d <? 212 + l then 7 else if d <? 243 + l then 8
   else if d <? 273 + l then 9 else if d <? 304 + l then 10
   else if d <? 334 + l then 11 else 12)%Z.

(** Year, month (1-12) and day of the month of a day number. *)
Definition date_of_day (day : Z) : Z * Z * Z :=
  let y := YearFromDay day in
  let leap := InLeapYear y in
  let dayWithinYear := (day - DayFromYear y)%Z in
  let m := MonthFromDay leap dayWithinYear in
  (y, m, (dayWithinYear - days_before_month leap m + 1)%Z).

(** The year of an ISO timestamp: four digits, or a sign and six. *)
Definition iso_year (y : Z) : string :=
  if ((0 <=? y) && (y <=? 9999))%Z then padded 4 y
  else (if (y <? 0)%Z then "-" else "+") +:+ padded 6 (Z.abs y).

(** [new Date(t).toISOString()]; a time value beyond 8.64e15 ms is an
    invalid date, for which the method throws a [RangeError]. *)
Definition toISOString (t : Z) : option string :=
  if (8640000000000000 <? Z.abs t)%Z then None
  else
    let '(y, m, d) := date_of_day (t / msPerDay) in
    let ms := (t mod msPerDay)%Z in
    Some (iso_year y +:+ "-" +:+ padded 2 m +:+ "-" +:+ padded 2 d
          +:+ "T" +:+ padded 2 (ms / 3600000)
          +:+ ":" +:+ padded 2 (ms / 60000 mod 60)
          +:+ ":" +:+ padded 2 (ms / 1000 mod 60)
          +:+ "." +:+ padded 3 (ms mod 1000) +:+ "Z").

(** [s.split(c)[0]]: the text before the first [c], all of [s] without one. *)
Fixpoint before (c : ascii) (s : string) : string :=
  match s with
  | EmptyString => EmptyString
  | String a rest => if Ascii.eqb a c then EmptyString else String a (before c rest)
  end.

End Js.

(** ** types.ts *)

Inductive Platform := instagram | youtube | tiktok | all.

Inductive ContentType := search | ideas | script | trending | hooks | full.

#[global] Instance Platform_eq_dec : EqDecision Platform.
Proof. solve_decision. Defined.

#[global] Instance ContentType_eq_dec : EqDecision ContentType.
Proof. solve_decision. Defined.

Definition ContentType_to_nat (t : ContentType) : nat :=
  match t with
  | search => 0 | ideas => 1 | script => 2
  | trending => 3 | hooks => 4 | full => 5
  end.

Definition ContentType_of_nat (n : nat) : ContentType :=
  match n with
  | 0 => search | 1 => ideas | 2 => script
  | 3 => trending | 4 => hooks | _ => full
  end.

#[global] Instance ContentType_countable : Countable ContentType.
Proof.
  refine (inj_countable' ContentType_to_nat ContentType_of_nat _).
  intros t; destruct t; reflexivity.
Defined.

(** The value of a [ContentType] as the string it is at run time. *)
Definition ContentType_string (t : ContentType) : string :=
  match t with
  | search => "search" | ideas => "ideas" | script => "script"
  | trending => "trending" | hooks => "hooks" | full => "full"
  end.

Record SearchResult := {
  title : string;
  url : string;
  snippet : string;
  publishedDate : option string;
  author : option string;
  score : option Z;
}.

Record GenerationResult := {
  content : string;
  success : bool;
  error : option string;
}.

Record SessionContext := {
  topic : string;
  platform : Platform;
  searchResults : option (list SearchResult);
  generatedContent : gmap ContentType string;
}.

(** ** ui/prompts.ts *)

Inductive Command :=
| CmdContent (contentType : ContentType)
| CmdPlatform
| CmdTopic
| CmdModel
| CmdCopy
| CmdLast
| CmdClear
| CmdHelp
| CmdQuit
| CmdChat (message : string).

Definition COMMAND_TABLE : list (string * Command) :=
  [ ("/search", CmdContent search);
    ("/research", CmdContent search);
    ("/ideas", CmdContent ideas);
    ("/idea", CmdContent ideas);
    ("/script", CmdContent script);
    ("/scripts", CmdContent script);
    ("/trending", CmdContent trending);
    ("/trends", CmdContent trending);
    ("/hooks", CmdContent hooks);
    ("/hook", CmdContent hooks);
    ("/full", CmdContent full);
    ("/all", CmdContent full);
    ("/package", CmdContent full);
    ("/platform", CmdPlatform);
    ("/p", CmdPlatform);
    ("/topic", CmdTopic);
    ("/t", CmdTopic);
    ("/model", CmdModel);
    ("/m", CmdModel);
    ("/copy", CmdCopy);
    ("/c", CmdCopy);
    ("/last", CmdLast);
    ("/back", CmdLast);
    ("/clear", CmdClear);
    ("/cls", CmdClear);
    ("/help", CmdHelp);
    ("/h", CmdHelp);
    ("/?", CmdHelp);
    ("/quit", CmdQuit);
    ("/exit", CmdQuit);
    ("/q", CmdQuit) ].

Definition COMMAND_MAP : gmap string Command := list_to_map COMMAND_TABLE.

(** What [COMMAND_MAP[key]] evaluates to when it is not [undefined]: an own
    entry of the table, or a member inherited from [Object.prototype] (a
    function, or the prototype object itself for [__proto__]). *)
Inductive PropertyValue :=
| OwnEntry (c : Command)
| Inherited (key : string).

Definition COMMAND_MAP_get (key : string) : option PropertyValue :=
  match COMMAND_MAP !! key with
  | Some c => Some (OwnEntry c)
  | None =>
      if bool_decide (key ∈ Js.Object_prototype_keys)
      then Some (Inherited key)
      else None
  end.

(** Every value [COMMAND_MAP_get] finds is an object or a function, hence
    truthy: the test [if (COMMAND_MAP[lowered])] succeeds exactly on [Some]. *)
Definition parseCommand (inputText : string) : PropertyValue :=
  let trimmed := Js.trim inputText in
  let lowered := Js.toLowerCase trimmed in
  match COMMAND_MAP_get lowered with
  | Some v => v
  | None =>
      if negb (Js.truthy trimmed) then OwnEntry (CmdChat EmptyString)
      else if Js.startsWith trimmed "/" then OwnEntry (CmdChat trimmed)
      else OwnEntry (CmdChat trimmed)
  end.

(** The parsing rule as the specification words it, for comparison with
    [parseCommand]: an unrecognised slash-prefixed input is carried raw. *)
Definition parseCommand_as_specified (inputText : string) : Command :=
  let trimmed := Js.trim inputText in
  match COMMAND_MAP !! Js.toLowerCase trimmed with
  | Some c => c
  | None =>
      if negb (Js.truthy trimmed) then CmdChat EmptyString
      else if Js.startsWith trimmed "/" then CmdChat inputText
      else CmdChat trimmed
  end.

(** ** prompts/templates.ts *)

(** [getContentPrompt] and [SYSTEM_PROMPT_BASE] are constant prompt texts
    with characters outside the modelled alphabet; the environment carries
    them (see [Env]).  The two follow-up templates are plain ASCII. *)

Definition getRefinementPrompt (originalContent refinementRequest : string) : string :=
  Js.nl +:+ "Based on this previously generated content:" +:+ Js.nl +:+ Js.nl
  +:+ originalContent +:+ Js.nl +:+ Js.nl
  +:+ "The user wants to refine it with this feedback:" +:+ Js.nl
  +:+ Js.dquote +:+ refinementRequest +:+ Js.dquote +:+ Js.nl +:+ Js.nl
  +:+ "Please update the content accordingly while maintaining the same format and quality."
  +:+ Js.nl.

Definition getMoreVariationsPrompt
    (contentType : ContentType) (existingContent topic : string) : string :=
  Js.nl +:+ "You previously generated this " +:+ ContentType_string contentType
  +:+ " content for " +:+ Js.dquote +:+ topic +:+ Js.dquote +:+ ":" +:+ Js.nl +:+ Js.nl
  +:+ existingContent +:+ Js.nl +:+ Js.nl
  +:+ "Generate 3 MORE unique variations that are different from the above but equally engaging."
  +:+ Js.nl
  +:+ "Use web_search_exa to find additional angles or fresh information." +:+ Js.nl
  +:+ "Maintain the same format and quality standards." +:+ Js.nl.

(** ** services/copilot.ts: cleanContent *)

(** The look-ahead [(?=##|#\s)]: the text at this position starts with two
    hashes, or with a hash followed by a white-space character. *)
Definition at_heading (s : string) : bool :=
  match s with
  | String c1 (String c2 _) =>
      Ascii.eqb c1 "#"%char && (Ascii.eqb c2 "#"%char || Js.is_space c2)
  | _ => false
  end.

(** The lazy scan of [^[\s\S]*?(?=##|#\s)] from the start of the text: the
    remainder at the first position where the look-ahead holds.  The anchor
    matches at position 0, so the [m] flag never comes into play: when the
    scan from 0 fails, no later start can succeed either. *)
Fixpoint find_heading (s : string) : option string :=
  if at_heading s then Some s
  else match s with
       | EmptyString => None
       | String _ s' => find_heading s'
       end.

Definition removePreamble (s : string) : string :=
  match find_heading s with
  | Some rest => rest
  | None => s
  end.

(** [replace(/\n{3,}/g, "\n\n")]: of a maximal run of newlines the first two
    are kept and the others dropped; [seen] counts the newlines of the run
    read so far. *)
Fixpoint collapse_run (seen : nat) (s : string) : string :=
  match s with
  | EmptyString => EmptyString
  | String c s' =>
      if Ascii.eqb c Js.newline
      then if seen <? 2
           then String c (collapse_run (S seen) s')
           else collapse_run seen s'
      else String c (collapse_run 0 s')
  end.

Definition collapseNewlines (s : string) : string := collapse_run 0 s.

Definition cleanContent (content : string) : string :=
  Js.trim (collapseNewlines (removePreamble content)).

(** Auxiliary notions used to state what [cleanContent] guarantees. *)

Fixpoint newlines (n : nat) : string :=
  match n with
  | 0 => EmptyString
  | S n' => String Js.newline (newlines n')
  end.

Definition first_char (s : string) : option ascii :=
  match s with
  | EmptyString => None
  | String c _ => Some c
  end.

Fixpoint last_char (s : string) : option ascii :=
  match s with
  | EmptyString => None
  | String c EmptyString => Some c
  | String _ s' => last_char s'
  end.

Definition not_space (o : option ascii) : Prop :=
  match o with
  | Some c => Js.is_space c = false
  | None => True
  end.

(** No run of more than two newlines, [seen] newlines standing just before. *)
Fixpoint run_bounded (seen : nat) (s : string) : bool :=
  match s with
  | EmptyString => true
  | String c s' =>
      if Ascii.eqb c Js.newline
      then (seen <? 2) && run_bounded (S seen) s'
      else run_bounded 0 s'
  end.

(** ** Thrown values and outcomes *)

(** What a [catch] clause receives: an [Error] object with its message, or
    some other thrown value. *)
Inductive Thrown :=
| JsError (message : string)
| NonError.

(** [error instanceof Error ? error.message : fallback] *)
Definition message_or (e : Thrown) (fallback : string) : string :=
  match e with
  | JsError m => m
  | NonError => fallback
  end.

Inductive Outcome (A : Type) :=
| Returned (a : A)
| Raised (e : Thrown).

Arguments Returned {A} a.
Arguments Raised {A} e.

(** ** services/exa.ts: data *)

Inductive ExaType := neural | keyword | auto.

Record ExaSearchOptions := {
  numResults : option nat;
  searchKind : option ExaType;
  useAutoprompt : option bool;
  includeDomains : option (list string);
  excludeDomains : option (list string);
  startPublishedDate : option string;
  endPublishedDate : option string;
  category : option string;
}.

Definition no_ExaSearchOptions : ExaSearchOptions :=
  {| numResults := None; searchKind := None; useAutoprompt := None;
     includeDomains := None; excludeDomains := None;
     startPublishedDate := None; endPublishedDate := None; category := None |}.

(** The arguments of [client.searchAndContents]: the query and the options
    with their defaults filled in ([text] and [highlights] are constants). *)
Record ExaRequest := {
  req_query : string;
  req_numResults : nat;
  req_type : ExaType;
  req_useAutoprompt : bool;
  req_includeDomains : option (list string);
  req_excludeDomains : option (list string);
  req_startPublishedDate : option string;
  req_endPublishedDate : option string;
  req_category : option string;
}.

(** One entry of [response.results] as the Exa client delivers it. *)
Record ExaRawResult := {
  raw_title : option string;
  raw_url : string;
  raw_highlights : option (list string);
  raw_text : option string;
  raw_publishedDate : option string;
  raw_author : option string;
  raw_score : option Z;
}.

Record ExaRawResponse := {
  raw_results : list ExaRawResult;
  raw_autopromptString : option string;
}.

Record ExaSearchResult := {
  results : list SearchResult;
  autopromptString : option string;
}.

Record ExaService := {
  apiKey : option string;
  exaClient : option unit;
}.

(** [new ExaService()], [key] being [process.env.EXA_API_KEY]. *)
Definition new_ExaService (key : option string) : ExaService :=
  {| apiKey := key;
     exaClient := if Js.truthy_opt key then Some tt else None |}.

Definition isConfigured (e : ExaService) : bool :=
  match exaClient e with Some _ => true | None => false end.

(** ** services/copilot.ts: data *)

Inductive ModelId :=
| gpt_4o | gpt_4_1 | gpt_5 | claude_sonnet_4 | o3 | o4_mini.

#[global] Instance ModelId_eq_dec : EqDecision ModelId.
Proof. solve_decision. Defined.

(** A session object of the SDK: the model it was created for and whether
    [destroy()] has completed on it.  The service keeps its reference to the
    object after destroying it. *)
Record Session := {
  sessionModel : ModelId;
  destroyed : bool;
}.

Record CopilotClient := {
  cliPath : option string;
}.

Inductive DeltaContent :=
| DeltaString (text : string)
| DeltaNotString
| DeltaAbsent.

Inductive SessionEvent :=
| AssistantMessageDelta (deltaContent : DeltaContent)
| AssistantUsage
| OtherEvent (eventType : string).

(** A call made to a collaborator. *)
Inductive Call :=
| ExaSearchAndContents (request : ExaRequest)
| ClientStart
| ClientStop
| ClientCreateSession (model : ModelId)
| SessionDestroy
| SessionSendAndWait (prompt : string).

(** A call together with the content cache as it was when the call was made. *)
Record Observed := {
  call : Call;
  cacheAtCall : gmap ContentType string;
}.

Record CopilotService := {
  client : option CopilotClient;
  session : option Session;
  context : SessionContext;
  currentModel : ModelId;
  exaService : ExaService;
  history : list Observed;
}.

(** The collaborators.  Each answer may depend on the calls made so far. *)
Record Env := {
  EXA_API_KEY : option string;
  resolveCopilotPath : option string;
  Date_now : list Observed -> Z;
  toLocaleDateString : string -> string;
  getContentPrompt : ContentType -> string -> Platform -> option string -> string;
  exa_searchAndContents : list Observed -> ExaRequest -> Outcome ExaRawResponse;
  sdk_start : list Observed -> Outcome unit;
  sdk_stop : list Observed -> Outcome unit;
  sdk_createSession : list Observed -> ModelId -> Outcome unit;
  sdk_destroy : list Observed -> Session -> Outcome unit;
  sdk_sendAndWait :
    list Observed -> Session -> string -> list SessionEvent * Outcome unit;
}.

(** ** The monad of service methods *)

Definition M (A : Type) : Type := CopilotService -> Outcome A * CopilotService.

Definition ret {A} (a : A) : M A := fun s => (Returned a, s).

Definition throw {A} (e : Thrown) : M A := fun s => (Raised e, s).

Definition bind {A B} (m : M A) (k : A -> M B) : M B :=
  fun s =>
    match m s with
    | (Returned a, s') => k a s'
    | (Raised e, s') => (Raised e, s')
    end.

Definition try_catch {A} (body : M A) (handler : Thrown -> M A) : M A :=
  fun s =>
    match body s with
    | (Returned a, s') => (Returned a, s')
    | (Raised e, s') => handler e s'
    end.

Definition gets {A} (f : CopilotService -> A) : M A := fun s => (Returned (f s), s).

Definition modify (f : CopilotService -> CopilotService) : M unit :=
  fun s => (Returned tt, f s).

Notation "'let*' x ':=' m 'in' k" := (bind m (fun x => k))
  (at level 10, x name, m at level 100, k at level 200).

(** Field updates. *)

Definition with_context (c : SessionContext) (s : CopilotService) : CopilotService :=
  {| client := client s; session := session s; context := c;
     currentModel := currentModel s; exaService := exaService s;
     history := history s |}.

Definition with_session (x : option Session) (s : CopilotService) : CopilotService :=
  {| client := client s; session := x; context := context s;
     currentModel := currentModel s; exaService := exaService s;
     history := history s |}.

Definition with_client (x : option CopilotClient) (s : CopilotService) : CopilotService :=
  {| client := x; session := session s; context := context s;
     currentModel := currentModel s; exaService := exaService s;
     history := history s |}.

Definition with_currentModel (m : ModelId) (s : CopilotService) : CopilotService :=
  {| client := client s; session := session s; context := context s;
     currentModel := m; exaService := exaService s;
     history := history s |}.

Definition with_history (h : list Observed) (s : CopilotService) : CopilotService :=
  {| client := client s; session := session s; context := context s;
     currentModel := currentModel s; exaService := exaService s;
     history := h |}.

Definition with_platform (p : Platform) (c : SessionContext) : SessionContext :=
  {| topic := topic c; platform := p; searchResults := searchResults c;
     generatedContent := generatedContent c |}.

Definition with_searchResults (r : option (list SearchResult)) (c : SessionContext)
    : SessionContext :=
  {| topic := topic c; platform := platform c; searchResults := r;
     generatedContent := generatedContent c |}.

Definition with_generatedContent (g : gmap ContentType string) (c : SessionContext)
    : SessionContext :=
  {| topic := topic c; platform := platform c; searchResults := searchResults c;
     generatedContent := g |}.

Definition cache (s : CopilotService) : gmap ContentType string :=
  generatedContent (context s).

(** Append a call to the history, with the cache as it is now. *)
Definition observe (c : Call) (s : CopilotService) : CopilotService :=
  with_history (history s ++ [ {| call := c; cacheAtCall := cache s |} ]) s.

(** Make a call whose answer the environment gives from the history. *)
Definition perform {A} (c : Call) (answer : list Observed -> Outcome A) : M A :=
  fun s => (answer (history s), observe c s).

(** ** services/exa.ts: methods *)

Section Service.

Context (env : Env).

Definition to_SearchResult (r : ExaRawResult) : SearchResult :=
  {| title := Js.or_else (default EmptyString (raw_title r)) "Untitled";
     url := raw_url r;
     snippet :=
       Js.or_else
         (default EmptyString (Js.join " " <$> raw_highlights r))
         (Js.or_else
            (default EmptyString (Js.substring0 500 <$> raw_text r))
            EmptyString);
     publishedDate := raw_publishedDate r;
     author := raw_author r;
     score := raw_score r |}.

Definition to_ExaRequest (query : string) (options : ExaSearchOptions) : ExaRequest :=
  {| req_query := query;
     req_numResults := default 10 (numResults options);
     req_type := default auto (searchKind options);
     req_useAutoprompt := default true (useAutoprompt options);
     req_includeDomains := includeDomains options;
     req_excludeDomains := excludeDomains options;
     req_startPublishedDate := startPublishedDate options;
     req_endPublishedDate := endPublishedDate options;
     req_category := category options |}.

Definition searchAndContents (query : string) (options : ExaSearchOptions)
    : M ExaSearchResult :=
  let* exa := gets exaService in
  match exaClient exa with
  | None =>
      throw (JsError
        "Exa API key not configured. Set EXA_API_KEY environment variable.")
  | Some _ =>
      let request := to_ExaRequest query options in
      try_catch
        (let* response :=
           perform (ExaSearchAndContents request)
                   (fun h => exa_searchAndContents env h request) in
         ret {| results := to_SearchResult <$> raw_results response;
                autopromptString := raw_autopromptString response |})
        (fun e =>
           throw (JsError ("Exa search failed: " +:+ message_or e "Search failed")))
  end.

(** [options.numResults || 15]: an absent or zero count becomes 15. *)
Definition numResults_or (options : ExaSearchOptions) (fallback : nat) : nat :=
  match numResults options with
  | Some (S n) => S n
  | _ => fallback
  end.

(** [new Date(now.getTime() - 7 * 24 * 60 * 60 * 1000)] and the part of its
    [toISOString()] before the "T"; the clock is read in milliseconds. *)
Definition searchTrending (topic : string) (options : ExaSearchOptions)
    : M ExaSearchResult :=
  let* now := gets (fun s => Date_now env (history s)) in
  let weekAgo := (now - 7 * 24 * 60 * 60 * 1000)%Z in
  match Js.toISOString weekAgo with
  | None => throw (JsError "Invalid time value")
  | Some iso =>
      searchAndContents topic
        {| numResults := Some (numResults_or options 15);
           searchKind := searchKind options;
           useAutoprompt := useAutoprompt options;
           includeDomains := includeDomains options;
           excludeDomains := excludeDomains options;
           startPublishedDate := Some (Js.before "T" iso);
           endPublishedDate := endPublishedDate options;
           category := category options |}
  end.

(** [allResults.filter((result, index, self) =>
      index === self.findIndex((r) => r.url === result.url))]:
    an entry stays when no earlier entry has its URL. *)
Fixpoint dedupe_by_url (kept : list string) (l : list SearchResult)
    : list SearchResult :=
  match l with
  | [] => []
  | r :: rest =>
      if bool_decide (url r ∈ kept)
      then dedupe_by_url kept rest
      else r :: dedupe_by_url (url r :: kept) rest
  end.

Fixpoint searchContentIdeas_loop (queries : list string)
    (options : ExaSearchOptions) (allResults : list SearchResult)
    : M (list SearchResult) :=
  match queries with
  | [] => ret allResults
  | query :: rest =>
      let* more :=
        try_catch
          (let* response :=
             searchAndContents query
               {| numResults := Some 5;
                  searchKind := searchKind options;
                  useAutoprompt := useAutoprompt options;
                  includeDomains := includeDomains options;
                  excludeDomains := excludeDomains options;
                  startPublishedDate := startPublishedDate options;
                  endPublishedDate := endPublishedDate options;
                  category := category options |} in
           ret (results response))
          (fun _ => ret []) in
      searchContentIdeas_loop rest options (allResults ++ more)
  end.

Definition searchContentIdeas (topic : string) (options : ExaSearchOptions)
    : M ExaSearchResult :=
  let queries :=
    [ "viral " +:+ topic +:+ " content";
      topic +:+ " trending tips";
      "best " +:+ topic +:+ " content ideas" ] in
  let* allResults := searchContentIdeas_loop queries options [] in
  ret {| results := dedupe_by_url [] allResults; autopromptString := None |}.

Definition format_one (i : nat) (r : SearchResult) : string :=
  let date :=
    match publishedDate r with
    | Some d =>
        if Js.truthy d then " (" +:+ toLocaleDateString env d +:+ ")"
        else EmptyString
    | None => EmptyString
    end in
  let by_author :=
    match author r with
    | Some a => if Js.truthy a then " by " +:+ a else EmptyString
    | None => EmptyString
    end in
  "[" +:+ Js.number_to_string (i + 1) +:+ "] " +:+ title r +:+ date +:+ by_author
  +:+ Js.nl +:+ "URL: " +:+ url r +:+ Js.nl +:+ snippet r +:+ Js.nl.

Definition formatResultsForLLM (rs : list SearchResult) : string :=
  match rs with
  | [] => "No search results found."
  | _ => Js.join (Js.nl +:+ "---" +:+ Js.nl) (imap format_one rs)
  end.

End Service.

(** ** services/copilot.ts: methods *)

Inductive SearchType := generalSearch | trendingSearch | ideasSearch.

Record GenerateOptions := {
  regenerate : option bool;
  additionalContext : option string;
}.

Definition failure (msg : string) : GenerationResult :=
  {| content := EmptyString; success := false; error := Some msg |}.

Definition succeeded (text : string) : GenerationResult :=
  {| content := text; success := true; error := None |}.

(** [handleEvent]: the text an event hands to [onText], if any. *)
Definition handleEvent (event : SessionEvent) : option string :=
  match event with
  | AssistantMessageDelta (DeltaString text) =>
      if Js.truthy text then Some text else None
  | AssistantMessageDelta _ => None
  | AssistantUsage => None
  | OtherEvent _ => None
  end.

(** The listener of [sendPrompt]: [content += text] for every event. *)
Fixpoint accumulate (content : string) (events : list SessionEvent) : string :=
  match events with
  | [] => content
  | event :: rest =>
      match handleEvent event with
      | Some text => accumulate (content +:+ text) rest
      | None => accumulate content rest
      end
  end.

Definition new_CopilotService (env : Env)
    (topic : string) (platform : Platform) (model : ModelId) : CopilotService :=
  {| client := None;
     session := None;
     context := {| topic := topic; platform := platform;
                   searchResults := None; generatedContent := ∅ |};
     currentModel := model;
     exaService := new_ExaService (EXA_API_KEY env);
     history := [] |}.

Section Copilot.

Context (env : Env).

Definition hasExaKey : M bool := gets (fun s => isConfigured (exaService s)).

Definition getModel : M ModelId := gets currentModel.

Definition getPlatform : M Platform := gets (fun s => platform (context s)).

Definition setPlatform (p : Platform) : M unit :=
  modify (fun s => with_context (with_platform p (context s)) s).

Definition getTopic : M string := gets (fun s => topic (context s)).

Definition setTopic (t : string) : M unit :=
  modify (fun s =>
    with_context
      {| topic := t; platform := platform (context s);
         searchResults := None; generatedContent := ∅ |} s).

Definition createSession : M unit :=
  let* c := gets client in
  match c with
  | None =>
      throw (JsError "Cannot read properties of null (reading 'createSession')")
  | Some _ =>
      let* model := gets currentModel in
      let* _ := perform (ClientCreateSession model)
                        (fun h => sdk_createSession env h model) in
      modify (with_session (Some {| sessionModel := model; destroyed := false |}))
  end.

(** [this.session.destroy()] *)
Definition destroy (x : Session) : M unit :=
  let* _ := perform SessionDestroy (fun h => sdk_destroy env h x) in
  modify (with_session (Some {| sessionModel := sessionModel x; destroyed := true |})).

Definition switchModel (newModel : ModelId) : M unit :=
  let* current := gets currentModel in
  if bool_decide (newModel = current) then ret tt
  else
    try_catch
      (let* existing := gets session in
       let* _ :=
         match existing with
         | Some x => try_catch (destroy x) (fun _ => ret tt)
         | None => ret tt
         end in
       let* _ := modify (with_currentModel newModel) in
       createSession)
      (fun e => throw e).

Definition initialize : M unit :=
  try_catch
    (let* _ := modify (with_client (Some {| cliPath := resolveCopilotPath env |})) in
     let* _ := perform ClientStart (sdk_start env) in
     createSession)
    (fun e => throw e).

Definition performSearch (kind : SearchType) : M string :=
  let* exa := gets exaService in
  if negb (isConfigured exa)
  then ret "Note: Using general knowledge. For better results, set EXA_API_KEY in .env file."
  else
    try_catch
      (let* t := getTopic in
       let* searchResult :=
         match kind with
         | trendingSearch => searchTrending env t no_ExaSearchOptions
         | ideasSearch => searchContentIdeas env t no_ExaSearchOptions
         | generalSearch =>
             searchAndContents env t
               {| numResults := Some 5; searchKind := None; useAutoprompt := None;
                  includeDomains := None; excludeDomains := None;
                  startPublishedDate := None; endPublishedDate := None;
                  category := None |}
         end in
       let* _ :=
         modify (fun s =>
           with_context
             (with_searchResults (Some (results searchResult)) (context s)) s) in
       ret (formatResultsForLLM env (results searchResult)))
      (fun _ =>
         let* t := getTopic in
         ret ("Using general knowledge about " +:+ Js.dquote +:+ t +:+ Js.dquote
              +:+ ".")).

Definition cache_set (t : ContentType) (text : string) : M unit :=
  modify (fun s =>
    with_context (with_generatedContent (<[t := text]> (cache s)) (context s)) s).

Definition cache_delete (t : ContentType) : M unit :=
  modify (fun s =>
    with_context (with_generatedContent (delete t (cache s)) (context s)) s).

Definition sendAndWait (x : Session) (prompt : string) : M (list SessionEvent) :=
  fun s =>
    let '(events, outcome) := sdk_sendAndWait env (history s) x prompt in
    let s' := observe (SessionSendAndWait prompt) s in
    match outcome with
    | Returned _ => (Returned events, s')
    | Raised e => (Raised e, s')
    end.

Definition sendPrompt (prompt : string) (contentType : option ContentType)
    : M GenerationResult :=
  let* current := gets session in
  match current with
  | None => ret (failure "Session not initialized")
  | Some x =>
      try_catch
        (let* events := sendAndWait x prompt in
         let content := cleanContent (accumulate EmptyString events) in
         let* _ :=
           match contentType with
           | Some t => if Js.truthy content then cache_set t content else ret tt
           | None => ret tt
           end in
         ret (succeeded content))
        (fun e => ret (failure (message_or e "Generation failed")))
  end.

Definition searchType_of (contentType : ContentType) : SearchType :=
  match contentType with
  | trending => trendingSearch
  | ideas => ideasSearch
  | _ => generalSearch
  end.

Definition generate (contentType : ContentType) (options : GenerateOptions)
    : M GenerationResult :=
  let regen := default false (regenerate options) in
  let* _ := if regen then cache_delete contentType else ret tt in
  let* cached := gets (fun s => cache s !! contentType) in
  if Js.truthy_opt cached && negb regen
  then ret (succeeded (default EmptyString cached))
  else
    let* searchText := performSearch (searchType_of contentType) in
    let* t := getTopic in
    let* p := getPlatform in
    let basePrompt :=
      getContentPrompt env contentType t p (additionalContext options) in
    let promptWithSearch :=
      searchText +:+ Js.nl +:+ Js.nl +:+ "---" +:+ Js.nl +:+ Js.nl +:+ basePrompt in
    sendPrompt promptWithSearch (Some contentType).

Definition refine (contentType : ContentType) (refinementRequest : string)
    : M GenerationResult :=
  let* lastContent := gets (fun s => cache s !! contentType) in
  if negb (Js.truthy_opt lastContent)
  then ret (failure "No content to refine. Generate content first.")
  else
    let prompt :=
      getRefinementPrompt (default EmptyString lastContent) refinementRequest in
    sendPrompt prompt (Some contentType).

Definition getMoreVariations (contentType : ContentType) : M GenerationResult :=
  let* existingContent := gets (fun s => cache s !! contentType) in
  if negb (Js.truthy_opt existingContent)
  then ret (failure "No existing content. Generate content first.")
  else
    let* t := getTopic in
    let prompt :=
      getMoreVariationsPrompt contentType (default EmptyString existingContent) t in
    sendPrompt prompt (Some contentType).

Definition getLastContent (contentType : ContentType) : M (option string) :=
  gets (fun s => cache s !! contentType).

Definition cleanup : M unit :=
  try_catch
    (let* existing := gets session in
     let* _ :=
       match existing with
       | Some x => destroy x
       | None => ret tt
       end in
     let* c := gets client in
     match c with
     | Some _ => perform ClientStop (sdk_stop env)
     | None => ret tt
     end)
    (fun _ => ret tt).

(** The public operations that change the service, and the states they
    lead to from a freshly constructed service. *)
Inductive Op :=
| OpInitialize
| OpSetPlatform (p : Platform)
| OpSetTopic (t : string)
| OpSwitchModel (m : ModelId)
| OpGenerate (contentType : ContentType) (options : GenerateOptions)
| OpRefine (contentType : ContentType) (refinementRequest : string)
| OpGetMoreVariations (contentType : ContentType)
| OpCleanup.

Definition after (op : Op) (s : CopilotService) : CopilotService :=
  match op with
  | OpInitialize => snd (initialize s)
  | OpSetPlatform p => snd (setPlatform p s)
  | OpSetTopic t => snd (setTopic t s)
  | OpSwitchModel m => snd (switchModel m s)
  | OpGenerate t o => snd (generate t o s)
  | OpRefine t r => snd (refine t r s)
  | OpGetMoreVariations t => snd (getMoreVariations t s)
  | OpCleanup => snd (cleanup s)
  end.

Definition after_all (ops : list Op) (s : CopilotService) : CopilotService :=
  foldl (fun acc op => after op acc) s ops.

Inductive reachable : CopilotService -> Prop :=
| reachable_new topic platform model :
    reachable (new_CopilotService env topic platform model)
| reachable_after op s :
    reachable s -> reachable (after op s).

End Copilot.

(** ** index.ts: application state and command loop *)

(** What the display functions put on the terminal, one constructor per
    function and message; the rendering itself is left out. *)
Inductive Output :=
| ClearScreen
| PrintHeader
| PrintExaStatus (hasKey : bool)
| PrintWarning (message : string)
| PrintGenerating (platform : Platform) (topic : string)
| PrintDone
| PrintContent (text : string) (contentType : ContentType)
| PrintError (message : string)
| PrintSuccess (message : string)
| PrintHelp
| PrintGoodbye
| RefreshScreen
| ShowPromptStatus.

Definition Platform_string (p : Platform) : string :=
  match p with
  | instagram => "instagram" | youtube => "youtube"
  | tiktok => "tiktok" | all => "all"
  end.

Definition ModelId_string (m : ModelId) : string :=
  match m with
  | gpt_4o => "gpt-4o" | gpt_4_1 => "gpt-4.1" | gpt_5 => "gpt-5"
  | claude_sonnet_4 => "claude-sonnet-4" | o3 => "o3" | o4_mini => "o4-mini"
  end.

(** [AppState]; its [topic], [platform] and [model] fields carry the prefix
    [app] here, the short names being those of the session context. *)
Record AppState := {
  appTopic : string;
  appPlatform : Platform;
  appModel : ModelId;
  service : option CopilotService;
  lastContent : string;
  lastContentType : option ContentType;
}.

(** The module-level [state] together with what has been printed. *)
Record Cli := {
  state : AppState;
  printed : list Output;
}.

(** What the user answers to the prompts of one loop iteration, and whether
    the clipboard accepts a write. *)
Record Answers := {
  chosenPlatform : Platform;
  chosenTopic : string;
  chosenModel : ModelId;
  clipboardWrites : bool;
}.

(** What the prompts of one pass resolve to: the user's answer, or the error
    the prompt rejects with when the user closes it.  [copyToClipboard]
    catches what the clipboard throws and answers with a boolean. *)
Record Prompts := {
  promptPlatform : Outcome Platform;
  promptTopic : Outcome string;
  promptModel : Outcome ModelId;
  copyToClipboard : bool;
}.

(** The prompts when the user answers every one of them. *)
Definition answered (answers : Answers) : Prompts :=
  {| promptPlatform := Returned (chosenPlatform answers);
     promptTopic := Returned (chosenTopic answers);
     promptModel := Returned (chosenModel answers);
     copyToClipboard := clipboardWrites answers |}.

(** How an iteration ends: the loop goes on, or the process exits. *)
Inductive Next :=
| Continue
| Exit (code : nat).

Definition App (A : Type) : Type := Cli -> Outcome A * Cli.

Definition initial_state : AppState :=
  {| appTopic := EmptyString; appPlatform := all; appModel := gpt_4o;
     service := None; lastContent := EmptyString; lastContentType := None |}.

Definition print (o : Output) (c : Cli) : Cli :=
  {| state := state c; printed := printed c ++ [o] |}.

Definition with_state (st : AppState) (c : Cli) : Cli :=
  {| state := st; printed := printed c |}.

Definition with_service (svc : option CopilotService) (st : AppState) : AppState :=
  {| appTopic := appTopic st; appPlatform := appPlatform st;
     appModel := appModel st; service := svc;
     lastContent := lastContent st; lastContentType := lastContentType st |}.

Definition with_appTopic (t : string) (st : AppState) : AppState :=
  {| appTopic := t; appPlatform := appPlatform st;
     appModel := appModel st; service := service st;
     lastContent := lastContent st; lastContentType := lastContentType st |}.

Definition with_appPlatform (p : Platform) (st : AppState) : AppState :=
  {| appTopic := appTopic st; appPlatform := p;
     appModel := appModel st; service := service st;
     lastContent := lastContent st; lastContentType := lastContentType st |}.

Definition with_appModel (m : ModelId) (st : AppState) : AppState :=
  {| appTopic := appTopic st; appPlatform := appPlatform st;
     appModel := m; service := service st;
     lastContent := lastContent st; lastContentType := lastContentType st |}.

Definition with_lastContent (text : string) (st : AppState) : AppState :=
  {| appTopic := appTopic st; appPlatform := appPlatform st;
     appModel := appModel st; service := service st;
     lastContent := text; lastContentType := lastContentType st |}.

Definition with_lastContentType (t : option ContentType) (st : AppState) : AppState :=
  {| appTopic := appTopic st; appPlatform := appPlatform st;
     appModel := appModel st; service := service st;
     lastContent := lastContent st; lastContentType := t |}.

(** A method call on [state.service]: a [TypeError] when it is [null],
    otherwise the method runs on the service object in place. *)
Definition on_service {A} (method : string) (m : M A) : App A :=
  fun c =>
    match service (state c) with
    | None =>
        (Raised (JsError ("Cannot read properties of null (reading '"
                          +:+ method +:+ "')")), c)
    | Some svc =>
        let '(o, svc') := m svc in
        (o, with_state (with_service (Some svc') (state c)) c)
    end.

(** [result.error || fallback] *)
Definition error_or (result : GenerationResult) (fallback : string) : string :=
  Js.or_else (default EmptyString (error result)) fallback.

Section Index.

Context (env : Env).

Definition handleContent (contentType : ContentType) : App unit :=
  fun c =>
    match service (state c) with
    | None => (Returned tt, print (PrintError "Service not initialized") c)
    | Some _ =>
        match on_service "generate"
                (generate env contentType
                   {| regenerate := Some true; additionalContext := None |}) c
        with
        | (Raised e, c1) => (Raised e, c1)
        | (Returned result, c1) =>
            if success result && Js.truthy (content result)
            then
              let st :=
                with_lastContentType (Some contentType)
                  (with_lastContent (content result) (state c1)) in
              (Returned tt,
               print (PrintContent (content result) contentType)
                     (with_state st c1))
            else
              (Returned tt,
               print (PrintError (error_or result "Failed to generate content")) c1)
        end
    end.

Definition handleChat (message : string) : App unit :=
  fun c =>
    if negb (Js.truthy (Js.trim message)) then (Returned tt, c)
    else
      match service (state c) with
      | None => (Returned tt, print (PrintError "Service not initialized") c)
      | Some _ =>
          match lastContentType (state c) with
          | Some t =>
              if Js.truthy (lastContent (state c))
              then
                match on_service "refine" (refine env t message) c with
                | (Raised e, c1) => (Raised e, c1)
                | (Returned result, c1) =>
                    if success result && Js.truthy (content result)
                    then
                      (Returned tt,
                       print (PrintContent (content result) t)
                             (with_state
                                (with_lastContent (content result) (state c1)) c1))
                    else
                      (Returned tt,
                       print (PrintError
                                (error_or result "Failed to refine content")) c1)
                end
              else
                let c1 := with_state (with_appTopic message (state c)) c in
                match on_service "setTopic" (setTopic message) c1 with
                | (Raised e, c2) => (Raised e, c2)
                | (Returned _, c2) => handleContent search c2
                end
          | None =>
              let c1 := with_state (with_appTopic message (state c)) c in
              match on_service "setTopic" (setTopic message) c1 with
              | (Raised e, c2) => (Raised e, c2)
              | (Returned _, c2) => handleContent search c2
              end
          end
      end.

(** The [switch] of the chat loop.  An awaited prompt that rejects throws
    out of [run], to the handler of the command-line action. *)
Definition run_switch (command : Command) (p : Prompts) : App Next :=
  fun c =>
    match command with
    | CmdQuit =>
        let c1 := print PrintGoodbye c in
        match service (state c1) with
        | None => (Returned (Exit 0), c1)
        | Some _ =>
            match on_service "cleanup" (cleanup env) c1 with
            | (Raised e, c2) => (Raised e, c2)
            | (Returned _, c2) => (Returned (Exit 0), c2)
            end
        end
    | CmdHelp => (Returned Continue, print PrintHelp c)
    | CmdClear => (Returned Continue, print RefreshScreen c)
    | CmdLast =>
        match lastContentType (state c) with
        | Some t =>
            if Js.truthy (lastContent (state c))
            then (Returned Continue, print (PrintContent (lastContent (state c)) t) c)
            else (Returned Continue, print (PrintError "No content generated yet.") c)
        | None => (Returned Continue, print (PrintError "No content generated yet.") c)
        end
    | CmdPlatform =>
        match promptPlatform p with
        | Raised e => (Raised e, c)
        | Returned newPlatform =>
            if bool_decide (newPlatform = appPlatform (state c))
            then (Returned Continue, c)
            else
              let c1 := with_state (with_appPlatform newPlatform (state c)) c in
              match on_service "setPlatform" (setPlatform newPlatform) c1 with
              | (Raised e, c2) => (Raised e, c2)
              | (Returned _, c2) =>
                  (Returned Continue,
                   print (PrintSuccess
                            ("Switched to " +:+ Platform_string newPlatform)) c2)
              end
        end
    | CmdTopic =>
        match promptTopic p with
        | Raised e => (Raised e, c)
        | Returned newTopic =>
            if bool_decide (newTopic = appTopic (state c))
            then (Returned Continue, c)
            else
              let c1 := with_state (with_appTopic newTopic (state c)) c in
              match on_service "setTopic" (setTopic newTopic) c1 with
              | (Raised e, c2) => (Raised e, c2)
              | (Returned _, c2) =>
                  (Returned Continue,
                   print (PrintSuccess ("Topic changed to: " +:+ newTopic)) c2)
              end
        end
    | CmdModel =>
        match promptModel p with
        | Raised e => (Raised e, c)
        | Returned newModel =>
            if bool_decide (newModel = appModel (state c))
            then (Returned Continue, c)
            else
              match on_service "switchModel" (switchModel env newModel) c with
              | (Raised e, c1) => (Raised e, c1)
              | (Returned _, c1) =>
                  (Returned Continue,
                   print (PrintSuccess
                            ("Switched to " +:+ ModelId_string newModel))
                         (with_state (with_appModel newModel (state c1)) c1))
              end
        end
    | CmdCopy =>
        if Js.truthy (lastContent (state c))
        then
          if copyToClipboard p
          then (Returned Continue, print (PrintSuccess "Copied to clipboard!") c)
          else (Returned Continue, print (PrintError "Failed to copy to clipboard") c)
        else
          (Returned Continue,
           print (PrintError "Nothing to copy yet. Generate some content first.") c)
    | CmdContent contentType =>
        match handleContent contentType c with
        | (Raised e, c1) => (Raised e, c1)
        | (Returned _, c1) => (Returned Continue, c1)
        end
    | CmdChat message =>
        match handleChat message c with
        | (Raised e, c1) => (Raised e, c1)
        | (Returned _, c1) => (Returned Continue, c1)
        end
    end.

(** One pass through the chat loop; [line] is what [promptCommand] resolves
    to.  A value that is not a [Command] has no [type] any [case] matches. *)
Definition run_pass (line : Outcome string) (p : Prompts) : App Next :=
  fun c =>
    let c1 := print ShowPromptStatus c in
    match line with
    | Raised e => (Raised e, c1)
    | Returned input =>
        match parseCommand input with
        | OwnEntry command => run_switch command p c1
        | Inherited _ => (Returned Continue, c1)
        end
    end.

(** [run] up to the chat loop; [initialTopic] is the command-line argument.
    The topic prompt is awaited only without one. *)
Definition run_setup (initialTopic : option string) (p : Prompts) : App Next :=
  fun c =>
    let hasExaKey := Js.truthy_opt (EXA_API_KEY env) in
    let c1 := print (PrintExaStatus hasExaKey) (print PrintHeader (print ClearScreen c)) in
    let c2 :=
      if hasExaKey then c1
      else print (PrintWarning
                    "Set EXA_API_KEY in .env file for web search capabilities") c1 in
    match (if Js.truthy_opt initialTopic
           then Returned (default EmptyString initialTopic)
           else promptTopic p) with
    | Raised e => (Raised e, c2)
    | Returned t =>
        match promptPlatform p with
        | Raised e => (Raised e, with_state (with_appTopic t (state c2)) c2)
        | Returned chosen =>
            let svc := new_CopilotService env t chosen gpt_4o in
            let st :=
              {| appTopic := t; appPlatform := chosen; appModel := gpt_4o;
                 service := Some svc;
                 lastContent := lastContent (state c2);
                 lastContentType := lastContentType (state c2) |} in
            let c3 := with_state st c2 in
            match on_service "initialize" (initialize env) c3 with
            | (Raised e, c4) =>
                (Returned (Exit 1),
                 print (PrintError (message_or e "Failed to connect")) c4)
            | (Returned _, c4) =>
                let c5 := print (PrintGenerating chosen t) c4 in
                match on_service "generate"
                        (generate env script
                           {| regenerate := Some true;
                              additionalContext := None |}) c5
                with
                | (Raised e, c6) => (Raised e, c6)
                | (Returned result, c6) =>
                    let c7 :=
                      if success result && Js.truthy (content result)
                      then
                        print PrintDone
                          (print (PrintContent (content result) script)
                             (with_state
                                (with_lastContentType (Some script)
                                   (with_lastContent (content result)
                                      (state c6))) c6))
                      else
                        print (PrintError
                                 (error_or result "Failed to generate content"))
                              c6 in
                    (Returned Continue, print PrintHelp (print RefreshScreen c7))
                end
            end
        end
    end.

(** The same three when the user answers every prompt: the [switch], one
    pass on the line the user typed, and [run] up to the chat loop. *)
Definition dispatch (command : Command) (answers : Answers) : App Next :=
  run_switch command (answered answers).

Definition iteration (input : string) (answers : Answers) : App Next :=
  run_pass (Returned input) (answered answers).

Definition startup (initialTopic : option string) (answers : Answers) : App Next :=
  run_setup initialTopic (answered answers).

End Index.

(** ** Concrete environments and services for the examples *)

Definition is_createSession (o : Observed) : bool :=
  match call o with
  | ClientCreateSession _ => true
  | _ => false
  end.

(** An environment without Exa key whose AI answers every prompt with the
    one delta [reply h], [h] being the calls made so far, and whose
    [createSession] follows [create]. *)
Definition scripted_env
    (reply : list Observed -> Outcome string)
    (create : list Observed -> Outcome unit) : Env :=
  {| EXA_API_KEY := None;
     resolveCopilotPath := None;
     Date_now := fun _ => 1704712345678%Z;
     toLocaleDateString := fun d => d;
     getContentPrompt := fun t topic _ _ =>
       "Write " +:+ ContentType_string t +:+ " about " +:+ topic;
     exa_searchAndContents := fun _ _ =>
       Returned {| raw_results := []; raw_autopromptString := None |};
     sdk_start := fun _ => Returned tt;
     sdk_stop := fun _ => Returned tt;
     sdk_createSession := fun h _ => create h;
     sdk_destroy := fun _ _ => Returned tt;
     sdk_sendAndWait := fun h _ _ =>
       match reply h with
       | Returned text => ([AssistantMessageDelta (DeltaString text)], Returned tt)
       | Raised e => ([], Raised e)
       end |}.

(** The AI numbers its drafts by the length of the history. *)
Definition env_drafts : Env :=
  scripted_env
    (fun h => Returned ("## Draft " +:+ Js.number_to_string (length h)))
    (fun _ => Returned tt).

(** The AI answers with a single blank. *)
Definition env_blank : Env :=
  scripted_env (fun _ => Returned " ") (fun _ => Returned tt).

(** The AI call fails once a first draft has been delivered. *)
Definition env_ai_fails_later : Env :=
  scripted_env
    (fun h => if length h <=? 2 then Returned "## Draft"
              else Raised (JsError "socket hang up"))
    (fun _ => Returned tt).

(** Only the first session can be created. *)
Definition env_one_session : Env :=
  scripted_env
    (fun _ => Returned "## Draft")
    (fun h => if existsb is_createSession h
              then Raised (JsError "model not available")
              else Returned tt).

Definition plain (regen : bool) : GenerateOptions :=
  {| regenerate := Some regen; additionalContext := None |}.

(** A service that has been constructed and initialized. *)
Definition started (env : Env) : CopilotService :=
  after env OpInitialize (new_CopilotService env "cats" all gpt_4o).

(** ... and has then generated ideas once. *)
Definition with_ideas (env : Env) : CopilotService :=
  after env (OpGenerate ideas (plain false)) (started env).

(** An environment like [env] but with an Exa key and the Exa client
    [search]. *)
Definition with_exa (env : Env)
    (search : list Observed -> ExaRequest -> Outcome ExaRawResponse) : Env :=
  {| EXA_API_KEY := Some "exa-key";
     resolveCopilotPath := resolveCopilotPath env;
     Date_now := Date_now env;
     toLocaleDateString := toLocaleDateString env;
     getContentPrompt := getContentPrompt env;
     exa_searchAndContents := search;
     sdk_start := sdk_start env;
     sdk_stop := sdk_stop env;
     sdk_createSession := sdk_createSession env;
     sdk_destroy := sdk_destroy env;
     sdk_sendAndWait := sdk_sendAndWait env |}.

Definition raw_hit (u : string) (t : option string) : ExaRawResult :=
  {| raw_title := t; raw_url := u; raw_highlights := None;
     raw_text := Some ("Page at " +:+ u); raw_publishedDate := None;
     raw_author := None; raw_score := None |}.

(** Every search finds the same three pages, two of them under one URL. *)
Definition env_exa : Env :=
  with_exa env_drafts
    (fun _ _ =>
       Returned
         {| raw_results :=
              [ raw_hit "https://a.example" (Some "A");
                raw_hit "https://b.example" None;
                raw_hit "https://a.example" (Some "A again") ];
            raw_autopromptString := None |}).

(** Every search fails. *)
Definition env_exa_down : Env :=
  with_exa env_drafts (fun _ _ => Raised (JsError "503")).

(** The options of one query of [searchContentIdeas] and the call made for
    it. *)
Definition idea_options (options : ExaSearchOptions) : ExaSearchOptions :=
  {| numResults := Some 5;
     searchKind := searchKind options;
     useAutoprompt := useAutoprompt options;
     includeDomains := includeDomains options;
     excludeDomains := excludeDomains options;
     startPublishedDate := startPublishedDate options;
     endPublishedDate := endPublishedDate options;
     category := category options |}.

Definition idea_call (options : ExaSearchOptions) (s : CopilotService)
    (query : string) : Observed :=
  {| call := ExaSearchAndContents (to_ExaRequest query (idea_options options));
     cacheAtCall := cache s |}.

Definition idea_queries (t : string) : list string :=
  [ "viral " +:+ t +:+ " content";
    t +:+ " trending tips";
    "best " +:+ t +:+ " content ideas" ].

(** ** Notions used in the statements *)

(** [rest] is where the first heading marker of [pre +:+ rest] starts: the
    look-ahead holds there and at no position inside [pre]. *)
Definition first_heading_at (pre rest : string) : Prop :=
  at_heading rest = true /\
  forall p1 p2, pre = p1 +:+ p2 -> p2 <> EmptyString ->
                at_heading (p2 +:+ rest) = false.

(** Every run of [m] relates the service before to the service after. *)
Definition steps (R : CopilotService -> CopilotService -> Prop) {A} (m : M A) : Prop :=
  forall s, R s (m s).2.

(** A step that only makes calls: the history grows by calls observed
    under the unchanged cache, and nothing else but the stored search
    results changes. *)
Definition search_step (s s' : CopilotService) : Prop :=
  client s' = client s /\ session s' = session s /\
  currentModel s' = currentModel s /\ exaService s' = exaService s /\
  topic (context s') = topic (context s) /\
  platform (context s') = platform (context s) /\
  cache s' = cache s /\
  exists new, history s' = history s ++ new /\
              Forall (fun o => cacheAtCall o = cache s) new.

(** A step that leaves the session context alone. *)
Definition context_step (s s' : CopilotService) : Prop :=
  context s' = context s.

(** No entry of the cache is the empty string. *)
Definition cache_wf (g : gmap ContentType string) : Prop :=
  forall t text, g !! t = Some text -> Js.truthy text = true.

Definition wf_step (s s' : CopilotService) : Prop :=
  cache_wf (cache s) -> cache_wf (cache s').

(** The service once [sendPrompt] has stored a cleaned reply: the cache is
    written only for a given content type and a non-empty text. *)
Definition stored (contentType : option ContentType) (text : string)
    (s : CopilotService) : CopilotService :=
  match contentType with
  | Some t => if Js.truthy text then (cache_set t text s).2 else s
  | None => s
  end.

(** The three ways [sendPrompt] ends. *)
Inductive sendPrompt_outcome (env : Env) (prompt : string)
    (contentType : option ContentType) (s : CopilotService)
    : GenerationResult -> CopilotService -> Prop :=
| sent_no_session :
    session s = None ->
    sendPrompt_outcome env prompt contentType s
      (failure "Session not initialized") s
| sent_raised x events e :
    session s = Some x ->
    sdk_sendAndWait env (history s) x prompt = (events, Raised e) ->
    sendPrompt_outcome env prompt contentType s
      (failure (message_or e "Generation failed"))
      (observe (SessionSendAndWait prompt) s)
| sent_returned x events u :
    session s = Some x ->
    sdk_sendAndWait env (history s) x prompt = (events, Returned u) ->
    sendPrompt_outcome env prompt contentType s
      (succeeded (cleanContent (accumulate EmptyString events)))
      (stored contentType (cleanContent (accumulate EmptyString events))
              (observe (SessionSendAndWait prompt) s)).

(** The prompt [generate] sends after its search. *)
Definition promptWithSearch (env : Env) (contentType : ContentType)
    (options : GenerateOptions) (searchText : string) (s : CopilotService) : string :=
  searchText +:+ Js.nl +:+ Js.nl +:+ "---" +:+ Js.nl +:+ Js.nl
  +:+ getContentPrompt env contentType (topic (context s)) (platform (context s))
        (additionalContext options).

Definition regenerating (options : GenerateOptions) : bool :=
  default false (regenerate options).

(** The two ways [generate] ends: from the cache, or through a search and
    an AI call made on the service [s0] (the entry deleted first when
    regenerating). *)
Inductive generate_outcome (env : Env) (contentType : ContentType)
    (options : GenerateOptions) (s : CopilotService)
    : GenerationResult -> CopilotService -> Prop :=
| generated_from_cache text :
    regenerating options = false ->
    cache s !! contentType = Some text ->
    Js.truthy text = true ->
    generate_outcome env contentType options s (succeeded text) s
| generated_afresh s0 searchText s1 r s2 :
    s0 = (if regenerating options then (cache_delete contentType s).2 else s) ->
    Js.truthy_opt (cache s0 !! contentType) = false ->
    performSearch env (searchType_of contentType) s0 = (Returned searchText, s1) ->
    sendPrompt_outcome env
      (promptWithSearch env contentType options searchText s1)
      (Some contentType) s1 r s2 ->
    generate_outcome env contentType options s r s2.


(** A result as the service builds it. *)
Definition GenerationResult_shape (r : GenerationResult) : Prop :=
  (success r = true /\ error r = None)
  \/ (success r = false /\ content r = EmptyString /\ exists msg, error r = Some msg).

Fixpoint has_upper (s : string) : bool :=
  match s with
  | EmptyString => false
  | String c s' => Js.is_upper c || has_upper s'
  end.

(** The claim that variations leave the cached entry alone. *)
Definition variations_leave_cache (env : Env) (contentType : ContentType)
    (s : CopilotService) : Prop :=
  forall r s', getMoreVariations env contentType s = (Returned r, s') ->
               success r = true ->
               cache s' !! contentType = cache s !! contentType.

(** The claim that of two [generate] calls in a row only the first one
    reaches the collaborators. *)
Definition second_call_is_free (env : Env) (contentType : ContentType)
    (s : CopilotService) : Prop :=
  let first := generate env contentType (plain false) s in
  let second := generate env contentType (plain false) first.2 in
  second.1 = first.1 /\ history second.2 = history first.2.

(** The claim that a failed switch keeps the previous model and session. *)
Definition failed_switch_keeps_session (env : Env) (newModel : ModelId)
    (s : CopilotService) : Prop :=
  forall e s', switchModel env newModel s = (Raised e, s') ->
               currentModel s' = currentModel s /\ session s' = session s.

(** The days of month [m], and what it is for day number [day] to be the
    [d]-th of month [m] of year [y] in the calendar of ECMA-262. *)
Definition days_in_month (leap : bool) (m : Z) : Z :=
  (if m =? 2 then (if leap then 29 else 28)
   else if (m =? 4) || (m =? 6) || (m =? 9) || (m =? 11) then 30
   else 31)%Z.

Definition is_date (day y m d : Z) : Prop :=
  (Js.DayFromYear y <= day < Js.DayFromYear (y + 1)
   /\ 1 <= m <= 12
   /\ 1 <= d <= days_in_month (Js.InLeapYear y) m
   /\ day = Js.DayFromYear y + Js.days_before_month (Js.InLeapYear y) m + d - 1)%Z.

(** The command loop's copy of topic and platform agrees with the
    service's, and so does its copy of the model. *)
Definition synced (st : AppState) : Prop :=
  forall svc, service st = Some svc ->
    topic (context svc) = appTopic st /\ platform (context svc) = appPlatform st.

Definition model_synced (st : AppState) : Prop :=
  forall svc, service st = Some svc -> currentModel svc = appModel st.

(** There is a last content exactly when its type is known. *)
Definition last_coherent (st : AppState) : Prop :=
  Js.truthy (lastContent st) = true <-> is_Some (lastContentType st).

Definition regenerate_options : GenerateOptions :=
  {| regenerate := Some true; additionalContext := None |}.

(** The terminal and state before [run] starts. *)
Definition fresh_cli : Cli := {| state := initial_state; printed := [] |}.

Definition some_answers : Answers :=
  {| chosenPlatform := tiktok; chosenTopic := "dogs";
     chosenModel := gpt_5; clipboardWrites := true |}.

(** The service [startup] leaves when the topic is given on the command
    line as "cats" and the user picks [some_answers]. *)
Definition startup_service (env : Env) : CopilotService :=
  after env (OpGenerate script regenerate_options)
    (after env OpInitialize (new_CopilotService env "cats" tiktok gpt_4o)).

(** * Properties *)

(** ** Strings *)

#[local] Arguments String.append !_ _ / : simpl nomatch.

Lemma append_assoc (a b c : string) : (a +:+ b) +:+ c = a +:+ (b +:+ c).
Proof. induction a as [|x a IH]; simpl; [reflexivity | f_equal; exact IH]. Qed.

Lemma append_empty_r (a : string) : a +:+ EmptyString = a.
Proof. induction a as [|x a IH]; simpl; [reflexivity | f_equal; exact IH]. Qed.

Lemma truthy_true_iff (s : string) : Js.truthy s = true <-> s <> EmptyString.
Proof. destruct s; simpl; split; intros; congruence. Qed.

Lemma truthy_false_iff (s : string) : Js.truthy s = false <-> s = EmptyString.
Proof. destruct s; simpl; split; intros; congruence. Qed.

(** *** trim *)

Lemma trimStart_suffix (s : string) : exists a, s = a +:+ Js.trimStart s.
Proof.
  induction s as [|c s [a IH]]; simpl.
  - by exists EmptyString.
  - destruct (Js.is_space c).
    + exists (String c a). simpl. by rewrite <- IH.
    + by exists EmptyString.
Qed.

Lemma trimEnd_prefix (s : string) : exists b, s = Js.trimEnd s +:+ b.
Proof.
  induction s as [|c s [b IH]]; simpl.
  - by exists EmptyString.
  - destruct (Js.trimEnd s) as [|d r] eqn:E.
    + destruct (Js.is_space c).
      * exists (String c s). reflexivity.
      * exists s. simpl. simpl in IH. congruence.
    + exists b. simpl. simpl in IH. congruence.
Qed.

Lemma trim_inside (s : string) : exists a b, s = a +:+ Js.trim s +:+ b.
Proof.
  destruct (trimStart_suffix s) as [a Ha].
  destruct (trimEnd_prefix (Js.trimStart s)) as [b Hb].
  exists a, b. unfold Js.trim. by rewrite <- Hb.
Qed.

Lemma trimStart_first (s : string) : not_space (first_char (Js.trimStart s)).
Proof.
  induction s as [|c s IH]; simpl; [exact I|].
  destruct (Js.is_space c) eqn:E; [exact IH | exact E].
Qed.

Lemma trimEnd_first (s : string) :
  not_space (first_char s) -> not_space (first_char (Js.trimEnd s)).
Proof.
  destruct s as [|c s]; simpl; [trivial|]. intros H.
  destruct (Js.trimEnd s); [rewrite H|]; exact H.
Qed.

Lemma trimEnd_last (s : string) : not_space (last_char (Js.trimEnd s)).
Proof.
  induction s as [|c s IH]; simpl; [exact I|].
  destruct (Js.trimEnd s) as [|d r] eqn:E.
  - destruct (Js.is_space c) eqn:Ec; simpl; [exact I | exact Ec].
  - exact IH.
Qed.

Lemma trim_first (s : string) : not_space (first_char (Js.trim s)).
Proof. apply trimEnd_first, trimStart_first. Qed.

Lemma trim_last (s : string) : not_space (last_char (Js.trim s)).
Proof. apply trimEnd_last. Qed.

(** *** The preamble *)

Lemma find_heading_eq (s : string) :
  find_heading s =
  if at_heading s then Some s
  else match s with
       | EmptyString => None
       | String _ s' => find_heading s'
       end.
Proof. destruct s; reflexivity. Qed.

Lemma find_heading_first (pre rest : string) :
  first_heading_at pre rest -> find_heading (pre +:+ rest) = Some rest.
Proof.
  intros [Hrest Hpre]. induction pre as [|c pre IH].
  - simpl. rewrite find_heading_eq, Hrest. reflexivity.
  - rewrite find_heading_eq.
    rewrite (Hpre EmptyString (String c pre)); [|reflexivity|discriminate].
    simpl. apply IH. intros p1 p2 -> Hne.
    apply (Hpre (String c p1) p2); [reflexivity | exact Hne].
Qed.

Lemma find_heading_Some (s rest : string) :
  find_heading s = Some rest ->
  exists pre, s = pre +:+ rest /\ first_heading_at pre rest.
Proof.
  induction s as [|c s IH]; rewrite find_heading_eq.
  - simpl. discriminate.
  - destruct (at_heading (String c s)) eqn:E.
    + intros [= <-]. exists EmptyString. split; [reflexivity|].
      split; [exact E|]. intros [|? ?] p2; simpl; [|discriminate].
      intros <- Hne. congruence.
    + intros H. destruct (IH H) as (pre & -> & Hrest & Hpre).
      exists (String c pre). split; [reflexivity|]. split; [exact Hrest|].
      intros [|d p1] p2; simpl.
      * intros <- _. exact E.
      * intros [= <- ->] Hne. by apply (Hpre p1 p2).
Qed.

Lemma removePreamble_first (pre rest : string) :
  first_heading_at pre rest -> removePreamble (pre +:+ rest) = rest.
Proof. intros H. unfold removePreamble. by rewrite find_heading_first. Qed.

Lemma removePreamble_at_heading (s : string) :
  at_heading s = true -> removePreamble s = s.
Proof. intros H. unfold removePreamble. by rewrite find_heading_eq, H. Qed.

Lemma removePreamble_none (s : string) :
  (forall p1 p2, s = p1 +:+ p2 -> at_heading p2 = false) ->
  removePreamble s = s.
Proof.
  intros H. unfold removePreamble.
  destruct (find_heading s) as [rest|] eqn:E; [|reflexivity].
  destruct (find_heading_Some _ _ E) as (pre & -> & Hrest & _).
  rewrite (H pre rest) in Hrest; [discriminate | reflexivity].
Qed.

(** *** Runs of newlines *)

Lemma run_bounded_triple (u v : string) (k : nat) :
  run_bounded k (u +:+ newlines 3 +:+ v) = false.
Proof.
  revert k. induction u as [|c u IH]; intros k; simpl.
  - destruct k as [|[|k]]; reflexivity.
  - destruct (Ascii.eqb c Js.newline); [|apply IH].
    rewrite IH. apply andb_false_r.
Qed.

Lemma collapse_run_bounded (s : string) (k : nat) :
  run_bounded (Nat.min k 2) (collapse_run k s) = true.
Proof.
  revert k. induction s as [|c s IH]; intros k; simpl; [reflexivity|].
  destruct (Ascii.eqb c Js.newline) eqn:Ec.
  - destruct (k <? 2) eqn:Ek.
    + simpl. rewrite Ec. apply Nat.ltb_lt in Ek.
      replace (Nat.min k 2) with k by lia.
      replace (k <? 2) with true by (symmetry; apply Nat.ltb_lt; lia).
      simpl. specialize (IH (S k)).
      replace (Nat.min (S k) 2) with (S k) in IH by lia. exact IH.
    + apply IH.
  - simpl. rewrite Ec. apply (IH 0).
Qed.

Lemma collapseNewlines_no_triple (s u v : string) :
  collapseNewlines s <> u +:+ newlines 3 +:+ v.
Proof.
  intros H. pose proof (collapse_run_bounded s 0) as Hb.
  unfold collapseNewlines in H. simpl in Hb. rewrite H in Hb.
  by rewrite run_bounded_triple in Hb.
Qed.

Lemma collapse_run_after (u w : string) (a : ascii) (k : nat) :
  a <> Js.newline ->
  collapse_run k (u +:+ String a w)
  = collapse_run k (u +:+ String a EmptyString) +:+ collapse_run 0 w.
Proof.
  intros Ha. apply Ascii.eqb_neq in Ha.
  revert k. induction u as [|c u IH]; intros k; simpl.
  - rewrite Ha. reflexivity.
  - destruct (Ascii.eqb c Js.newline).
    + destruct (k <? 2); simpl; by rewrite IH.
    + simpl. by rewrite IH.
Qed.

Lemma collapse_run_newlines (n k : nat) (v : string) :
  first_char v <> Some Js.newline ->
  collapse_run k (newlines n +:+ v)
  = newlines (Nat.min (k + n) 2 - Nat.min k 2) +:+ collapse_run 0 v.
Proof.
  intros Hv. revert k. induction n as [|n IH]; intros k.
  - replace (Nat.min (k + 0) 2 - Nat.min k 2) with 0 by lia. simpl.
    destruct v as [|c v]; simpl; [reflexivity|].
    destruct (Ascii.eqb_spec c Js.newline) as [->|_]; [by destruct Hv|].
    reflexivity.
  - simpl. destruct (k <? 2) eqn:Ek.
    + apply Nat.ltb_lt in Ek. rewrite IH.
      replace (Nat.min (k + S n) 2 - Nat.min k 2)
        with (S (Nat.min (S k + n) 2 - Nat.min (S k) 2)) by lia.
      reflexivity.
    + apply Nat.ltb_ge in Ek. rewrite IH.
      replace (Nat.min (k + S n) 2 - Nat.min k 2) with 0 by lia.
      replace (Nat.min (k + n) 2 - Nat.min k 2) with 0 by lia.
      reflexivity.
Qed.

(** A run of three or more newlines between two other characters leaves
    exactly two newlines, that is one blank line. *)
Lemma collapseNewlines_run (u v : string) (a : ascii) (n : nat) :
  a <> Js.newline -> first_char v <> Some Js.newline -> 3 <= n ->
  collapseNewlines (u +:+ String a (newlines n +:+ v))
  = collapseNewlines (u +:+ String a EmptyString) +:+ newlines 2
    +:+ collapseNewlines v.
Proof.
  intros Ha Hv Hn. unfold collapseNewlines.
  rewrite collapse_run_after by exact Ha.
  rewrite collapse_run_newlines by exact Hv.
  replace (Nat.min (0 + n) 2 - Nat.min 0 2) with 2 by lia. reflexivity.
Qed.

Lemma cleanContent_no_triple (s u v : string) :
  cleanContent s <> u +:+ newlines 3 +:+ v.
Proof.
  unfold cleanContent. intros H.
  destruct (trim_inside (collapseNewlines (removePreamble s))) as (a & b & E).
  rewrite H in E.
  apply (collapseNewlines_no_triple (removePreamble s) (a +:+ u) (v +:+ b)).
  rewrite E. by rewrite !append_assoc.
Qed.

(** ** Frames: what a computation may change *)

Section Steps.

Context (R : CopilotService -> CopilotService -> Prop).
Context (R_refl : forall s, R s s).
Context (R_trans : forall s1 s2 s3, R s1 s2 -> R s2 s3 -> R s1 s3).

Lemma steps_ret {A} (a : A) : steps R (ret a).
Proof. intros s. apply R_refl. Qed.

Lemma steps_throw {A} (e : Thrown) : steps R (@throw A e).
Proof. intros s. apply R_refl. Qed.

Lemma steps_gets {A} (f : CopilotService -> A) : steps R (gets f).
Proof. intros s. apply R_refl. Qed.

Lemma steps_modify (f : CopilotService -> CopilotService) :
  (forall s, R s (f s)) -> steps R (modify f).
Proof. intros H s. apply H. Qed.

Lemma steps_bind {A B} (m : M A) (k : A -> M B) :
  steps R m -> (forall a, steps R (k a)) -> steps R (bind m k).
Proof.
  intros Hm Hk s. unfold bind. specialize (Hm s).
  destruct (m s) as [[a|e] s1]; simpl in *; [|exact Hm].
  eapply R_trans; [exact Hm | apply Hk].
Qed.

Lemma steps_try_catch {A} (m : M A) (h : Thrown -> M A) :
  steps R m -> (forall e, steps R (h e)) -> steps R (try_catch m h).
Proof.
  intros Hm Hh s. unfold try_catch. specialize (Hm s).
  destruct (m s) as [[a|e] s1]; simpl in *; [exact Hm|].
  eapply R_trans; [exact Hm | apply Hh].
Qed.

End Steps.

Lemma search_step_refl s : search_step s s.
Proof.
  repeat split. exists []. split; [by rewrite app_nil_r | constructor].
Qed.

Lemma search_step_trans s1 s2 s3 :
  search_step s1 s2 -> search_step s2 s3 -> search_step s1 s3.
Proof.
  intros (H1 & H2 & H3 & H4 & H5 & H6 & H7 & n1 & Hh1 & Hf1)
         (K1 & K2 & K3 & K4 & K5 & K6 & K7 & n2 & Hh2 & Hf2).
  repeat split; try congruence.
  exists (n1 ++ n2). split.
  - rewrite Hh2, Hh1. by rewrite app_assoc.
  - apply Forall_app. split; [exact Hf1|]. by rewrite H7 in Hf2.
Qed.

Lemma context_step_refl s : context_step s s.
Proof. reflexivity. Qed.

Lemma context_step_trans s1 s2 s3 :
  context_step s1 s2 -> context_step s2 s3 -> context_step s1 s3.
Proof. unfold context_step. congruence. Qed.

Lemma wf_step_refl s : wf_step s s.
Proof. intros H. exact H. Qed.

Lemma wf_step_trans s1 s2 s3 : wf_step s1 s2 -> wf_step s2 s3 -> wf_step s1 s3.
Proof. unfold wf_step. auto. Qed.

Lemma context_step_wf s s' : context_step s s' -> wf_step s s'.
Proof. unfold context_step, wf_step, cache. by intros ->. Qed.

Lemma search_step_wf s s' : search_step s s' -> wf_step s s'.
Proof. intros (_ & _ & _ & _ & _ & _ & H & _). unfold wf_step. by rewrite H. Qed.

Lemma steps_perform_search {A} (c : Call) (answer : list Observed -> Outcome A) :
  steps search_step (perform c answer).
Proof.
  intros s. simpl. repeat split.
  exists [ {| call := c; cacheAtCall := cache s |} ]. split; [reflexivity|].
  by repeat constructor.
Qed.

Lemma steps_perform_context {A} (c : Call) (answer : list Observed -> Outcome A) :
  steps context_step (perform c answer).
Proof. intros s. reflexivity. Qed.

(** Combinator-directed proof of a [steps] goal. *)
Ltac step_frames R_refl R_trans :=
  repeat first
    [ apply (steps_bind _ R_trans); [|intros ?]
    | apply (steps_try_catch _ R_trans); [|intros ?]
    | apply (steps_ret _ R_refl)
    | apply (steps_throw _ R_refl)
    | apply (steps_gets _ R_refl)
    | apply steps_perform_search
    | apply steps_perform_context
    | match goal with
      | |- steps _ (match ?x with _ => _ end) => destruct x
      | |- steps _ (if ?b then _ else _) => destruct b
      end ].

Lemma searchAndContents_steps env query options :
  steps search_step (searchAndContents env query options).
Proof.
  unfold searchAndContents.
  step_frames search_step_refl search_step_trans.
Qed.

Lemma searchTrending_steps env t options :
  steps search_step (searchTrending env t options).
Proof.
  unfold searchTrending.
  apply (steps_bind _ search_step_trans); [apply (steps_gets _ search_step_refl)|].
  intros now. destruct (Js.toISOString _);
    [apply searchAndContents_steps | apply (steps_throw _ search_step_refl)].
Qed.

Lemma searchContentIdeas_loop_steps env queries options acc :
  steps search_step (searchContentIdeas_loop env queries options acc).
Proof.
  revert acc. induction queries as [|q queries IH]; intros acc; simpl.
  - apply (steps_ret _ search_step_refl).
  - apply (steps_bind _ search_step_trans); [|intros ?; apply IH].
    apply (steps_try_catch _ search_step_trans).
    + apply (steps_bind _ search_step_trans).
      * apply searchAndContents_steps.
      * intros ?. apply (steps_ret _ search_step_refl).
    + intros ?. apply (steps_ret _ search_step_refl).
Qed.

Lemma searchContentIdeas_steps env t options :
  steps search_step (searchContentIdeas env t options).
Proof.
  unfold searchContentIdeas.
  apply (steps_bind _ search_step_trans).
  - apply searchContentIdeas_loop_steps.
  - intros ?. apply (steps_ret _ search_step_refl).
Qed.

Lemma performSearch_steps env kind : steps search_step (performSearch env kind).
Proof.
  unfold performSearch, getTopic.
  apply (steps_bind _ search_step_trans); [apply (steps_gets _ search_step_refl)|].
  intros exa. destruct (negb (isConfigured exa)).
  { apply (steps_ret _ search_step_refl). }
  apply (steps_try_catch _ search_step_trans).
  - apply (steps_bind _ search_step_trans); [apply (steps_gets _ search_step_refl)|].
    intros t. apply (steps_bind _ search_step_trans).
    { destruct kind;
        [apply searchAndContents_steps | apply searchTrending_steps
        | apply searchContentIdeas_steps]. }
    intros r. apply (steps_bind _ search_step_trans).
    + apply steps_modify. intros s. repeat split.
      exists []. split; [by rewrite app_nil_r | constructor].
    + intros ?. apply (steps_ret _ search_step_refl).
  - intros e. apply (steps_bind _ search_step_trans);
      [apply (steps_gets _ search_step_refl)|].
    intros t. apply (steps_ret _ search_step_refl).
Qed.

(** [performSearch] never throws. *)
Lemma performSearch_returns env kind s :
  exists text, (performSearch env kind s).1 = Returned text.
Proof.
  unfold performSearch, bind, gets, try_catch, ret, getTopic. simpl.
  destruct (negb (isConfigured (exaService s))); simpl; [eauto|].
  repeat case_match; simpl; eauto.
Qed.

(** ** sendPrompt and generate *)

Lemma sendPrompt_inv env prompt contentType s :
  exists r s', sendPrompt env prompt contentType s = (Returned r, s')
               /\ sendPrompt_outcome env prompt contentType s r s'.
Proof.
  unfold sendPrompt, bind, gets, try_catch, sendAndWait, ret. simpl.
  destruct (session s) as [x|] eqn:Hs.
  - destruct (sdk_sendAndWait env (history s) x prompt) as [events [u|e]] eqn:Ho.
    + eexists _, _. split; [|eapply sent_returned; eassumption].
      unfold stored. destruct contentType as [t|]; [|reflexivity].
      destruct (Js.truthy _); reflexivity.
    + eexists _, _. split; [reflexivity|]. eapply sent_raised; eassumption.
  - eexists _, _. split; [reflexivity|]. by apply sent_no_session.
Qed.

Lemma generate_inv env contentType options s :
  exists r s', generate env contentType options s = (Returned r, s')
               /\ generate_outcome env contentType options s r s'.
Proof.
  unfold generate. fold (regenerating options).
  destruct (regenerating options) eqn:Hregen.
  - (* regenerate: the entry is deleted, then search and prompt *)
    unfold bind at 1. simpl.
    set (s0 := with_context _ s).
    unfold bind at 1. simpl.
    assert (Hnone : cache s0 !! contentType = None).
    { subst s0. unfold cache. simpl. apply lookup_delete_eq. }
    rewrite Hnone. simpl.
    destruct (performSearch_returns env (searchType_of contentType) s0) as [txt Htxt].
    unfold bind at 1.
    destruct (performSearch env (searchType_of contentType) s0) as [o s1] eqn:Hps.
    simpl in Htxt. subst o.
    unfold bind, getTopic, getPlatform, gets. simpl.
    destruct (sendPrompt_inv env
                (promptWithSearch env contentType options txt s1)
                (Some contentType) s1) as (r & s2 & Hsend & Hout).
    exists r, s2. split; [exact Hsend|].
    eapply generated_afresh; [| |exact Hps|exact Hout].
    + rewrite Hregen. reflexivity.
    + by rewrite Hnone.
  - unfold bind at 1. simpl. unfold bind at 1. simpl.
    destruct (cache s !! contentType) as [text|] eqn:Hc; simpl.
    + destruct (Js.truthy text) eqn:Ht; simpl.
      * eexists _, _. split; [reflexivity|].
        by apply generated_from_cache with (text := text).
      * destruct (performSearch_returns env (searchType_of contentType) s)
          as [txt Htxt].
        unfold bind at 1.
        destruct (performSearch env (searchType_of contentType) s) as [o s1] eqn:Hps.
        simpl in Htxt. subst o.
        unfold bind, getTopic, getPlatform, gets. simpl.
        destruct (sendPrompt_inv env
                    (promptWithSearch env contentType options txt s1)
                    (Some contentType) s1) as (r & s2 & Hsend & Hout).
        exists r, s2. split; [exact Hsend|].
        eapply generated_afresh; [| |exact Hps|exact Hout].
        -- rewrite Hregen. reflexivity.
        -- rewrite Hc. exact Ht.
    + destruct (performSearch_returns env (searchType_of contentType) s)
        as [txt Htxt].
      unfold bind at 1.
      destruct (performSearch env (searchType_of contentType) s) as [o s1] eqn:Hps.
      simpl in Htxt. subst o.
      unfold bind, getTopic, getPlatform, gets. simpl.
      destruct (sendPrompt_inv env
                  (promptWithSearch env contentType options txt s1)
                  (Some contentType) s1) as (r & s2 & Hsend & Hout).
      exists r, s2. split; [exact Hsend|].
      eapply generated_afresh; [| |exact Hps|exact Hout].
      * rewrite Hregen. reflexivity.
      * by rewrite Hc.
Qed.

Lemma sendPrompt_outcome_shape env prompt contentType s r s' :
  sendPrompt_outcome env prompt contentType s r s' -> GenerationResult_shape r.
Proof.
  intros [H|x events e Hs Ho|x events u Hs Ho]; unfold GenerationResult_shape; simpl;
    eauto 6.
Qed.

Lemma sendPrompt_outcome_cache env prompt contentType s r s' :
  sendPrompt_outcome env prompt contentType s r s' ->
  cache s' =
  match contentType with
  | Some t => if success r && Js.truthy (content r)
              then <[t := content r]> (cache s) else cache s
  | None => cache s
  end.
Proof.
  intros [H|x events e Hs Ho|x events u Hs Ho]; simpl.
  - by destruct contentType.
  - by destruct contentType.
  - unfold stored. destruct contentType as [t|]; [|reflexivity].
    destruct (Js.truthy _); reflexivity.
Qed.

Lemma sendPrompt_outcome_history env prompt contentType s r s' :
  sendPrompt_outcome env prompt contentType s r s' ->
  exists new, history s' = history s ++ new
              /\ Forall (fun o => cacheAtCall o = cache s) new.
Proof.
  intros [H|x events e Hs Ho|x events u Hs Ho].
  - exists []. split; [by rewrite app_nil_r | constructor].
  - exists [ {| call := SessionSendAndWait prompt; cacheAtCall := cache s |} ].
    split; [reflexivity|]. by repeat constructor.
  - exists [ {| call := SessionSendAndWait prompt; cacheAtCall := cache s |} ].
    split; [|by repeat constructor].
    unfold stored. destruct contentType as [t|]; [|reflexivity].
    destruct (Js.truthy _); reflexivity.
Qed.

Lemma sendPrompt_outcome_frame env prompt contentType s r s' :
  sendPrompt_outcome env prompt contentType s r s' ->
  client s' = client s /\ session s' = session s /\
  currentModel s' = currentModel s /\ exaService s' = exaService s /\
  topic (context s') = topic (context s) /\
  platform (context s') = platform (context s) /\
  searchResults (context s') = searchResults (context s).
Proof.
  intros [H|x events e Hs Ho|x events u Hs Ho]; [by repeat split..|].
  unfold stored. destruct contentType as [t|]; [|by repeat split].
  destruct (Js.truthy _); by repeat split.
Qed.

Lemma sendPrompt_outcome_wf env prompt contentType s r s' :
  sendPrompt_outcome env prompt contentType s r s' -> wf_step s s'.
Proof.
  intros H Hwf. rewrite (sendPrompt_outcome_cache _ _ _ _ _ _ H).
  destruct contentType as [t|]; [|exact Hwf].
  destruct (success r && Js.truthy (content r)) eqn:E; [|exact Hwf].
  apply andb_true_iff in E as [_ E].
  intros t' text. destruct (decide (t = t')) as [->|Hne].
  - rewrite lookup_insert_eq. by intros [= <-].
  - rewrite lookup_insert_ne by exact Hne. apply Hwf.
Qed.

Lemma performSearch_inv env kind s :
  exists text s', performSearch env kind s = (Returned text, s')
                  /\ search_step s s'.
Proof.
  destruct (performSearch_returns env kind s) as [text Ht].
  pose proof (performSearch_steps env kind s) as Hs.
  destruct (performSearch env kind s) as [o s'] eqn:E. simpl in *. subst o.
  by exists text, s'.
Qed.

(** What [generate] leaves of the service: everything but the cache, the
    stored search results and the history. *)
Lemma generate_outcome_frame env contentType options s r s' :
  generate_outcome env contentType options s r s' ->
  client s' = client s /\ session s' = session s /\
  currentModel s' = currentModel s /\ exaService s' = exaService s /\
  topic (context s') = topic (context s) /\
  platform (context s') = platform (context s).
Proof.
  intros [text Hr Hc Ht|s0 searchText s1 r' s2 -> Hmiss Hps Hout];
    [by repeat split|].
  pose proof (performSearch_steps env (searchType_of contentType)
                (if regenerating options
                 then (cache_delete contentType s).2 else s)) as Hsearch.
  rewrite Hps in Hsearch. simpl in Hsearch.
  destruct Hsearch as (H1 & H2 & H3 & H4 & H5 & H6 & _).
  destruct (sendPrompt_outcome_frame _ _ _ _ _ _ Hout)
    as (K1 & K2 & K3 & K4 & K5 & K6 & _).
  rewrite K1, K2, K3, K4, K5, K6, H1, H2, H3, H4, H5, H6.
  by destruct (regenerating options).
Qed.

(** The cache after [generate]: the entry is replaced by a non-empty
    success, is gone after any other regeneration, and is otherwise as it
    was. *)
Lemma generate_outcome_cache env contentType options s r s' :
  generate_outcome env contentType options s r s' ->
  cache s' =
  if success r && Js.truthy (content r)
  then <[contentType := content r]> (cache s)
  else if regenerating options then delete contentType (cache s)
  else cache s.
Proof.
  intros [text Hr Hc Ht|s0 searchText s1 r' s2 -> Hmiss Hps Hout].
  - simpl. rewrite Ht. symmetry. by apply insert_id.
  - pose proof (performSearch_steps env (searchType_of contentType)
                  (if regenerating options
                   then (cache_delete contentType s).2 else s)) as Hsearch.
    rewrite Hps in Hsearch. simpl in Hsearch.
    destruct Hsearch as (_ & _ & _ & _ & _ & _ & Hcache & _).
    rewrite (sendPrompt_outcome_cache _ _ _ _ _ _ Hout), Hcache.
    destruct (regenerating options); unfold cache; simpl.
    + destruct (success r' && Js.truthy (content r')); [|reflexivity].
      apply insert_delete_eq.
    + reflexivity.
Qed.

Lemma generate_outcome_shape env contentType options s r s' :
  generate_outcome env contentType options s r s' -> GenerationResult_shape r.
Proof.
  intros [text Hr Hc Ht|s0 searchText s1 r' s2 -> Hmiss Hps Hout].
  - left. by split.
  - eapply sendPrompt_outcome_shape, Hout.
Qed.

Lemma refine_inv env contentType refinementRequest s :
  (Js.truthy_opt (cache s !! contentType) = false
   /\ refine env contentType refinementRequest s
       = (Returned (failure "No content to refine. Generate content first."), s))
  \/ (exists text r s',
        cache s !! contentType = Some text /\ Js.truthy text = true
        /\ refine env contentType refinementRequest s = (Returned r, s')
        /\ sendPrompt_outcome env (getRefinementPrompt text refinementRequest)
             (Some contentType) s r s').
Proof.
  unfold refine, bind, gets. simpl.
  destruct (cache s !! contentType) as [text|] eqn:Hc; simpl; [|by left].
  destruct (Js.truthy text) eqn:Ht; simpl; [|by left].
  right.
  destruct (sendPrompt_inv env (getRefinementPrompt text refinementRequest)
              (Some contentType) s) as (r & s' & Hsend & Hout).
  by exists text, r, s'.
Qed.

Lemma getMoreVariations_inv env contentType s :
  (Js.truthy_opt (cache s !! contentType) = false
   /\ getMoreVariations env contentType s
       = (Returned (failure "No existing content. Generate content first."), s))
  \/ (exists text r s',
        cache s !! contentType = Some text /\ Js.truthy text = true
        /\ getMoreVariations env contentType s = (Returned r, s')
        /\ sendPrompt_outcome env
             (getMoreVariationsPrompt contentType text (topic (context s)))
             (Some contentType) s r s').
Proof.
  unfold getMoreVariations, bind, gets, getTopic. simpl.
  destruct (cache s !! contentType) as [text|] eqn:Hc; simpl; [|by left].
  destruct (Js.truthy text) eqn:Ht; simpl; [|by left].
  right.
  destruct (sendPrompt_inv env
              (getMoreVariationsPrompt contentType text (topic (context s)))
              (Some contentType) s) as (r & s' & Hsend & Hout).
  by exists text, r, s'.
Qed.

(** ** Session management leaves the context alone *)

Lemma createSession_context env : steps context_step (createSession env).
Proof.
  unfold createSession.
  apply (steps_bind _ context_step_trans); [apply (steps_gets _ context_step_refl)|].
  intros [c|]; [|apply (steps_throw _ context_step_refl)].
  apply (steps_bind _ context_step_trans); [apply (steps_gets _ context_step_refl)|].
  intros m. apply (steps_bind _ context_step_trans); [apply steps_perform_context|].
  intros _. apply steps_modify. reflexivity.
Qed.

Lemma destroy_context env x : steps context_step (destroy env x).
Proof.
  unfold destroy.
  apply (steps_bind _ context_step_trans); [apply steps_perform_context|].
  intros _. apply steps_modify. reflexivity.
Qed.

Lemma switchModel_context env newModel : steps context_step (switchModel env newModel).
Proof.
  unfold switchModel.
  apply (steps_bind _ context_step_trans); [apply (steps_gets _ context_step_refl)|].
  intros current. destruct (bool_decide (newModel = current));
    [apply (steps_ret _ context_step_refl)|].
  apply (steps_try_catch _ context_step_trans);
    [|intros e; apply (steps_throw _ context_step_refl)].
  apply (steps_bind _ context_step_trans); [apply (steps_gets _ context_step_refl)|].
  intros existing. apply (steps_bind _ context_step_trans).
  - destruct existing as [x|]; [|apply (steps_ret _ context_step_refl)].
    apply (steps_try_catch _ context_step_trans); [apply destroy_context|].
    intros e. apply (steps_ret _ context_step_refl).
  - intros _. apply (steps_bind _ context_step_trans).
    + apply steps_modify. reflexivity.
    + intros _. apply createSession_context.
Qed.

Lemma initialize_context env : steps context_step (initialize env).
Proof.
  unfold initialize.
  apply (steps_try_catch _ context_step_trans);
    [|intros e; apply (steps_throw _ context_step_refl)].
  apply (steps_bind _ context_step_trans); [apply steps_modify; reflexivity|].
  intros _. apply (steps_bind _ context_step_trans); [apply steps_perform_context|].
  intros _. apply createSession_context.
Qed.

Lemma cleanup_context env : steps context_step (cleanup env).
Proof.
  unfold cleanup.
  apply (steps_try_catch _ context_step_trans);
    [|intros e; apply (steps_ret _ context_step_refl)].
  apply (steps_bind _ context_step_trans); [apply (steps_gets _ context_step_refl)|].
  intros existing. apply (steps_bind _ context_step_trans).
  - destruct existing as [x|]; [apply destroy_context|].
    apply (steps_ret _ context_step_refl).
  - intros _. apply (steps_bind _ context_step_trans);
      [apply (steps_gets _ context_step_refl)|].
    intros [c|]; [apply steps_perform_context|apply (steps_ret _ context_step_refl)].
Qed.

(** ** No reachable cache holds an empty text *)

Lemma after_wf env op s : wf_step s (after env op s).
Proof.
  destruct op as [|p|t|m|ct o|ct rq|ct|]; simpl.
  - apply context_step_wf, initialize_context.
  - intros H. exact H.
  - intros _ t' text. unfold cache. simpl. by rewrite lookup_empty.
  - apply context_step_wf, switchModel_context.
  - destruct (generate_inv env ct o s) as (r & s' & -> & Hout). simpl.
    intros Hwf. rewrite (generate_outcome_cache _ _ _ _ _ _ Hout).
    destruct (success r && Js.truthy (content r)) eqn:E.
    + apply andb_true_iff in E as [_ E]. intros t' text.
      destruct (decide (ct = t')) as [->|Hne].
      * rewrite lookup_insert_eq. by intros [= <-].
      * rewrite lookup_insert_ne by exact Hne. apply Hwf.
    + destruct (regenerating o); [|exact Hwf].
      intros t' text Hl. apply lookup_delete_Some in Hl as [_ Hl]. eapply Hwf, Hl.
  - destruct (refine_inv env ct rq s) as [[_ ->]|(text & r & s' & _ & _ & -> & Hout)];
      simpl; [intros H; exact H|].
    eapply sendPrompt_outcome_wf, Hout.
  - destruct (getMoreVariations_inv env ct s)
      as [[_ ->]|(text & r & s' & _ & _ & -> & Hout)];
      simpl; [intros H; exact H|].
    eapply sendPrompt_outcome_wf, Hout.
  - apply context_step_wf, cleanup_context.
Qed.

Lemma reachable_cache_wf env s : reachable env s -> cache_wf (cache s).
Proof.
  induction 1 as [t p m|op s Hs IH].
  - intros t' text. unfold cache. simpl. by rewrite lookup_empty.
  - by apply after_wf.
Qed.

(** * The claims *)

(** ** Content cleanup *)

Lemma sendPrompt_success env prompt contentType s r s' :
  sendPrompt env prompt contentType s = (Returned r, s') ->
  success r = true ->
  exists x events u,
    session s = Some x
    /\ sdk_sendAndWait env (history s) x prompt = (events, Returned u)
    /\ content r = cleanContent (accumulate EmptyString events)
    /\ cache s' =
       match contentType with
       | Some t => if Js.truthy (content r)
                   then <[t := content r]> (cache s) else cache s
       | None => cache s
       end.
Proof.
  intros Hrun Hok.
  destruct (sendPrompt_inv env prompt contentType s) as (r0 & s0 & E & Hout).
  rewrite Hrun in E. injection E as <- <-.
  pose proof (sendPrompt_outcome_cache _ _ _ _ _ _ Hout) as Hcache.
  rewrite Hok in Hcache. simpl in Hcache.
  destruct Hout as [H|x events e Hs Ho|x events u Hs Ho]; try discriminate Hok.
  exists x, events, u. by repeat split.
Qed.

(** What [cleanContent] does, pass by pass.  [sendPrompt] applies it to
    every accumulated AI response before it caches or returns it.  It drops
    the text before the first place where the look-ahead of its pattern is
    met (two hashes, or a hash and a white-space character, wherever in the
    text) and nothing when there is none, it turns a run of three or more
    newlines into exactly two (one blank line) so that no run of three
    newlines is left, and it trims white space at both ends. *)
Lemma cleanContent_policy :
  (forall text,
     cleanContent text = Js.trim (collapseNewlines (removePreamble text)))
  /\ (forall pre rest,
        first_heading_at pre rest ->
        removePreamble (pre +:+ rest) = rest
        /\ cleanContent (pre +:+ rest) = cleanContent rest)
  /\ (forall text,
        (forall p1 p2, text = p1 +:+ p2 -> at_heading p2 = false) ->
        removePreamble text = text)
  /\ (forall u v a n,
        a <> Js.newline -> first_char v <> Some Js.newline -> 3 <= n ->
        collapseNewlines (u +:+ String a (newlines n +:+ v))
        = collapseNewlines (u +:+ String a EmptyString) +:+ newlines 2
          +:+ collapseNewlines v)
  /\ (forall text u v, cleanContent text <> u +:+ newlines 3 +:+ v)
  /\ (forall text,
        not_space (first_char (cleanContent text))
        /\ not_space (last_char (cleanContent text)))
  /\ (forall env prompt contentType s r s',
        sendPrompt env prompt contentType s = (Returned r, s') ->
        success r = true ->
        exists x events u,
          session s = Some x
          /\ sdk_sendAndWait env (history s) x prompt = (events, Returned u)
          /\ content r = cleanContent (accumulate EmptyString events)
          /\ cache s' =
             match contentType with
             | Some t => if Js.truthy (content r)
                         then <[t := content r]> (cache s) else cache s
             | None => cache s
             end)
  /\ cleanContent ("Intro chatter" +:+ Js.nl +:+ "## Title" +:+ Js.nl +:+ "Body"
                   +:+ newlines 4 +:+ "more")
     = "## Title" +:+ Js.nl +:+ "Body" +:+ newlines 2 +:+ "more".
Proof.
  split; [reflexivity|].
  split.
  { intros pre rest H. split; [by apply removePreamble_first|].
    unfold cleanContent. rewrite removePreamble_first by exact H.
    destruct H as [H _]. by rewrite removePreamble_at_heading. }
  split; [apply removePreamble_none|].
  split; [intros; by apply collapseNewlines_run|].
  split; [apply cleanContent_no_triple|].
  split; [intros text; split; [apply trim_first | apply trim_last]|].
  split; [apply sendPrompt_success|].
  vm_compute. reflexivity.
Qed.

(** C4.  The pattern of [cleanContent] looks for its marker anywhere in the
    text, not only at the start of a line.  In the response "Use C# here",
    newline, "## Title" the first heading is the second line, but the
    look-ahead is already met in the first line, at the hash of "C#" and the
    blank after it: [cleanContent] drops "Use C" only and returns
    "# here", newline, "## Title", so text that precedes the first heading
    is kept and the result does not start at the heading. *)
Example cleanContent_marker_inside_a_line :
  cleanContent ("Use C# here" +:+ Js.nl +:+ "## Title")
  = "# here" +:+ Js.nl +:+ "## Title"
  /\ removePreamble ("Use C# here" +:+ Js.nl +:+ "## Title")
     = "# here" +:+ Js.nl +:+ "## Title"
  /\ Js.startsWith (cleanContent ("Use C# here" +:+ Js.nl +:+ "## Title"))
       "## Title" = false
  /\ cleanContent ("Use C# here" +:+ Js.nl +:+ "## Title")
     <> cleanContent "## Title".
Proof. vm_compute. repeat split. discriminate. Qed.

(** ** Command parsing *)

Example parseCommand_examples :
  parseCommand EmptyString = OwnEntry (CmdChat EmptyString)
  /\ parseCommand "hello there" = OwnEntry (CmdChat "hello there")
  /\ parseCommand " /Q " = OwnEntry CmdQuit
  /\ parseCommand "/Unknown" = OwnEntry (CmdChat "/Unknown").
Proof. repeat split; vm_compute; reflexivity. Qed.

Lemma lower_char_not_upper (c : ascii) : Js.is_upper (Js.lower_char c) = false.
Proof. destruct c as [[] [] [] [] [] [] [] []]; reflexivity. Qed.

Lemma toLowerCase_no_upper (s : string) : has_upper (Js.toLowerCase s) = false.
Proof.
  induction s as [|c s IH]; simpl; [reflexivity|].
  by rewrite lower_char_not_upper, IH.
Qed.

(** A lower-cased text can only meet two inherited property names. *)
Lemma toLowerCase_inherited (s : string) :
  Js.toLowerCase s ∈ Js.Object_prototype_keys ->
  Js.toLowerCase s = "constructor" \/ Js.toLowerCase s = "__proto__".
Proof.
  intros H. pose proof (toLowerCase_no_upper s) as Hu.
  unfold Js.Object_prototype_keys in H.
  repeat (apply elem_of_cons in H as [H|H];
          [first [ by left | by right | rewrite H in Hu; discriminate Hu ]|]).
  by apply elem_of_nil in H.
Qed.

Lemma COMMAND_MAP_lookup (key : string) (c : Command) :
  COMMAND_MAP !! key = Some c <-> (key, c) ∈ COMMAND_TABLE.
Proof.
  unfold COMMAND_MAP. symmetry. apply elem_of_list_to_map.
  apply (@bool_decide_unpack _ (NoDup_dec _)). vm_compute. reflexivity.
Qed.

Example parseCommand_inherited_key :
  parseCommand "constructor" = Inherited "constructor"
  /\ parseCommand " __PROTO__ " = Inherited "__proto__".
Proof. split; vm_compute; reflexivity. Qed.

Lemma parseCommand_eq (inputText : string) :
  Js.toLowerCase (Js.trim inputText) ∉ Js.Object_prototype_keys ->
  parseCommand inputText
  = OwnEntry (match COMMAND_MAP !! Js.toLowerCase (Js.trim inputText) with
              | Some c => c
              | None => CmdChat (Js.trim inputText)
              end).
Proof.
  intros Hin. unfold parseCommand, COMMAND_MAP_get.
  remember (Js.trim inputText) as trimmed eqn:Et. clear Et.
  remember (Js.toLowerCase trimmed) as lowered eqn:El. clear El.
  destruct (COMMAND_MAP !! lowered) as [c|]; [reflexivity|].
  rewrite (bool_decide_eq_false_2 _ Hin).
  destruct trimmed as [|a t]; [reflexivity|].
  simpl negb. cbv iota. destruct (Js.startsWith (String a t) "/"); reflexivity.
Qed.

(** C8, as amended.  [parseCommand] trims the input and looks the
    lower-cased trimmed text up in the slash-command table.  Apart from the
    two texts that name a member the table object inherits, the result is
    always exactly one [Command]: the table's variant on a match (aliases
    included, so that "/Ideas" and "/idea" both give the content variant for
    ideas), and otherwise the chat variant carrying the trimmed text in its
    original case -- the empty message for an empty trimmed input, and the
    trimmed text both for an unrecognised slash-prefixed input and for any
    other input. *)
Theorem parseCommand_rule (inputText : string) :
  let trimmed := Js.trim inputText in
  let lowered := Js.toLowerCase trimmed in
  lowered <> "constructor" -> lowered <> "__proto__" ->
  (exists c, parseCommand inputText = OwnEntry c)
  /\ (forall c, (lowered, c) ∈ COMMAND_TABLE ->
                parseCommand inputText = OwnEntry c)
  /\ ((forall c, (lowered, c) ∉ COMMAND_TABLE) ->
      parseCommand inputText = OwnEntry (CmdChat trimmed)
      /\ (trimmed = EmptyString ->
          parseCommand inputText = OwnEntry (CmdChat EmptyString))
      /\ (Js.startsWith trimmed "/" = true ->
          parseCommand inputText = OwnEntry (CmdChat trimmed)))
  /\ parseCommand "/Ideas" = OwnEntry (CmdContent ideas)
  /\ parseCommand "/idea" = OwnEntry (CmdContent ideas).
Proof.
  intros trimmed lowered Hc Hp. subst trimmed lowered.
  assert (Hin : Js.toLowerCase (Js.trim inputText) ∉ Js.Object_prototype_keys).
  { intros H. destruct (toLowerCase_inherited _ H); contradiction. }
  pose proof (parseCommand_eq inputText Hin) as Hrule.
  split; [|split; [|split; [|split]]].
  - eexists. exact Hrule.
  - intros c H. apply COMMAND_MAP_lookup in H. rewrite Hrule, H. reflexivity.
  - intros Hno.
    assert (Hnone : COMMAND_MAP !! Js.toLowerCase (Js.trim inputText) = None).
    { destruct (COMMAND_MAP !! Js.toLowerCase (Js.trim inputText)) as [c|] eqn:E;
        [|reflexivity].
      apply COMMAND_MAP_lookup in E. destruct (Hno c E). }
    rewrite Hrule, Hnone. split; [reflexivity|]. split; [|reflexivity].
    intros ->. reflexivity.
  - vm_compute. reflexivity.
  - vm_compute. reflexivity.
Qed.

Lemma parseCommand_rule_witness :
  Js.toLowerCase (Js.trim " Hello there ") <> "constructor"
  /\ Js.toLowerCase (Js.trim " Hello there ") <> "__proto__"
  /\ parseCommand " Hello there " = OwnEntry (CmdChat "Hello there").
Proof.
  assert (H1 : Js.toLowerCase (Js.trim " Hello there ") <> "constructor")
    by (vm_compute; discriminate).
  assert (H2 : Js.toLowerCase (Js.trim " Hello there ") <> "__proto__")
    by (vm_compute; discriminate).
  split; [exact H1|]. split; [exact H2|].
  destruct (parseCommand_rule " Hello there " H1 H2) as (_ & _ & H & _).
  destruct H as [H _]; [|exact H].
  intros c Hin. vm_compute in Hin.
  repeat (apply elem_of_cons in Hin as [Hin|Hin]; [discriminate Hin|]).
  by apply elem_of_nil in Hin.
Defined.

(** C8 as the specification words it fails on an unrecognised slash command
    with blanks around it: the chat message is the trimmed text, not the raw
    input. *)
Lemma parseCommand_sends_trimmed_text :
  parseCommand "  /foo  " = OwnEntry (CmdChat "/foo")
  /\ parseCommand_as_specified "  /foo  " = CmdChat "  /foo  "
  /\ parseCommand "  /foo  " <> OwnEntry (parseCommand_as_specified "  /foo  ").
Proof.
  split; [vm_compute; reflexivity|]. split; [vm_compute; reflexivity|].
  vm_compute. discriminate.
Qed.

(** ** Setters *)

(** C9.  [setPlatform p] changes the platform field and nothing else: it
    returns normally, every cache entry present before is present and
    unchanged after, the topic and the stored search results are as they
    were, and so are the client, the session, the model, the Exa service and
    the history of calls. *)
Theorem setPlatform_updates_platform_only (p : Platform) (s : CopilotService) :
  (setPlatform p s).1 = Returned tt
  /\ platform (context (setPlatform p s).2) = p
  /\ cache (setPlatform p s).2 = cache s
  /\ (forall t text, cache s !! t = Some text ->
                     cache (setPlatform p s).2 !! t = Some text)
  /\ topic (context (setPlatform p s).2) = topic (context s)
  /\ searchResults (context (setPlatform p s).2) = searchResults (context s)
  /\ client (setPlatform p s).2 = client s
  /\ session (setPlatform p s).2 = session s
  /\ currentModel (setPlatform p s).2 = currentModel s
  /\ exaService (setPlatform p s).2 = exaService s
  /\ history (setPlatform p s).2 = history s.
Proof. repeat split. intros t text H. exact H. Qed.

(** Switching the model, like switching the platform, never touches the
    cache. *)
Lemma switchModel_keeps_cache env newModel s :
  cache (switchModel env newModel s).2 = cache s.
Proof. unfold cache. by rewrite (switchModel_context env newModel s). Qed.

(** After [setTopic], whatever [generate] returns as a success is the
    cleaned reply to an AI call made during that very call, at a moment
    when the cache was empty. *)
Lemma generate_after_setTopic env t s contentType options r s2 :
  generate env contentType options (setTopic t s).2 = (Returned r, s2) ->
  success r = true ->
  exists h x prompt events u,
    sdk_sendAndWait env h x prompt = (events, Returned u)
    /\ content r = cleanContent (accumulate EmptyString events)
    /\ history s2 = h ++ [ {| call := SessionSendAndWait prompt; cacheAtCall := ∅ |} ]
    /\ exists new, h = history s ++ new.
Proof.
  intros Hrun Hok.
  destruct (generate_inv env contentType options (setTopic t s).2)
    as (r0 & s0 & E & Hout).
  rewrite Hrun in E. injection E as <- <-.
  destruct Hout as [text Hr Hc Ht|s0 searchText s1 r' s2' Hs0 Hmiss Hps Hout].
  { unfold cache in Hc. simpl in Hc. by rewrite lookup_empty in Hc. }
  assert (Hempty : cache s0 = ∅).
  { subst s0. destruct (regenerating options); unfold cache; simpl;
      [apply delete_empty | reflexivity]. }
  assert (Hhist : history s0 = history s).
  { subst s0. by destruct (regenerating options). }
  pose proof (performSearch_steps env (searchType_of contentType) s0) as Hsearch.
  rewrite Hps in Hsearch. simpl in Hsearch.
  destruct Hsearch as (_ & _ & _ & _ & _ & _ & Hcache & new & Hnew & _).
  destruct Hout as [H|x events e Hs Ho|x events u Hs Ho]; try discriminate Hok.
  exists (history s1), x,
    (promptWithSearch env contentType options searchText s1), events, u.
  split; [exact Ho|]. split; [reflexivity|]. split.
  - unfold stored. rewrite <- Hempty, <- Hcache.
    destruct (Js.truthy _); reflexivity.
  - exists new. by rewrite Hnew, Hhist.
Qed.

(** C2.  [setTopic t] sets the topic to [t], empties the content cache and
    discards the stored search results.  Hence a [generate] call issued
    after it never answers from the cache: it always ends with a result,
    that result and the service it leaves are the same whatever the old
    topic, cache and search results were, and a successful result carries
    the cleaned reply of an AI call made during the call itself while the
    cache was empty. *)
Theorem setTopic_clears_cache env (t : string) (s : CopilotService) :
  (setTopic t s).1 = Returned tt
  /\ topic (context (setTopic t s).2) = t
  /\ cache (setTopic t s).2 = ∅
  /\ searchResults (context (setTopic t s).2) = None
  /\ forall contentType options,
       exists r s2,
         generate env contentType options (setTopic t s).2 = (Returned r, s2)
         /\ (forall old,
               client old = client s -> session old = session s ->
               currentModel old = currentModel s ->
               exaService old = exaService s -> history old = history s ->
               platform (context old) = platform (context s) ->
               generate env contentType options (setTopic t old).2
               = (Returned r, s2))
         /\ (success r = true ->
             exists h x prompt events u,
               sdk_sendAndWait env h x prompt = (events, Returned u)
               /\ content r = cleanContent (accumulate EmptyString events)
               /\ history s2
                  = h ++ [ {| call := SessionSendAndWait prompt;
                              cacheAtCall := ∅ |} ]
               /\ exists new, h = history s ++ new).
Proof.
  repeat (split; [reflexivity|]).
  intros contentType options.
  destruct (generate_inv env contentType options (setTopic t s).2)
    as (r & s2 & Hrun & _).
  exists r, s2. split; [exact Hrun|]. split.
  - intros old H1 H2 H3 H4 H5 H6. rewrite <- Hrun. f_equal.
    destruct old as [c x ctx m e h]. destruct s as [c' x' ctx' m' e' h'].
    simpl in *. subst. unfold with_context. simpl. by rewrite H6.
  - intros Hok. eapply generate_after_setTopic; eassumption.
Qed.

(** ** refine *)

(** C7.  When the cache holds no entry for the content type, [refine]
    returns the failure "No content to refine. Generate content first." and
    the service is exactly as before: no search and no AI call has been
    made (the history is unchanged) and no field has changed. *)
Theorem refine_without_cached_content env contentType refinementRequest s :
  cache s !! contentType = None ->
  refine env contentType refinementRequest s
  = (Returned (failure "No content to refine. Generate content first."), s)
  /\ success (failure "No content to refine. Generate content first.") = false
  /\ history (refine env contentType refinementRequest s).2 = history s.
Proof.
  intros H.
  destruct (refine_inv env contentType refinementRequest s)
    as [[_ E]|(text & r & s' & Hc & _)]; [|congruence].
  rewrite E. by repeat split.
Qed.

Lemma refine_without_cached_content_witness :
  cache (started env_drafts) !! hooks = None
  /\ refine env_drafts hooks "make it shorter" (started env_drafts)
     = (Returned (failure "No content to refine. Generate content first."),
        started env_drafts).
Proof.
  assert (H : cache (started env_drafts) !! hooks = None)
    by (vm_compute; reflexivity).
  split; [exact H|].
  exact (proj1 (refine_without_cached_content env_drafts hooks
                  "make it shorter" (started env_drafts) H)).
Defined.

(** ** generate *)

Lemma generate_hit env contentType options s text :
  regenerating options = false ->
  cache s !! contentType = Some text -> Js.truthy text = true ->
  generate env contentType options s = (Returned (succeeded text), s).
Proof.
  intros Hr Hc Ht.
  destruct (generate_inv env contentType options s) as (r & s' & E & Hout).
  rewrite E.
  destruct Hout as [text' _ Hc' _|s0 searchText s1 r' s2 Hs0 Hmiss Hps Hout].
  - rewrite Hc in Hc'. by injection Hc' as <-.
  - rewrite Hr in Hs0. subst s0. rewrite Hc in Hmiss. simpl in Hmiss. congruence.
Qed.

Lemma success_is_succeeded (r : GenerationResult) :
  GenerationResult_shape r -> success r = true -> r = succeeded (content r).
Proof.
  intros [[_ He]|[Hf _]] Hok; [|congruence].
  destruct r as [c b e]. simpl in *. by subst.
Qed.

(** C3, as amended.  In a state the service can reach, when the cache holds
    an entry for the content type, [generate] without regeneration returns
    success with exactly the cached text and leaves the service, its history
    of calls included, as it was: no search, no AI call, no state change.
    In particular, once a [generate] call has returned a success with a
    non-empty text, the same call made again right after it returns the
    identical result and makes no call. *)
Theorem generate_reuses_cache env contentType options s :
  regenerating options = false ->
  reachable env s ->
  (forall text,
     cache s !! contentType = Some text ->
     generate env contentType options s = (Returned (succeeded text), s))
  /\ (forall r s1,
        generate env contentType options s = (Returned r, s1) ->
        success r = true -> content r <> EmptyString ->
        generate env contentType options s1 = (Returned r, s1)
        /\ history (generate env contentType options s1).2 = history s1).
Proof.
  intros Hregen Hreach. split.
  - intros text Hc. apply generate_hit; [exact Hregen|exact Hc|].
    eapply reachable_cache_wf; eassumption.
  - intros r s1 Hrun Hok Hne.
    destruct (generate_inv env contentType options s) as (r0 & s0 & E & Hout).
    rewrite Hrun in E. injection E as <- <-.
    pose proof (generate_outcome_cache _ _ _ _ _ _ Hout) as Hcache.
    apply truthy_true_iff in Hne. rewrite Hok, Hne in Hcache. simpl in Hcache.
    assert (Hhit : generate env contentType options s1 = (Returned r, s1)).
    { rewrite (success_is_succeeded r (generate_outcome_shape _ _ _ _ _ _ Hout) Hok).
      apply generate_hit; [exact Hregen| |exact Hne].
      rewrite Hcache. apply lookup_insert_eq. }
    split; [exact Hhit|]. by rewrite Hhit.
Qed.

Lemma started_reachable env : reachable env (started env).
Proof. apply reachable_after, reachable_new. Qed.

Lemma with_ideas_reachable env : reachable env (with_ideas env).
Proof. apply reachable_after, started_reachable. Qed.

Lemma generate_reuses_cache_witness :
  regenerating (plain false) = false
  /\ reachable env_drafts (with_ideas env_drafts)
  /\ generate env_drafts ideas (plain false) (with_ideas env_drafts)
     = (Returned (succeeded "## Draft 2"), with_ideas env_drafts).
Proof.
  split; [reflexivity|]. split; [apply with_ideas_reachable|].
  assert (H : cache (with_ideas env_drafts) !! ideas = Some "## Draft 2")
    by (vm_compute; reflexivity).
  exact (proj1 (generate_reuses_cache env_drafts ideas (plain false)
                  (with_ideas env_drafts) eq_refl
                  (with_ideas_reachable env_drafts)) "## Draft 2" H).
Defined.

(** C3 as stated fails when the first call succeeds with a text that cleans
    to nothing: the AI answers with a blank, the first call returns success
    with the empty text and caches nothing, and the second call goes to the
    AI again. *)
Lemma generate_twice_calls_twice :
  (generate env_blank script (plain false) (started env_blank)).1
  = Returned (succeeded EmptyString)
  /\ ~ second_call_is_free env_blank script (started env_blank).
Proof.
  split; [vm_compute; reflexivity|].
  unfold second_call_is_free. intros [_ H].
  apply (f_equal length) in H. vm_compute in H. discriminate H.
Qed.

(** C10.  [generate] with [regenerate = true] deletes the cached entry
    before anything else: every call it makes to a collaborator sees a cache
    without that entry.  It always returns; when the generation fails -- as
    it does without a session, or when the AI call throws -- the result is a
    failure with an error message and the cache holds no entry for the
    content type afterwards, whatever was cached before. *)
Theorem regenerate_deletes_first env contentType extra s :
  exists r s',
    generate env contentType
      {| regenerate := Some true; additionalContext := extra |} s
    = (Returned r, s')
    /\ (exists new,
          history s' = history s ++ new
          /\ Forall (fun o => cacheAtCall o !! contentType = None) new)
    /\ (success r = false ->
        cache s' !! contentType = None /\ exists msg, error r = Some msg)
    /\ (session s = None -> success r = false)
    /\ ((forall h x prompt, exists events e,
           sdk_sendAndWait env h x prompt = (events, Raised e)) ->
        success r = false).
Proof.
  set (options := {| regenerate := Some true; additionalContext := extra |}).
  destruct (generate_inv env contentType options s) as (r & s' & E & Hout).
  exists r, s'. split; [exact E|].
  pose proof (generate_outcome_shape _ _ _ _ _ _ Hout) as Hshape.
  destruct Hout as [text Hr _ _|s0 searchText s1 r' s2 Hs0 Hmiss Hps Hout];
    [discriminate Hr|].
  simpl in Hs0.
  assert (Hnone : cache s0 !! contentType = None).
  { subst s0. unfold cache. simpl. apply lookup_delete_eq. }
  assert (Hh0 : history s0 = history s) by (by subst s0).
  assert (Hx0 : session s0 = session s) by (by subst s0).
  pose proof (performSearch_steps env (searchType_of contentType) s0) as Hsearch.
  rewrite Hps in Hsearch. simpl in Hsearch.
  destruct Hsearch as (_ & Hx1 & _ & _ & _ & _ & Hc1 & new1 & Hh1 & Hf1).
  destruct (sendPrompt_outcome_history _ _ _ _ _ _ Hout) as (new2 & Hh2 & Hf2).
  pose proof (sendPrompt_outcome_cache _ _ _ _ _ _ Hout) as Hc2.
  split; [|split; [|split]].
  - exists (new1 ++ new2). split.
    + by rewrite Hh2, Hh1, Hh0, app_assoc.
    + apply Forall_app. split.
      * eapply Forall_impl; [exact Hf1|]. intros o ->. exact Hnone.
      * eapply Forall_impl; [exact Hf2|]. intros o ->. by rewrite Hc1.
  - intros Hfail. rewrite Hfail in Hc2. simpl in Hc2. split.
    + by rewrite Hc2, Hc1.
    + destruct Hshape as [[Hok _]|(_ & _ & Hmsg)]; [congruence|exact Hmsg].
  - intros Hno. rewrite <- Hx0, <- Hx1 in Hno.
    destruct Hout as [H|x events e Hs Ho|x events u Hs Ho];
      [reflexivity|reflexivity|congruence].
  - intros Hdown.
    destruct Hout as [H|x events e Hs Ho|x events u Hs Ho];
      [reflexivity|reflexivity|].
    destruct (Hdown (history s1) x
                (promptWithSearch env contentType options searchText s1))
      as (ev & e & He).
    congruence.
Qed.

(** The text cached before a failed regeneration is lost. *)
Example regenerate_loses_cached_text :
  cache (with_ideas env_ai_fails_later) !! ideas = Some "## Draft"
  /\ (generate env_ai_fails_later ideas (plain true)
        (with_ideas env_ai_fails_later)).1
     = Returned (failure "socket hang up")
  /\ cache (generate env_ai_fails_later ideas (plain true)
              (with_ideas env_ai_fails_later)).2 !! ideas = None.
Proof. repeat split; vm_compute; reflexivity. Qed.

(** ** getMoreVariations *)

(** C1, as amended.  For a content type with a cached entry, a successful
    [getMoreVariations] returns the variations to the caller and, as
    [sendPrompt] is given the content type, writes them over the cached
    entry whenever the cleaned text is not empty (an empty text leaves the
    cache as it was); the entries of the other content types are unchanged. *)
Theorem getMoreVariations_overwrites_entry env contentType s r s' :
  is_Some (cache s !! contentType) ->
  getMoreVariations env contentType s = (Returned r, s') ->
  success r = true ->
  cache s' = (if Js.truthy (content r)
              then <[contentType := content r]> (cache s) else cache s)
  /\ (content r <> EmptyString -> cache s' !! contentType = Some (content r))
  /\ (forall t, t <> contentType -> cache s' !! t = cache s !! t).
Proof.
  intros _ Hrun Hok.
  destruct (getMoreVariations_inv env contentType s)
    as [[_ E]|(text & r0 & s0 & _ & _ & E & Hout)]; rewrite Hrun in E.
  { injection E as -> _. discriminate Hok. }
  injection E as <- <-.
  pose proof (sendPrompt_outcome_cache _ _ _ _ _ _ Hout) as Hcache.
  rewrite Hok in Hcache. simpl in Hcache.
  split; [exact Hcache|]. split.
  - intros Hne. apply truthy_true_iff in Hne. rewrite Hcache, Hne.
    apply lookup_insert_eq.
  - intros t Hne. rewrite Hcache. destruct (Js.truthy (content r)); [|reflexivity].
    apply lookup_insert_ne. congruence.
Qed.

Lemma getMoreVariations_overwrites_entry_witness :
  is_Some (cache (with_ideas env_drafts) !! ideas)
  /\ getMoreVariations env_drafts ideas (with_ideas env_drafts)
     = (Returned (succeeded "## Draft 3"),
        (getMoreVariations env_drafts ideas (with_ideas env_drafts)).2)
  /\ cache (getMoreVariations env_drafts ideas (with_ideas env_drafts)).2 !! ideas
     = Some "## Draft 3".
Proof.
  assert (H1 : is_Some (cache (with_ideas env_drafts) !! ideas))
    by (exists "## Draft 2"; vm_compute; reflexivity).
  assert (H2 : getMoreVariations env_drafts ideas (with_ideas env_drafts)
               = (Returned (succeeded "## Draft 3"),
                  (getMoreVariations env_drafts ideas (with_ideas env_drafts)).2))
    by (vm_compute; reflexivity).
  split; [exact H1|]. split; [exact H2|].
  apply (getMoreVariations_overwrites_entry env_drafts ideas
           (with_ideas env_drafts) _ _ H1 H2 eq_refl).
  simpl. discriminate.
Defined.

(** C1 as stated fails: the entry cached for ideas is replaced by the
    variations. *)
Lemma getMoreVariations_replaces_cached_text :
  cache (with_ideas env_drafts) !! ideas = Some "## Draft 2"
  /\ ~ variations_leave_cache env_drafts ideas (with_ideas env_drafts).
Proof.
  split; [vm_compute; reflexivity|].
  intros H.
  specialize (H (succeeded "## Draft 3")
                (getMoreVariations env_drafts ideas (with_ideas env_drafts)).2).
  assert (E : cache (getMoreVariations env_drafts ideas
                       (with_ideas env_drafts)).2 !! ideas
              = cache (with_ideas env_drafts) !! ideas).
  { apply H; [vm_compute; reflexivity|reflexivity]. }
  vm_compute in E. discriminate E.
Qed.

(** ** switchModel *)

(** C5, as amended.  When [switchModel] is asked for another model and the
    creation of the new session throws, the error is thrown on to the
    caller; by then the previous session has been destroyed (unless its
    [destroy] itself threw) and [currentModel] is already the new model.
    The service keeps its reference to the old session object and has no
    replacement; the context (topic, platform, cache, search results) and the
    client are untouched. *)
Theorem switchModel_failure env newModel s x e :
  newModel <> currentModel s ->
  is_Some (client s) ->
  session s = Some x ->
  sdk_createSession env (history (observe SessionDestroy s)) newModel = Raised e ->
  exists s',
    switchModel env newModel s = (Raised e, s')
    /\ currentModel s' = newModel
    /\ session s'
       = Some {| sessionModel := sessionModel x;
                 destroyed := match sdk_destroy env (history s) x with
                              | Returned _ => true
                              | Raised _ => destroyed x
                              end |}
    /\ context s' = context s
    /\ client s' = client s.
Proof.
  intros Hne [c Hc] Hx Hcreate.
  unfold switchModel, bind, gets, try_catch, destroy, perform, modify,
    createSession, throw, ret, bind, gets. simpl.
  rewrite bool_decide_eq_false_2 by exact Hne.
  rewrite Hx.
  destruct (sdk_destroy env (history s) x) as [u|e']; simpl;
    rewrite Hc; simpl; simpl in Hcreate; rewrite Hcreate.
  - eexists. split; [reflexivity|]. by repeat split.
  - eexists. split; [reflexivity|]. destruct x. by repeat split.
Qed.

Lemma switchModel_failure_witness :
  gpt_5 <> currentModel (started env_one_session)
  /\ is_Some (client (started env_one_session))
  /\ session (started env_one_session)
     = Some {| sessionModel := gpt_4o; destroyed := false |}
  /\ exists s',
       switchModel env_one_session gpt_5 (started env_one_session)
       = (Raised (JsError "model not available"), s')
       /\ currentModel s' = gpt_5
       /\ session s' = Some {| sessionModel := gpt_4o; destroyed := true |}.
Proof.
  assert (H1 : gpt_5 <> currentModel (started env_one_session))
    by (vm_compute; discriminate).
  assert (H2 : is_Some (client (started env_one_session)))
    by (eexists; vm_compute; reflexivity).
  assert (H3 : session (started env_one_session)
               = Some {| sessionModel := gpt_4o; destroyed := false |})
    by (vm_compute; reflexivity).
  assert (H4 : sdk_createSession env_one_session
                 (history (observe SessionDestroy (started env_one_session)))
                 gpt_5
               = Raised (JsError "model not available"))
    by (vm_compute; reflexivity).
  split; [exact H1|]. split; [exact H2|]. split; [exact H3|].
  destruct (switchModel_failure env_one_session gpt_5
              (started env_one_session) _ _ H1 H2 H3 H4)
    as (s' & E & Hm & Hs & _).
  exists s'. split; [exact E|]. split; [exact Hm|]. exact Hs.
Defined.

(** C5 as stated fails: after the failed switch the model is the new one
    and the only session the service holds has been destroyed. *)
Lemma switchModel_failure_destroys_session :
  switchModel env_one_session gpt_5 (started env_one_session)
  = (Raised (JsError "model not available"),
     (switchModel env_one_session gpt_5 (started env_one_session)).2)
  /\ currentModel (switchModel env_one_session gpt_5
                     (started env_one_session)).2 = gpt_5
  /\ session (switchModel env_one_session gpt_5 (started env_one_session)).2
     = Some {| sessionModel := gpt_4o; destroyed := true |}
  /\ ~ failed_switch_keeps_session env_one_session gpt_5 (started env_one_session).
Proof.
  assert (E : switchModel env_one_session gpt_5 (started env_one_session)
              = (Raised (JsError "model not available"),
                 (switchModel env_one_session gpt_5
                    (started env_one_session)).2))
    by (vm_compute; reflexivity).
  split; [exact E|]. split; [vm_compute; reflexivity|].
  split; [vm_compute; reflexivity|].
  intros H. destruct (H _ _ E) as [Hm _]. vm_compute in Hm. discriminate Hm.
Qed.

(** ** Results *)



(** * Further properties *)

(** ** The Exa service *)

Lemma substring0_length (n : nat) (s : string) :
  String.length (Js.substring0 n s) <= n.
Proof.
  unfold Js.substring0. revert s. induction n as [|n IH]; intros s.
  - destruct s; simpl; lia.
  - destruct s as [|c s]; simpl; [lia|]. specialize (IH s). lia.
Qed.

(** X1.  A search result built from a raw Exa entry never has an empty
    title: a missing or empty title becomes "Untitled".  Its snippet is the
    joined highlights when these give a non-empty text, and otherwise the
    first 500 characters of the page text at most (empty when there is no
    text); the other fields are carried over. *)
Theorem to_SearchResult_fills_gaps (r : ExaRawResult) :
  title (to_SearchResult r) <> EmptyString
  /\ (forall t, raw_title r = Some t -> t <> EmptyString ->
                title (to_SearchResult r) = t)
  /\ ((raw_title r = None \/ raw_title r = Some EmptyString) ->
      title (to_SearchResult r) = "Untitled")
  /\ (forall hs, raw_highlights r = Some hs -> Js.join " " hs <> EmptyString ->
                 snippet (to_SearchResult r) = Js.join " " hs)
  /\ ((forall hs, raw_highlights r = Some hs -> Js.join " " hs = EmptyString) ->
      snippet (to_SearchResult r)
      = Js.substring0 500 (default EmptyString (raw_text r))
      /\ String.length (snippet (to_SearchResult r)) <= 500)
  /\ url (to_SearchResult r) = raw_url r
  /\ publishedDate (to_SearchResult r) = raw_publishedDate r
  /\ author (to_SearchResult r) = raw_author r
  /\ score (to_SearchResult r) = raw_score r.
Proof.
  destruct r as [t u hs txt d a sc]. unfold to_SearchResult. simpl.
  split; [|split; [|split; [|split; [|split]]]].
  - destruct t as [[|c t]|]; simpl; discriminate.
  - intros t' [= ->] Hne. destruct t' as [|c t']; [by destruct Hne|reflexivity].
  - intros [-> | ->]; reflexivity.
  - intros hs' [= ->] Hne. simpl.
    unfold Js.or_else at 1. apply truthy_true_iff in Hne. by rewrite Hne.
  - intros Hempty.
    assert (E : default EmptyString (Js.join " " <$> hs) = EmptyString).
    { destruct hs as [hs|]; simpl; [by apply Hempty|reflexivity]. }
    rewrite E. simpl.
    assert (E' : Js.or_else (default EmptyString (Js.substring0 500 <$> txt))
                   EmptyString
                 = Js.substring0 500 (default EmptyString txt)).
    { destruct txt as [txt|]; simpl; [|reflexivity].
      unfold Js.or_else. by destruct (Js.substring0 500 txt). }
    rewrite E'. split; [reflexivity|apply substring0_length].
  - by repeat split.
Qed.

Lemma searchAndContents_cases env query options s :
  (exaClient (exaService s) = None ->
   searchAndContents env query options s
   = (Raised (JsError
        "Exa API key not configured. Set EXA_API_KEY environment variable."), s))
  /\ (is_Some (exaClient (exaService s)) ->
      exists o,
        searchAndContents env query options s
        = (o, observe (ExaSearchAndContents (to_ExaRequest query options)) s)
        /\ match exa_searchAndContents env (history s)
                   (to_ExaRequest query options) with
           | Returned response =>
               o = Returned
                     {| results := to_SearchResult <$> raw_results response;
                        autopromptString := raw_autopromptString response |}
           | Raised e =>
               o = Raised (JsError ("Exa search failed: "
                                    +:+ message_or e "Search failed"))
           end)
  /\ req_numResults (to_ExaRequest query no_ExaSearchOptions) = 10
  /\ req_type (to_ExaRequest query no_ExaSearchOptions) = auto
  /\ req_useAutoprompt (to_ExaRequest query no_ExaSearchOptions) = true.
Proof.
  split; [|split; [|by repeat split]].
  - intros H. unfold searchAndContents, bind, gets, throw. simpl. by rewrite H.
  - intros [u H].
    unfold searchAndContents, bind, gets, try_catch, perform, throw, ret. simpl.
    rewrite H.
    destruct (exa_searchAndContents env (history s) (to_ExaRequest query options))
      as [response|e]; eexists; split; reflexivity.
Qed.

(** X2.  [searchAndContents] without a client throws the configuration
    error and calls nothing.  With a client it makes exactly one call, with
    the defaults 10 / auto / autoprompt filled in for absent options; what
    the client returns is mapped entry by entry, and whatever it throws comes
    back as an [Error] whose message starts with "Exa search failed: ". *)
Theorem searchAndContents_outcomes env query options s :
  (exaClient (exaService s) = None ->
   searchAndContents env query options s
   = (Raised (JsError
        "Exa API key not configured. Set EXA_API_KEY environment variable."), s))
  /\ (is_Some (exaClient (exaService s)) ->
      exists o,
        searchAndContents env query options s
        = (o, observe (ExaSearchAndContents (to_ExaRequest query options)) s)
        /\ match exa_searchAndContents env (history s)
                   (to_ExaRequest query options) with
           | Returned response =>
               o = Returned
                     {| results := to_SearchResult <$> raw_results response;
                        autopromptString := raw_autopromptString response |}
           | Raised e =>
               o = Raised (JsError ("Exa search failed: "
                                    +:+ message_or e "Search failed"))
           end)
  /\ req_numResults (to_ExaRequest query no_ExaSearchOptions) = 10
  /\ req_type (to_ExaRequest query no_ExaSearchOptions) = auto
  /\ req_useAutoprompt (to_ExaRequest query no_ExaSearchOptions) = true.
Proof. exact (searchAndContents_cases env query options s). Qed.


(** ** The clock of [searchTrending] *)

(** [Js.toISOString] at the epoch, around a leap day and a new year, before
    year 0, beyond year 9999 and at the ends of the range of time values. *)
Example toISOString_samples :
  Js.toISOString 0 = Some "1970-01-01T00:00:00.000Z"
  /\ Js.toISOString (-1) = Some "1969-12-31T23:59:59.999Z"
  /\ Js.toISOString 951782400000 = Some "2000-02-29T00:00:00.000Z"
  /\ Js.toISOString (-2203891200000) = Some "1900-03-01T00:00:00.000Z"
  /\ Js.toISOString 1709251199999 = Some "2024-02-29T23:59:59.999Z"
  /\ Js.toISOString 1735689599999 = Some "2024-12-31T23:59:59.999Z"
  /\ Js.toISOString 1735689600000 = Some "2025-01-01T00:00:00.000Z"
  /\ Js.toISOString (-62198755200000) = Some "-000001-01-01T00:00:00.000Z"
  /\ Js.toISOString 253402300800000 = Some "+010000-01-01T00:00:00.000Z"
  /\ Js.toISOString 8640000000000000 = Some "+275760-09-13T00:00:00.000Z"
  /\ Js.toISOString (-8640000000000000) = Some "-271821-04-20T00:00:00.000Z"
  /\ Js.toISOString 8640000000000001 = None.
Proof. vm_compute. repeat split. Qed.

Lemma DayFromYear_succ (y : Z) :
  Js.DayFromYear (y + 1)
  = (Js.DayFromYear y + if Js.InLeapYear y then 366 else 365)%Z.
Proof.
  unfold Js.DayFromYear, Js.InLeapYear.
  destruct (Z.eqb_spec (y mod 4) 0), (Z.eqb_spec (y mod 100) 0),
    (Z.eqb_spec (y mod 400) 0); simpl; Z.div_mod_to_equations; lia.
Qed.

Lemma YearFromDay_spec (day : Z) :
  (Js.DayFromYear (Js.YearFromDay day) <= day
   < Js.DayFromYear (Js.YearFromDay day + 1))%Z.
Proof.
  unfold Js.YearFromDay. cbv zeta.
  set (y := (1970 + 400 * day / 146097)%Z).
  assert (Hy : (146097 * (y - 1970) <= 400 * day
                < 146097 * (y - 1970) + 146097)%Z).
  { subst y. Z.div_mod_to_equations. lia. }
  clearbody y.
  destruct (Z.leb_spec (Js.DayFromYear (y + 1)) day) as [H1|H1].
  - split; [exact H1|]. unfold Js.DayFromYear in *. Z.div_mod_to_equations. lia.
  - destruct (Z.leb_spec (Js.DayFromYear y) day) as [H0|H0]; [lia|].
    replace (y - 1 + 1)%Z with y by lia. split; [|exact H0].
    unfold Js.DayFromYear in *. Z.div_mod_to_equations. lia.
Qed.

(** [Js.date_of_day] gives the date of every day number. *)
Lemma date_of_day_sound (day : Z) :
  is_date day (Js.date_of_day day).1.1 (Js.date_of_day day).1.2
    (Js.date_of_day day).2.
Proof.
  unfold Js.date_of_day, is_date. cbv zeta. simpl.
  pose proof (YearFromDay_spec day) as Hy.
  split; [exact Hy|].
  rewrite DayFromYear_succ in Hy.
  set (y := Js.YearFromDay day) in *.
  set (w := (day - Js.DayFromYear y)%Z).
  assert (Hw : (0 <= w < if Js.InLeapYear y then 366 else 365)%Z)
    by (subst w; lia).
  assert (Hd : day = (Js.DayFromYear y + w)%Z) by (subst w; lia).
  clearbody w. rewrite Hd. clear Hd Hy.
  unfold Js.MonthFromDay, Js.days_before_month, days_in_month.
  destruct (Js.InLeapYear y); cbv zeta;
    repeat (match goal with
            | |- context [(?a <? ?b)%Z] => destruct (Z.ltb_spec a b)
            end; try lia); simpl; lia.
Qed.

Lemma digit_is_not_T (n : Z) :
  Ascii.eqb (ascii_of_nat (48 + Z.to_nat (n mod 10))) "T" = false.
Proof.
  assert (H : Z.to_nat (n mod 10) < 10)
    by (pose proof (Z.mod_pos_bound n 10); lia).
  revert H. generalize (Z.to_nat (n mod 10)). intros k H.
  do 10 (destruct k as [|k]; [reflexivity|]). lia.
Qed.

Lemma before_T_char (c : ascii) (rest : string) :
  Ascii.eqb c "T" = false ->
  Js.before "T" (String c rest) = String c (Js.before "T" rest).
Proof. intros H. cbn [Js.before]. by rewrite H. Qed.

Lemma before_T_padded (width : nat) (n : Z) (rest : string) :
  Js.before "T" (Js.padded width n +:+ rest)
  = Js.padded width n +:+ Js.before "T" rest.
Proof.
  revert n rest. induction width as [|w IH]; intros n rest; [reflexivity|].
  cbn [Js.padded]. rewrite !append_assoc, IH. f_equal.
  cbn [String.append]. apply before_T_char, digit_is_not_T.
Qed.

Lemma before_T_iso_year (y : Z) (rest : string) :
  Js.before "T" (Js.iso_year y +:+ rest)
  = Js.iso_year y +:+ Js.before "T" rest.
Proof.
  unfold Js.iso_year.
  destruct ((0 <=? y)%Z && (y <=? 9999)%Z); [apply before_T_padded|].
  destruct (y <? 0)%Z; cbn [String.append];
    (rewrite before_T_char by reflexivity); f_equal; apply before_T_padded.
Qed.

(** The date part of an ISO timestamp is the date of the day of its time,
    and a week of milliseconds is seven days. *)
Lemma toISOString_date (t : Z) (iso : string) :
  Js.toISOString t = Some iso ->
  Js.before "T" iso
  = Js.iso_year (Js.date_of_day (t / Js.msPerDay)).1.1
    +:+ "-" +:+ Js.padded 2 (Js.date_of_day (t / Js.msPerDay)).1.2
    +:+ "-" +:+ Js.padded 2 (Js.date_of_day (t / Js.msPerDay)).2.
Proof.
  unfold Js.toISOString.
  destruct (8640000000000000 <? Z.abs t)%Z; [discriminate|].
  destruct (Js.date_of_day (t / Js.msPerDay)) as [[y m] d]. intros H.
  apply (inj Some) in H. subst iso. cbn [fst snd].
  rewrite before_T_iso_year. f_equal. cbn [String.append].
  rewrite before_T_char by reflexivity. f_equal.
  rewrite before_T_padded. f_equal.
  rewrite before_T_char by reflexivity. f_equal.
  rewrite before_T_padded. rewrite <- (append_empty_r (Js.padded 2 d)) at 2.
  f_equal.
Qed.

Lemma week_before (now : Z) :
  ((now - 7 * 24 * 60 * 60 * 1000) / Js.msPerDay = now / Js.msPerDay - 7)%Z.
Proof. unfold Js.msPerDay. Z.div_mod_to_equations. lia. Qed.

Lemma searchTrending_cases env t options s :
  is_Some (exaClient (exaService s)) ->
  match Js.toISOString (Date_now env (history s) - 7 * 24 * 60 * 60 * 1000) with
  | None =>
      (8640000000000000 < Z.abs (Date_now env (history s) - 604800000))%Z
      /\ searchTrending env t options s
         = (Raised (JsError "Invalid time value"), s)
  | Some iso =>
      exists o request y m d,
        searchTrending env t options s
        = (o, observe (ExaSearchAndContents request) s)
        /\ req_startPublishedDate request = Some (Js.before "T" iso)
        /\ Js.before "T" iso
           = Js.iso_year y +:+ "-" +:+ Js.padded 2 m +:+ "-" +:+ Js.padded 2 d
        /\ is_date (Date_now env (history s) / Js.msPerDay - 7) y m d
        /\ req_query request = t
        /\ req_numResults request
           = match numResults options with
             | Some 0 | None => 15
             | Some n => n
             end
        /\ req_type request = default auto (searchKind options)
        /\ req_useAutoprompt request = default true (useAutoprompt options)
        /\ req_category request = category options
        /\ req_endPublishedDate request = endPublishedDate options
        /\ req_includeDomains request = includeDomains options
        /\ req_excludeDomains request = excludeDomains options
        /\ match exa_searchAndContents env (history s) request with
           | Returned response =>
               o = Returned
                     {| results := to_SearchResult <$> raw_results response;
                        autopromptString := raw_autopromptString response |}
           | Raised e =>
               o = Raised (JsError ("Exa search failed: "
                                    +:+ message_or e "Search failed"))
           end
  end.
Proof.
  intros Hc. unfold searchTrending, bind, gets. cbv beta iota.
  destruct (Js.toISOString (Date_now env (history s) - 7 * 24 * 60 * 60 * 1000))
    as [iso|] eqn:Hiso.
  - match goal with
    | |- context [searchAndContents env t ?o s] =>
        destruct (searchAndContents_cases env t o s) as (_ & H & _)
    end.
    destruct (H Hc) as (o & -> & Ho).
    eexists o, _,
      (Js.date_of_day (Date_now env (history s) / Js.msPerDay - 7)).1.1,
      (Js.date_of_day (Date_now env (history s) / Js.msPerDay - 7)).1.2,
      (Js.date_of_day (Date_now env (history s) / Js.msPerDay - 7)).2.
    split; [reflexivity|]. cbn [to_ExaRequest req_startPublishedDate
      req_query req_numResults req_type req_useAutoprompt req_category
      req_endPublishedDate req_includeDomains req_excludeDomains
      startPublishedDate numResults searchKind useAutoprompt category
      endPublishedDate includeDomains excludeDomains default].
    split; [reflexivity|].
    split; [by rewrite (toISOString_date _ _ Hiso), week_before|].
    split; [apply date_of_day_sound|].
    split; [reflexivity|].
    split; [unfold numResults_or; by destruct (numResults options) as [[|n]|]|].
    split; [reflexivity|]. split; [reflexivity|]. split; [reflexivity|].
    split; [reflexivity|]. split; [reflexivity|]. split; [reflexivity|].
    exact Ho.
  - split; [|reflexivity].
    unfold Js.toISOString in Hiso.
    destruct (Z.ltb_spec 8640000000000000
                (Z.abs (Date_now env (history s) - 7 * 24 * 60 * 60 * 1000)))
      as [Hlt|Hge].
    + exact Hlt.
    + by destruct (Js.date_of_day _) as [[y m] d].
Qed.

(** X3.  With a client, [searchTrending] makes one search on the topic.  Its
    start date is the part before the "T" of the ISO timestamp of the moment
    7 * 24 * 60 * 60 * 1000 ms before now, which is the calendar date of the
    seventh day before today's (UTC), whatever start date the caller gave.
    It asks for 15 results unless the caller gave a non-zero number; search
    type, autoprompt, category, end date and domain lists are the caller's,
    and the outcome is that of [searchAndContents] on this request.  When
    the moment a week back is no valid date it throws "Invalid time value"
    and searches nothing. *)
Theorem searchTrending_request env t options s :
  is_Some (exaClient (exaService s)) ->
  match Js.toISOString (Date_now env (history s) - 7 * 24 * 60 * 60 * 1000) with
  | None =>
      (8640000000000000 < Z.abs (Date_now env (history s) - 604800000))%Z
      /\ searchTrending env t options s
         = (Raised (JsError "Invalid time value"), s)
  | Some iso =>
      exists o request y m d,
        searchTrending env t options s
        = (o, observe (ExaSearchAndContents request) s)
        /\ req_startPublishedDate request = Some (Js.before "T" iso)
        /\ Js.before "T" iso
           = Js.iso_year y +:+ "-" +:+ Js.padded 2 m +:+ "-" +:+ Js.padded 2 d
        /\ is_date (Date_now env (history s) / Js.msPerDay - 7) y m d
        /\ req_query request = t
        /\ req_numResults request
           = match numResults options with
             | Some 0 | None => 15
             | Some n => n
             end
        /\ req_type request = default auto (searchKind options)
        /\ req_useAutoprompt request = default true (useAutoprompt options)
        /\ req_category request = category options
        /\ req_endPublishedDate request = endPublishedDate options
        /\ req_includeDomains request = includeDomains options
        /\ req_excludeDomains request = excludeDomains options
        /\ match exa_searchAndContents env (history s) request with
           | Returned response =>
               o = Returned
                     {| results := to_SearchResult <$> raw_results response;
                        autopromptString := raw_autopromptString response |}
           | Raised e =>
               o = Raised (JsError ("Exa search failed: "
                                    +:+ message_or e "Search failed"))
           end
  end.
Proof. exact (searchTrending_cases env t options s). Qed.

Lemma searchTrending_request_witness :
  is_Some (exaClient (exaService (started env_exa)))
  /\ Js.toISOString (Date_now env_exa (history (started env_exa))
                     - 7 * 24 * 60 * 60 * 1000)
     = Some "2024-01-01T11:12:25.678Z"
  /\ exists o request,
       searchTrending env_exa "cats"
         {| numResults := Some 0; searchKind := None; useAutoprompt := None;
            includeDomains := None; excludeDomains := None;
            startPublishedDate := Some "1999-01-01"; endPublishedDate := None;
            category := None |} (started env_exa)
       = (o, observe (ExaSearchAndContents request) (started env_exa))
       /\ req_startPublishedDate request = Some "2024-01-01"
       /\ req_numResults request = 15.
Proof.
  assert (H : is_Some (exaClient (exaService (started env_exa))))
    by (eexists; vm_compute; reflexivity).
  assert (Hiso : Js.toISOString (Date_now env_exa (history (started env_exa))
                                 - 7 * 24 * 60 * 60 * 1000)
                 = Some "2024-01-01T11:12:25.678Z")
    by (vm_compute; reflexivity).
  split; [exact H|]. split; [exact Hiso|].
  pose proof (searchTrending_request env_exa "cats"
                {| numResults := Some 0; searchKind := None;
                   useAutoprompt := None;
                   includeDomains := None; excludeDomains := None;
                   startPublishedDate := Some "1999-01-01";
                   endPublishedDate := None; category := None |}
                (started env_exa) H) as T.
  rewrite Hiso in T.
  destruct T as (o & request & y & m & d & E & Hd & _ & _ & _ & Hn & _).
  exists o, request. split; [exact E|]. split; [exact Hd|exact Hn].
Defined.

Lemma dedupe_by_url_facts (kept : list string) (l : list SearchResult) :
  NoDup (url <$> dedupe_by_url kept l)
  /\ (forall r, r ∈ dedupe_by_url kept l -> r ∈ l /\ url r ∉ kept)
  /\ (forall r, r ∈ l ->
                url r ∈ kept \/ url r ∈ url <$> dedupe_by_url kept l)
  /\ sublist (dedupe_by_url kept l) l.
Proof.
  revert kept. induction l as [|x l IH]; intros kept; simpl.
  - split; [constructor|]. split; [intros r H; by apply elem_of_nil in H|].
    split; [intros r H; by apply elem_of_nil in H|constructor].
  - destruct (bool_decide (url x ∈ kept)) eqn:E.
    + apply bool_decide_eq_true in E.
      destruct (IH kept) as (H1 & H2 & H3 & H4).
      split; [exact H1|]. split; [|split].
      * intros r Hr. destruct (H2 r Hr). split; [by right|assumption].
      * intros r Hr. apply elem_of_cons in Hr as [->|Hr]; [by left|by apply H3].
      * by apply sublist_cons.
    + apply bool_decide_eq_false in E.
      destruct (IH (url x :: kept)) as (H1 & H2 & H3 & H4).
      split; [|split; [|split]].
      * simpl. constructor; [|exact H1].
        intros Hin. apply list_elem_of_fmap in Hin as (r & Hu & Hr).
        destruct (H2 r Hr) as [_ Hn]. apply Hn. rewrite <- Hu. by left.
      * intros r Hr. apply elem_of_cons in Hr as [->|Hr].
        -- split; [by left|exact E].
        -- destruct (H2 r Hr) as [Hl Hn]. split; [by right|].
           intros Hk. apply Hn. by right.
      * intros r Hr. simpl. apply elem_of_cons in Hr as [->|Hr].
        -- right. by left.
        -- destruct (H3 r Hr) as [Hk|Hk].
           ++ apply elem_of_cons in Hk as [Hk|Hk]; [right; rewrite Hk; by left|by left].
           ++ right. by right.
      * by apply sublist_skip.
Qed.

Lemma dedupe_by_url_kept (l : list SearchResult) :
  NoDup (url <$> dedupe_by_url [] l)
  /\ sublist (dedupe_by_url [] l) l
  /\ (forall r, r ∈ l -> url r ∈ url <$> dedupe_by_url [] l).
Proof.
  destruct (dedupe_by_url_facts [] l) as (H1 & _ & H3 & H4).
  split; [exact H1|]. split; [exact H4|].
  intros r Hr. destruct (H3 r Hr) as [H|H]; [by apply elem_of_nil in H|exact H].
Qed.

(** X4.  The URL filter of [searchContentIdeas] returns a sub-list of its
    input, in the same order, in which no URL occurs twice and every URL of
    the input still occurs. *)
Theorem dedupe_by_url_unique (l : list SearchResult) :
  NoDup (url <$> dedupe_by_url [] l)
  /\ sublist (dedupe_by_url [] l) l
  /\ (forall r, r ∈ l -> url r ∈ url <$> dedupe_by_url [] l).
Proof. exact (dedupe_by_url_kept l). Qed.


Lemma idea_query_step env options query s :
  exists more,
    try_catch
      (let* response := searchAndContents env query (idea_options options) in
       ret (results response))
      (fun _ => ret []) s
    = (Returned more,
       match exaClient (exaService s) with
       | Some _ => observe (ExaSearchAndContents
                              (to_ExaRequest query (idea_options options))) s
       | None => s
       end)
    /\ (exaClient (exaService s) = None -> more = [])
    /\ ((forall h request, exists e,
           exa_searchAndContents env h request = Raised e) -> more = []).
Proof.
  destruct (searchAndContents_cases env query (idea_options options) s)
    as (Hnone & Hsome & _).
  unfold try_catch, bind, ret.
  destruct (exaClient (exaService s)) as [u|] eqn:Hc.
  - destruct (Hsome (ltac:(eauto))) as (o & -> & Ho).
    destruct (exa_searchAndContents env (history s)
                (to_ExaRequest query (idea_options options))) as [resp|e] eqn:E;
      subst o.
    + eexists. split; [reflexivity|]. split; [discriminate|].
      intros Hdown. destruct (Hdown (history s)
                                (to_ExaRequest query (idea_options options))).
      congruence.
    + eexists. split; [reflexivity|]. by split.
  - rewrite (Hnone eq_refl). eexists. split; [reflexivity|]. by split.
Qed.

Lemma searchContentIdeas_loop_inv env queries options acc s :
  exists found,
    searchContentIdeas_loop env queries options acc s
    = (Returned found,
       match exaClient (exaService s) with
       | Some _ =>
           with_history (history s ++ (idea_call options s <$> queries)) s
       | None => s
       end)
    /\ (exaClient (exaService s) = None -> found = acc)
    /\ ((forall h request, exists e,
           exa_searchAndContents env h request = Raised e) -> found = acc).
Proof.
  revert acc s. induction queries as [|q queries IH]; intros acc s.
  - exists acc. split; [|by split]. simpl. unfold ret.
    destruct (exaClient (exaService s)); [|reflexivity].
    destruct s. unfold with_history. simpl. by rewrite app_nil_r.
  - simpl. unfold bind at 1.
    destruct (idea_query_step env options q s) as (more & Hstep & Hn & Hd).
    change
      {| numResults := Some 5; searchKind := searchKind options;
         useAutoprompt := useAutoprompt options;
         includeDomains := includeDomains options;
         excludeDomains := excludeDomains options;
         startPublishedDate := startPublishedDate options;
         endPublishedDate := endPublishedDate options;
         category := category options |}
      with (idea_options options).
    rewrite Hstep.
    destruct (exaClient (exaService s)) as [u|] eqn:Hc.
    + destruct (IH (acc ++ more)
                  (observe (ExaSearchAndContents
                              (to_ExaRequest q (idea_options options))) s))
        as (found & Hloop & _ & Hd').
      exists found. split.
      * rewrite Hloop. simpl. rewrite Hc. f_equal.
        destruct s. unfold with_history, observe, idea_call, cache. simpl.
        by rewrite <- app_assoc.
      * split; [discriminate|]. intros Hdown.
        rewrite (Hd' Hdown), (Hd Hdown). apply app_nil_r.
    + destruct (IH (acc ++ more) s) as (found & Hloop & Hn' & _).
      exists found. rewrite Hloop, Hc. split; [reflexivity|].
      split.
      * intros _. rewrite (Hn' Hc), (Hn eq_refl). apply app_nil_r.
      * intros Hdown. rewrite (Hn' Hc), (Hn eq_refl). apply app_nil_r.
Qed.

Lemma searchContentIdeas_cases env t options s :
  exists found s',
    searchContentIdeas env t options s
    = (Returned {| results := found; autopromptString := None |}, s')
    /\ NoDup (url <$> found)
    /\ (exaClient (exaService s) = None -> found = [] /\ s' = s)
    /\ (is_Some (exaClient (exaService s)) ->
        s' = with_history
               (history s ++ (idea_call options s <$> idea_queries t)) s)
    /\ ((forall h request, exists e,
           exa_searchAndContents env h request = Raised e) -> found = []).
Proof.
  unfold searchContentIdeas, bind.
  destruct (searchContentIdeas_loop_inv env (idea_queries t) options [] s)
    as (found & Hloop & Hn & Hd).
  fold (idea_queries t). rewrite Hloop. unfold ret.
  eexists _, _. split; [reflexivity|].
  split; [apply dedupe_by_url_kept|]. split; [|split].
  - intros Hc. rewrite Hc. by rewrite (Hn Hc).
  - intros [u Hc]. by rewrite Hc.
  - intros Hdown. by rewrite (Hd Hdown).
Qed.

(** X5.  [searchContentIdeas] never throws.  The results it returns carry
    pairwise different URLs.  Without a client it calls nothing and finds
    nothing; with a client it makes exactly three calls, one per query built
    from the topic, each asking for 5 results, whether or not some of them
    fail; when all three fail the result is the empty list. *)
Theorem searchContentIdeas_total env t options s :
  exists found s',
    searchContentIdeas env t options s
    = (Returned {| results := found; autopromptString := None |}, s')
    /\ NoDup (url <$> found)
    /\ (exaClient (exaService s) = None -> found = [] /\ s' = s)
    /\ (is_Some (exaClient (exaService s)) ->
        s' = with_history
               (history s ++ (idea_call options s <$> idea_queries t)) s)
    /\ ((forall h request, exists e,
           exa_searchAndContents env h request = Raised e) -> found = []).
Proof. exact (searchContentIdeas_cases env t options s). Qed.


Lemma searchContentIdeas_total_witness :
  is_Some (exaClient (exaService (started env_exa)))
  /\ (searchContentIdeas env_exa "cats" no_ExaSearchOptions (started env_exa)).1
     = Returned
         {| results :=
              [ to_SearchResult (raw_hit "https://a.example" (Some "A"));
                to_SearchResult (raw_hit "https://b.example" None) ];
            autopromptString := None |}
  /\ length (history
               (searchContentIdeas env_exa "cats" no_ExaSearchOptions
                  (started env_exa)).2)
     = length (history (started env_exa)) + 3.
Proof.
  assert (H : is_Some (exaClient (exaService (started env_exa))))
    by (eexists; vm_compute; reflexivity).
  split; [exact H|].
  destruct (searchContentIdeas_total env_exa "cats" no_ExaSearchOptions
              (started env_exa)) as (found & s' & E & _ & _ & Hs & _).
  rewrite E. simpl. split.
  - pose proof (f_equal fst E) as E1. simpl in E1. rewrite <- E1.
    vm_compute. reflexivity.
  - rewrite (Hs H). vm_compute. reflexivity.
Defined.

(** ** performSearch *)

(** X6.  Without an Exa key [performSearch] calls nothing, changes nothing
    and hands the prompt the note about general knowledge, whatever kind of
    search was asked for. *)
Theorem performSearch_without_key env kind s :
  isConfigured (exaService s) = false ->
  performSearch env kind s
  = (Returned
       "Note: Using general knowledge. For better results, set EXA_API_KEY in .env file.",
     s).
Proof.
  intros H. unfold performSearch, bind, gets. simpl. by rewrite H.
Qed.

Lemma performSearch_without_key_witness :
  isConfigured (exaService (started env_drafts)) = false
  /\ performSearch env_drafts trendingSearch (started env_drafts)
     = (Returned
          "Note: Using general knowledge. For better results, set EXA_API_KEY in .env file.",
        started env_drafts).
Proof.
  assert (H : isConfigured (exaService (started env_drafts)) = false)
    by (vm_compute; reflexivity).
  split; [exact H|].
  exact (performSearch_without_key env_drafts trendingSearch
           (started env_drafts) H).
Defined.

(** X7.  With an Exa key the general search makes one call for 5 results
    on the current topic.  When the call succeeds the mapped results replace
    the stored search results and their formatted text is returned; when it
    fails nothing is thrown, the text is the general-knowledge sentence
    naming the topic, and the search results stored before stay in place. *)
Theorem performSearch_general env s :
  isConfigured (exaService s) = true ->
  exists request,
    req_query request = topic (context s)
    /\ req_numResults request = 5
    /\ match exa_searchAndContents env (history s) request with
       | Returned response =>
           performSearch env generalSearch s
           = (Returned (formatResultsForLLM env
                          (to_SearchResult <$> raw_results response)),
              with_context
                (with_searchResults
                   (Some (to_SearchResult <$> raw_results response))
                   (context s))
                (observe (ExaSearchAndContents request) s))
       | Raised e =>
           performSearch env generalSearch s
           = (Returned ("Using general knowledge about " +:+ Js.dquote
                        +:+ topic (context s) +:+ Js.dquote +:+ "."),
              observe (ExaSearchAndContents request) s)
       end.
Proof.
  intros H. unfold isConfigured in H.
  destruct (exaClient (exaService s)) as [u|] eqn:Hc; [|discriminate H].
  set (options5 :=
         {| numResults := Some 5; searchKind := None; useAutoprompt := None;
            includeDomains := None; excludeDomains := None;
            startPublishedDate := None; endPublishedDate := None;
            category := None |}).
  exists (to_ExaRequest (topic (context s)) options5).
  split; [reflexivity|]. split; [reflexivity|].
  destruct (searchAndContents_cases env (topic (context s)) options5 s)
    as (_ & Hsome & _).
  destruct (Hsome (ex_intro _ u Hc)) as (o & E & Ho).
  unfold performSearch, bind, gets, try_catch, getTopic, modify, ret. simpl.
  unfold isConfigured. rewrite Hc. simpl. fold options5. rewrite E.
  destruct (exa_searchAndContents env (history s)
              (to_ExaRequest (topic (context s)) options5)) as [response|e];
    subst o; reflexivity.
Qed.

Lemma performSearch_general_witness :
  isConfigured (exaService (started env_exa_down)) = true
  /\ performSearch env_exa_down generalSearch (started env_exa_down)
     = (Returned ("Using general knowledge about " +:+ Js.dquote +:+ "cats"
                  +:+ Js.dquote +:+ "."),
        (performSearch env_exa_down generalSearch (started env_exa_down)).2)
  /\ searchResults
       (context (performSearch env_exa_down generalSearch
                   (started env_exa_down)).2) = None.
Proof.
  assert (H : isConfigured (exaService (started env_exa_down)) = true)
    by (vm_compute; reflexivity).
  split; [exact H|].
  destruct (performSearch_general env_exa_down (started env_exa_down) H)
    as (request & _ & _ & E).
  simpl in E. rewrite E. split; reflexivity.
Defined.

(** X8.  The ideas search degrades differently: since [searchContentIdeas]
    swallows the failure of each query, a search in which all three queries
    fail stores the empty result list and returns "No search results
    found." instead of the general-knowledge sentence. *)
Theorem performSearch_ideas_all_fail env s :
  isConfigured (exaService s) = true ->
  (forall h request, exists e, exa_searchAndContents env h request = Raised e) ->
  exists s',
    performSearch env ideasSearch s = (Returned "No search results found.", s')
    /\ searchResults (context s') = Some []
    /\ cache s' = cache s
    /\ length (history s') = length (history s) + 3.
Proof.
  intros H Hdown. unfold isConfigured in H.
  destruct (exaClient (exaService s)) as [u|] eqn:Hc; [|discriminate H].
  unfold performSearch, bind, gets, try_catch, getTopic, modify, ret. simpl.
  unfold isConfigured. rewrite Hc. simpl.
  destruct (searchContentIdeas_cases env (topic (context s))
              no_ExaSearchOptions s) as (found & s' & E & _ & _ & Hs & Hd).
  rewrite E. rewrite (Hd Hdown). simpl.
  eexists. split; [reflexivity|]. simpl. split; [reflexivity|].
  rewrite (Hs (ex_intro _ u Hc)). split; [reflexivity|].
  unfold with_history. simpl. rewrite length_app. reflexivity.
Qed.

Lemma performSearch_ideas_all_fail_witness :
  isConfigured (exaService (started env_exa_down)) = true
  /\ (performSearch env_exa_down ideasSearch (started env_exa_down)).1
     = Returned "No search results found.".
Proof.
  assert (H : isConfigured (exaService (started env_exa_down)) = true)
    by (vm_compute; reflexivity).
  split; [exact H|].
  destruct (performSearch_ideas_all_fail env_exa_down (started env_exa_down) H)
    as (s' & E & _).
  - intros h request. eexists. reflexivity.
  - by rewrite E.
Defined.

(** ** refine and the event listener *)

(** X9.  With a non-empty cached text, [refine] sends exactly one prompt,
    the refinement template filled with that text and the request, provided
    a session exists.  A success with a non-empty text replaces the cached
    entry; a failure, or a success whose text cleans to nothing, leaves the
    cache as it was; entries of other content types are never touched. *)
Theorem refine_replaces_entry env contentType refinementRequest s text :
  cache s !! contentType = Some text ->
  text <> EmptyString ->
  exists r s',
    refine env contentType refinementRequest s = (Returned r, s')
    /\ (session s = None -> r = failure "Session not initialized" /\ s' = s)
    /\ (is_Some (session s) ->
        history s'
        = history s
          ++ [ {| call := SessionSendAndWait
                            (getRefinementPrompt text refinementRequest);
                  cacheAtCall := cache s |} ])
    /\ (success r = true -> content r <> EmptyString ->
        cache s' = <[contentType := content r]> (cache s))
    /\ (success r = false \/ content r = EmptyString -> cache s' = cache s)
    /\ (forall t, t <> contentType -> cache s' !! t = cache s !! t).
Proof.
  intros Hc Hne.
  destruct (refine_inv env contentType refinementRequest s)
    as [[Hf _]|(text' & r & s' & Hc' & _ & E & Hout)].
  { rewrite Hc in Hf. simpl in Hf. apply truthy_true_iff in Hne. congruence. }
  rewrite Hc in Hc'. injection Hc' as <-.
  exists r, s'. split; [exact E|].
  pose proof (sendPrompt_outcome_cache _ _ _ _ _ _ Hout) as Hcache.
  split; [|split; [|split; [|split]]].
  - intros Hs. destruct Hout as [H|x events e Hx Ho|x events u Hx Ho];
      [by split|congruence|congruence].
  - intros [x Hx]. destruct Hout as [H|x' events e Hx' Ho|x' events u Hx' Ho];
      [congruence|reflexivity|].
    unfold stored. by destruct (Js.truthy _).
  - intros Hok Hcontent. apply truthy_true_iff in Hcontent.
    by rewrite Hcache, Hok, Hcontent.
  - intros [Hf|Hempty]; rewrite Hcache.
    + by rewrite Hf.
    + rewrite Hempty. simpl. by rewrite andb_false_r.
  - intros t Hneq. rewrite Hcache.
    destruct (success r && Js.truthy (content r)); [|reflexivity].
    apply lookup_insert_ne. congruence.
Qed.

Lemma refine_replaces_entry_witness :
  cache (with_ideas env_drafts) !! ideas = Some "## Draft 2"
  /\ "## Draft 2" <> EmptyString
  /\ exists r s',
       refine env_drafts ideas "shorter" (with_ideas env_drafts) = (Returned r, s')
       /\ (success r = true -> content r <> EmptyString ->
           cache s' = <[ideas := content r]> (cache (with_ideas env_drafts))).
Proof.
  assert (H1 : cache (with_ideas env_drafts) !! ideas = Some "## Draft 2")
    by (vm_compute; reflexivity).
  assert (H2 : "## Draft 2" <> EmptyString) by discriminate.
  split; [exact H1|]. split; [exact H2|].
  destruct (refine_replaces_entry env_drafts ideas "shorter"
              (with_ideas env_drafts) "## Draft 2" H1 H2)
    as (r & s' & E & _ & _ & H & _).
  exists r, s'. split; [exact E|exact H].
Defined.

Lemma accumulate_append (c : string) (events : list SessionEvent) :
  accumulate c events
  = c +:+ foldr String.append EmptyString (omap handleEvent events).
Proof.
  revert c. induction events as [|e events IH]; intros c; simpl.
  - by rewrite append_empty_r.
  - destruct (handleEvent e) as [t|]; simpl; rewrite IH; [|reflexivity].
    apply append_assoc.
Qed.

(** X10.  The listener of [sendPrompt] collects exactly the non-empty string
    deltas of [assistant.message_delta] events, in order: the accumulated
    text is the concatenation of those deltas, every other event (usage,
    unknown types, deltas that are missing, empty or not strings) is
    ignored, and listening to two batches of events one after the other is
    listening to their concatenation. *)
Theorem accumulate_collects_deltas (events more : list SessionEvent) :
  accumulate EmptyString events
  = foldr String.append EmptyString (omap handleEvent events)
  /\ accumulate EmptyString (events ++ more)
     = accumulate (accumulate EmptyString events) more
  /\ (forall e text,
        handleEvent e = Some text <->
        e = AssistantMessageDelta (DeltaString text) /\ text <> EmptyString)
  /\ (forall e, handleEvent e = None ->
        accumulate EmptyString (events ++ e :: more)
        = accumulate EmptyString (events ++ more)).
Proof.
  split; [by rewrite accumulate_append|]. split; [|split].
  - rewrite !accumulate_append. simpl. rewrite omap_app, foldr_app.
    generalize (omap handleEvent more). induction (omap handleEvent events)
      as [|t ts IH]; intros l; simpl; [reflexivity|].
    by rewrite IH, append_assoc.
  - intros e text. split.
    + destruct e as [[t| |]| |ty]; simpl; try discriminate.
      destruct (Js.truthy t) eqn:Ht; [|discriminate].
      intros [= ->]. split; [reflexivity|by apply truthy_true_iff].
    + intros [-> Hne]. simpl. apply truthy_true_iff in Hne. by rewrite Hne.
  - intros e He. rewrite !accumulate_append, !omap_app. simpl. by rewrite He.
Qed.

(** ** Session management *)

(** Asking [switchModel] for the model already in use does nothing:
    no session is destroyed or created and the service is unchanged. *)
Lemma switchModel_same_model env s :
  switchModel env (currentModel s) s = (Returned tt, s)
  /\ history (switchModel env (currentModel s) s).2 = history s
  /\ session (switchModel env (currentModel s) s).2 = session s.
Proof.
  assert (E : switchModel env (currentModel s) s = (Returned tt, s)).
  { unfold switchModel, bind, gets, ret. simpl.
    by rewrite bool_decide_eq_true_2. }
  rewrite E. by repeat split.
Qed.

(** X11.  When [switchModel] is asked for another model, a client exists
    and the new session can be created, it returns normally with the new
    model current and a fresh, live session for that model in place of the
    old one; the old session, if any, was asked to be destroyed first (a
    failure of that being ignored) and the context is untouched. *)
Theorem switchModel_success env newModel s :
  newModel <> currentModel s ->
  is_Some (client s) ->
  sdk_createSession env
    (match session s with
     | Some _ => history (observe SessionDestroy s)
     | None => history s
     end) newModel = Returned tt ->
  exists s',
    switchModel env newModel s = (Returned tt, s')
    /\ currentModel s' = newModel
    /\ session s' = Some {| sessionModel := newModel; destroyed := false |}
    /\ context s' = context s
    /\ client s' = client s
    /\ call <$> history s'
       = (call <$> history s)
         ++ match session s with
            | Some _ => [SessionDestroy; ClientCreateSession newModel]
            | None => [ClientCreateSession newModel]
            end.
Proof.
  intros Hne [c Hc] Hcreate.
  unfold switchModel, bind, gets, try_catch, destroy, perform, modify,
    createSession, throw, ret, bind, gets. simpl.
  rewrite bool_decide_eq_false_2 by exact Hne.
  destruct (session s) as [x|] eqn:Hx.
  - destruct (sdk_destroy env (history s) x) as [u|e']; simpl;
      rewrite Hc; simpl; simpl in Hcreate; rewrite Hcreate; simpl;
      (eexists; split; [reflexivity|]; simpl; repeat split;
       [exact Hc | rewrite !fmap_app, <- app_assoc; reflexivity]).
  - simpl. rewrite Hc. simpl. rewrite Hcreate. simpl.
    eexists. split; [reflexivity|]. simpl. repeat split; [exact Hc|].
    by rewrite fmap_app.
Qed.

Lemma switchModel_success_witness :
  gpt_5 <> currentModel (started env_drafts)
  /\ is_Some (client (started env_drafts))
  /\ exists s',
       switchModel env_drafts gpt_5 (started env_drafts) = (Returned tt, s')
       /\ currentModel s' = gpt_5
       /\ session s' = Some {| sessionModel := gpt_5; destroyed := false |}.
Proof.
  assert (H1 : gpt_5 <> currentModel (started env_drafts))
    by (vm_compute; discriminate).
  assert (H2 : is_Some (client (started env_drafts)))
    by (eexists; vm_compute; reflexivity).
  split; [exact H1|]. split; [exact H2|].
  destruct (switchModel_success env_drafts gpt_5 (started env_drafts) H1 H2)
    as (s' & E & Hm & Hs & _); [vm_compute; reflexivity|].
  exists s'. split; [exact E|]. split; [exact Hm|exact Hs].
Defined.

(** X12.  Connecting, switching the model and cleaning up never touch the
    session context: topic, platform, stored search results and every cache
    entry are the same afterwards, whether the operation returns or throws. *)
Theorem session_management_keeps_context env newModel s :
  context (initialize env s).2 = context s
  /\ context (switchModel env newModel s).2 = context s
  /\ context (cleanup env s).2 = context s
  /\ cache (switchModel env newModel s).2 = cache s.
Proof.
  pose proof (initialize_context env s) as H1.
  pose proof (switchModel_context env newModel s) as H2.
  pose proof (cleanup_context env s) as H3.
  unfold context_step in *. unfold cache. by rewrite H1, H2, H3.
Qed.

Lemma initialize_cases env s :
  exists o s',
    initialize env s = (o, s')
    /\ client s' = Some {| cliPath := resolveCopilotPath env |}
    /\ currentModel s' = currentModel s
    /\ (forall e, sdk_start env (history s) = Raised e ->
          o = Raised e /\ session s' = session s
          /\ call <$> history s' = (call <$> history s) ++ [ClientStart])
    /\ (forall u, sdk_start env (history s) = Returned u ->
          call <$> history s'
          = (call <$> history s)
            ++ [ClientStart; ClientCreateSession (currentModel s)])
    /\ (forall e, o = Raised e -> session s' = session s)
    /\ (o = Returned tt ->
        session s'
        = Some {| sessionModel := currentModel s; destroyed := false |}).
Proof.
  unfold initialize, bind, gets, try_catch, perform, modify, createSession,
    throw, ret, bind, gets. simpl.
  destruct (sdk_start env (history s)) as [u|e] eqn:Hstart; simpl.
  - destruct (sdk_createSession env _ (currentModel s)) as [u'|e'] eqn:Hcreate;
      simpl; eexists _, _; (split; [reflexivity|]); simpl;
      repeat split; intros; simplify_eq; repeat split; simpl;
      rewrite ?fmap_app, <- ?app_assoc; reflexivity.
  - eexists _, _. split; [reflexivity|]. simpl.
    repeat split; intros; simplify_eq; repeat split; simpl;
      rewrite ?fmap_app, <- ?app_assoc; reflexivity.
Qed.

(** X13.  [initialize] creates the client and starts it before it asks for
    a session, and changes neither the model nor the context.  When [start]
    throws, that error is thrown on, [createSession] is not called and the
    session field stays as it was.  When [start] returns, [createSession] is
    called once for the current model: what it throws is thrown on with the
    session field as it was, and when it returns [initialize] returns with a
    live session for the current model. *)
Theorem initialize_outcomes env s :
  exists o s',
    initialize env s = (o, s')
    /\ client s' = Some {| cliPath := resolveCopilotPath env |}
    /\ currentModel s' = currentModel s
    /\ context s' = context s
    /\ match sdk_start env (history s) with
       | Raised e =>
           o = Raised e
           /\ session s' = session s
           /\ call <$> history s' = (call <$> history s) ++ [ClientStart]
       | Returned _ =>
           call <$> history s'
           = (call <$> history s)
             ++ [ClientStart; ClientCreateSession (currentModel s)]
           /\ match sdk_createSession env
                      (history s
                       ++ [ {| call := ClientStart; cacheAtCall := cache s |} ])
                      (currentModel s) with
              | Raised e => o = Raised e /\ session s' = session s
              | Returned _ =>
                  o = Returned tt
                  /\ session s'
                     = Some {| sessionModel := currentModel s;
                               destroyed := false |}
              end
       end.
Proof.
  unfold initialize, bind, gets, try_catch, perform, modify, createSession,
    throw, ret, bind, gets. simpl.
  destruct (sdk_start env (history s)) as [[]|e] eqn:Hstart; simpl.
  - unfold cache. simpl.
    destruct (sdk_createSession env _ (currentModel s)) as [[]|e'] eqn:Hcreate;
      simpl; eexists _, _; (split; [reflexivity|]); simpl;
      (split; [reflexivity|]); (split; [reflexivity|]); (split; [reflexivity|]);
      (split; [by rewrite !fmap_app, <- app_assoc|]); by split.
  - eexists _, _. split; [reflexivity|]. simpl.
    split; [reflexivity|]. split; [reflexivity|]. split; [reflexivity|].
    split; [reflexivity|]. split; [reflexivity|]. by rewrite fmap_app.
Qed.


(** X14.  [cleanup] never throws and leaves the context and the client
    field alone.  It destroys the session first; when that throws, the
    error is swallowed and the client is never stopped. *)
Theorem cleanup_never_throws env s :
  exists s',
    cleanup env s = (Returned tt, s')
    /\ context s' = context s
    /\ client s' = client s
    /\ (forall x e,
          session s = Some x -> sdk_destroy env (history s) x = Raised e ->
          s' = observe SessionDestroy s)
    /\ (forall x u c,
          session s = Some x -> sdk_destroy env (history s) x = Returned u ->
          client s = Some c ->
          call <$> history s' = (call <$> history s) ++ [SessionDestroy; ClientStop])
    /\ (session s = None -> client s = None -> s' = s).
Proof.
  unfold cleanup, destroy, bind, gets, try_catch, perform, modify, ret. simpl.
  destruct (session s) as [x|] eqn:Hx.
  - destruct (sdk_destroy env (history s) x) as [u|e] eqn:Hd; simpl.
    + destruct (client s) as [c|] eqn:Hc; simpl.
      * match goal with
        | |- context [sdk_stop env ?h] => destruct (sdk_stop env h) as [[]|e']
        end; eexists; (split; [reflexivity|]);
          simpl; repeat split; intros; simplify_eq; simpl;
          rewrite ?fmap_app, <- ?app_assoc; try congruence; auto.
      * eexists. split; [reflexivity|]. simpl.
        repeat split; intros; simplify_eq; try congruence; auto.
    + eexists. split; [reflexivity|]. simpl.
      repeat split; intros; simplify_eq; try congruence; auto.
  - destruct (client s) as [c|] eqn:Hc; simpl.
    + match goal with
      | |- context [sdk_stop env ?h] => destruct (sdk_stop env h) as [[]|e']
      end; eexists; (split; [reflexivity|]);
        simpl; repeat split; intros; simplify_eq; try congruence; auto.
    + eexists. split; [reflexivity|].
      repeat split; intros; simplify_eq; auto.
Qed.

(** ** Invariants of the reachable services *)

Lemma after_keeps_invariants env op s :
  ((is_Some (session s) -> is_Some (client s))
   /\ exaService s = new_ExaService (EXA_API_KEY env)) ->
  (is_Some (session (after env op s)) -> is_Some (client (after env op s)))
  /\ exaService (after env op s) = new_ExaService (EXA_API_KEY env).
Proof.
  intros [Hsc Hexa].
  destruct op as [|p|t|m|ct o|ct rq|ct|]; simpl.
  - destruct (initialize_cases env s) as (o & s' & E & Hc & _).
    rewrite E. simpl. split; [intros _; by rewrite Hc|].
    rewrite <- Hexa. clear -E.
    unfold initialize, createSession, bind, gets, try_catch, perform, modify,
      throw, ret in E. simpl in E.
    repeat (case_match; simpl in *; simplify_eq); reflexivity.
  - by split.
  - by split.
  - rewrite <- Hexa.
    unfold switchModel, createSession, destroy, bind, gets, try_catch, perform,
      modify, throw, ret. simpl.
    repeat (case_match; simpl in *; simplify_eq); split; eauto;
      intros [? ?]; simplify_eq; eauto.
  - destruct (generate_inv env ct o s) as (r & s' & -> & Hout). simpl.
    destruct (generate_outcome_frame _ _ _ _ _ _ Hout) as (H1 & H2 & _ & H4 & _).
    by rewrite H1, H2, H4.
  - destruct (refine_inv env ct rq s)
      as [[_ ->]|(text & r & s' & _ & _ & -> & Hout)]; simpl; [by split|].
    destruct (sendPrompt_outcome_frame _ _ _ _ _ _ Hout) as (H1 & H2 & _ & H4 & _).
    by rewrite H1, H2, H4.
  - destruct (getMoreVariations_inv env ct s)
      as [[_ ->]|(text & r & s' & _ & _ & -> & Hout)]; simpl; [by split|].
    destruct (sendPrompt_outcome_frame _ _ _ _ _ _ Hout) as (H1 & H2 & _ & H4 & _).
    by rewrite H1, H2, H4.
  - rewrite <- Hexa.
    unfold cleanup, destroy, bind, gets, try_catch, perform, modify, ret. simpl.
    repeat (case_match; simpl in *; simplify_eq); split; eauto;
      intros [? ?]; simplify_eq; eauto.
Qed.

(** X15.  In every state the service can reach from its constructor
    through its public operations, no cache entry is the empty string, a
    session is held only together with a client, and the Exa service is the
    one built from the environment's key at construction. *)
Theorem reachable_invariants env s :
  reachable env s ->
  (forall t text, cache s !! t = Some text -> text <> EmptyString)
  /\ (is_Some (session s) -> is_Some (client s))
  /\ exaService s = new_ExaService (EXA_API_KEY env).
Proof.
  intros H. split.
  - intros t text Hl. apply truthy_true_iff.
    eapply reachable_cache_wf; eassumption.
  - induction H as [t p m|op s Hs IH].
    + simpl. split; [|reflexivity]. intros [x Hx]. discriminate Hx.
    + by apply after_keeps_invariants.
Qed.

Lemma reachable_invariants_witness :
  reachable env_drafts (with_ideas env_drafts)
  /\ (forall t text, cache (with_ideas env_drafts) !! t = Some text ->
                     text <> EmptyString).
Proof.
  split; [apply with_ideas_reachable|].
  exact (proj1 (reachable_invariants env_drafts (with_ideas env_drafts)
                  (with_ideas_reachable env_drafts))).
Defined.

(** ** Setters *)

(** The two setters compose as plain assignments: setting the same
    topic twice is setting it once, a later platform overrides an earlier
    one, and [setTopic] and [setPlatform] commute.  [setTopic] clears the
    cache even when the topic it is given is the current one. *)
Lemma setters_compose (t : string) (p p' : Platform) (s : CopilotService) :
  (setTopic t (setTopic t s).2).2 = (setTopic t s).2
  /\ (setPlatform p' (setPlatform p s).2).2 = (setPlatform p' s).2
  /\ (setPlatform p (setTopic t s).2).2 = (setTopic t (setPlatform p s).2).2
  /\ cache (setTopic (topic (context s)) s).2 = ∅.
Proof. by repeat split. Qed.

(** ** Cleaning twice *)

Lemma trimStart_id (s : string) :
  not_space (first_char s) -> Js.trimStart s = s.
Proof. destruct s as [|c s]; simpl; [reflexivity|]. by intros ->. Qed.

Lemma trimEnd_id (s : string) :
  not_space (last_char s) -> Js.trimEnd s = s.
Proof.
  induction s as [|c s IH]; simpl; [reflexivity|].
  destruct s as [|d s].
  - simpl. by intros ->.
  - intros H. rewrite (IH H). reflexivity.
Qed.

Lemma trim_idempotent (s : string) : Js.trim (Js.trim s) = Js.trim s.
Proof.
  unfold Js.trim at 1. rewrite trimStart_id by apply trim_first.
  apply trimEnd_id, trim_last.
Qed.

Lemma run_bounded_mono (s : string) (k k' : nat) :
  k' <= k -> run_bounded k s = true -> run_bounded k' s = true.
Proof.
  revert k k'. induction s as [|c s IH]; intros k k' Hle; simpl; [reflexivity|].
  destruct (Ascii.eqb c Js.newline); [|trivial].
  intros H. apply andb_true_iff in H as [H1 H2]. apply andb_true_iff. split.
  - apply Nat.ltb_lt in H1. apply Nat.ltb_lt. lia.
  - apply (IH (S k) (S k')); [lia|exact H2].
Qed.

Lemma run_bounded_suffix (a b : string) (k : nat) :
  run_bounded k (a +:+ b) = true -> run_bounded 0 b = true.
Proof.
  revert k. induction a as [|c a IH]; intros k; simpl.
  - apply run_bounded_mono. lia.
  - destruct (Ascii.eqb c Js.newline); [|apply IH].
    intros H. apply andb_true_iff in H as [_ H]. by apply IH in H.
Qed.

Lemma run_bounded_prefix (a b : string) (k : nat) :
  run_bounded k (a +:+ b) = true -> run_bounded k a = true.
Proof.
  revert k. induction a as [|c a IH]; intros k; simpl; [reflexivity|].
  destruct (Ascii.eqb c Js.newline); [|apply IH].
  intros H. apply andb_true_iff in H as [H1 H2]. rewrite H1. simpl.
  by apply IH.
Qed.

Lemma collapse_run_id (s : string) (k : nat) :
  run_bounded k s = true -> collapse_run k s = s.
Proof.
  revert k. induction s as [|c s IH]; intros k; simpl; [reflexivity|].
  destruct (Ascii.eqb c Js.newline).
  - intros H. apply andb_true_iff in H as [H1 H2]. rewrite H1.
    by rewrite IH.
  - intros H. by rewrite IH.
Qed.

Lemma trim_run_bounded (s : string) :
  run_bounded 0 s = true -> run_bounded 0 (Js.trim s) = true.
Proof.
  intros H. unfold Js.trim.
  destruct (trimStart_suffix s) as [a Ha].
  destruct (trimEnd_prefix (Js.trimStart s)) as [b Hb].
  rewrite Ha in H. apply run_bounded_suffix in H.
  rewrite Hb in H. by apply run_bounded_prefix in H.
Qed.

(** A text is settled when it starts with a heading marker or has none. *)
Lemma find_heading_None_cons (c : ascii) (s : string) :
  find_heading (String c s) = None <->
  at_heading (String c s) = false /\ find_heading s = None.
Proof.
  rewrite find_heading_eq. destruct (at_heading (String c s)).
  - split; [discriminate|]. by intros [? _].
  - split; [by split|]. by intros [_ ?].
Qed.

Lemma find_heading_None_suffix (a b : string) :
  find_heading (a +:+ b) = None -> find_heading b = None.
Proof.
  induction a as [|c a IH]; simpl; [trivial|].
  intros H. apply find_heading_None_cons in H as [_ H]. by apply IH.
Qed.

Lemma at_heading_prefix (a b : string) :
  at_heading a = true -> at_heading (a +:+ b) = true.
Proof. destruct a as [|c1 [|c2 a]]; simpl; try discriminate. trivial. Qed.

Lemma find_heading_None_prefix (a b : string) :
  find_heading (a +:+ b) = None -> find_heading a = None.
Proof.
  induction a as [|c a IH]; [reflexivity|].
  change (String c a +:+ b) with (String c (a +:+ b)).
  intros H. apply find_heading_None_cons in H as [H1 H2].
  apply find_heading_None_cons. split; [|by apply IH].
  destruct (at_heading (String c a)) eqn:E; [|reflexivity].
  apply (at_heading_prefix _ b) in E.
  change (String c a +:+ b) with (String c (a +:+ b)) in E. congruence.
Qed.

Lemma collapse_run_first (s : string) (k : nat) (d : ascii) :
  first_char s = Some d -> d <> Js.newline ->
  first_char (collapse_run k s) = Some d.
Proof.
  destruct s as [|c s]; simpl; [discriminate|]. intros [= ->] Hd.
  apply Ascii.eqb_neq in Hd. by rewrite Hd.
Qed.

Lemma at_heading_first (c : ascii) (s s' : string) :
  first_char s = first_char s' ->
  at_heading (String c s) = at_heading (String c s').
Proof. destruct s, s'; simpl; intros H; try discriminate; congruence. Qed.

Lemma collapse_run_no_heading (s : string) (k : nat) :
  find_heading s = None -> find_heading (collapse_run k s) = None.
Proof.
  revert k. induction s as [|c s IH]; intros k; [reflexivity|].
  intros H. apply find_heading_None_cons in H as [H1 H2]. simpl.
  destruct (Ascii.eqb_spec c Js.newline) as [->|Hc].
  - destruct (k <? 2); [|by apply IH].
    apply find_heading_None_cons. split; [|by apply IH].
    by destruct (collapse_run (S k) s).
  - apply find_heading_None_cons. split; [|by apply IH].
    destruct s as [|d s]; [exact H1|].
    destruct (Ascii.eqb_spec d Js.newline) as [->|Hd].
    + (* a hash before a newline would be a marker *)
      destruct (Ascii.eqb_spec c "#"%char) as [->|Hh].
      * simpl in H1. discriminate H1.
      * simpl. destruct (0 <? 2); simpl;
          apply Ascii.eqb_neq in Hh; by rewrite Hh.
    + rewrite <- H1. apply at_heading_first.
      by apply collapse_run_first.
Qed.

Lemma collapse_run_at_heading (s : string) :
  at_heading s = true -> at_heading (collapse_run 0 s) = true.
Proof.
  destruct s as [|c1 [|c2 s]]; simpl; try discriminate.
  intros H. apply andb_true_iff in H as [H1 H2].
  apply Ascii.eqb_eq in H1 as ->. simpl.
  destruct (Ascii.eqb_spec c2 Js.newline) as [->|Hc]; simpl; [reflexivity|].
  exact H2.
Qed.

Lemma trimEnd_settled (s : string) :
  at_heading s = true ->
  at_heading (Js.trimEnd s) = true \/ find_heading (Js.trimEnd s) = None.
Proof.
  destruct s as [|c1 [|c2 s]]; simpl; try discriminate.
  intros H. pose proof H as H'. apply andb_true_iff in H' as [H1 H2].
  apply Ascii.eqb_eq in H1 as ->.
  destruct (Js.trimEnd s) as [|d r] eqn:E.
  - destruct (Js.is_space c2) eqn:Hs; simpl.
    + right. reflexivity.
    + left. simpl. rewrite ?Hs. exact H2.
  - left. simpl. exact H2.
Qed.

(** X16.  Cleaning is idempotent: a text that has been cleaned is left as
    it is by a second cleaning, so the cached text that [refine] feeds back
    to the AI is a fixed point of the clean-up. *)
Theorem cleanContent_idempotent (text : string) :
  cleanContent (cleanContent text) = cleanContent text.
Proof.
  set (r := removePreamble text).
  assert (Hr : at_heading r = true \/ find_heading r = None).
  { subst r. unfold removePreamble.
    destruct (find_heading text) as [rest|] eqn:E; [|by right].
    left. by destruct (find_heading_Some _ _ E) as (pre & _ & H & _). }
  assert (Ht : at_heading (collapseNewlines r) = true
               \/ find_heading (collapseNewlines r) = None).
  { destruct Hr as [H|H]; [left; by apply collapse_run_at_heading|].
    right. by apply collapse_run_no_heading. }
  assert (Hb : run_bounded 0 (collapseNewlines r) = true)
    by apply (collapse_run_bounded r 0).
  assert (Hc : at_heading (cleanContent text) = true
               \/ find_heading (cleanContent text) = None).
  { unfold cleanContent. fold r. unfold Js.trim.
    destruct Ht as [H|H].
    - rewrite trimStart_id.
      + by apply trimEnd_settled.
      + destruct (collapseNewlines r) as [|c1 [|c2 t]]; simpl in *;
          try discriminate.
        apply andb_true_iff in H as [H _]. apply Ascii.eqb_eq in H as ->.
        reflexivity.
    - right.
      destruct (trimStart_suffix (collapseNewlines r)) as [a Ha].
      destruct (trimEnd_prefix (Js.trimStart (collapseNewlines r))) as [b Hb'].
      rewrite Ha in H. apply find_heading_None_suffix in H.
      rewrite Hb' in H. by apply find_heading_None_prefix in H. }
  assert (Hpre : removePreamble (cleanContent text) = cleanContent text).
  { destruct Hc as [H|H]; [by apply removePreamble_at_heading|].
    unfold removePreamble. by rewrite H. }
  unfold cleanContent at 1. rewrite Hpre.
  assert (Hbounded : run_bounded 0 (cleanContent text) = true).
  { unfold cleanContent. fold r. by apply trim_run_bounded. }
  unfold collapseNewlines. rewrite (collapse_run_id _ 0 Hbounded).
  unfold cleanContent. apply trim_idempotent.
Qed.

(** ** Command parsing, continued *)

Lemma lower_char_idempotent (c : ascii) :
  Js.lower_char (Js.lower_char c) = Js.lower_char c.
Proof. destruct c as [[] [] [] [] [] [] [] []]; reflexivity. Qed.

Lemma is_space_lower_char (c : ascii) :
  Js.is_space (Js.lower_char c) = Js.is_space c.
Proof. destruct c as [[] [] [] [] [] [] [] []]; reflexivity. Qed.

Lemma toLowerCase_idempotent (s : string) :
  Js.toLowerCase (Js.toLowerCase s) = Js.toLowerCase s.
Proof.
  induction s as [|c s IH]; simpl; [reflexivity|].
  by rewrite lower_char_idempotent, IH.
Qed.

Lemma trimStart_toLowerCase (s : string) :
  Js.trimStart (Js.toLowerCase s) = Js.toLowerCase (Js.trimStart s).
Proof.
  induction s as [|c s IH]; simpl; [reflexivity|].
  rewrite is_space_lower_char. by destruct (Js.is_space c).
Qed.

Lemma trimEnd_toLowerCase (s : string) :
  Js.trimEnd (Js.toLowerCase s) = Js.toLowerCase (Js.trimEnd s).
Proof.
  induction s as [|c s IH]; simpl; [reflexivity|].
  rewrite IH, is_space_lower_char.
  destruct (Js.trimEnd s); simpl; [|reflexivity].
  by destruct (Js.is_space c).
Qed.

Lemma trim_toLowerCase (s : string) :
  Js.trim (Js.toLowerCase s) = Js.toLowerCase (Js.trim s).
Proof. unfold Js.trim. by rewrite trimStart_toLowerCase, trimEnd_toLowerCase. Qed.

Lemma trimEnd_blank_after (s : string) :
  Js.trimEnd (s +:+ " ") = Js.trimEnd s.
Proof.
  induction s as [|c s IH]; simpl; [reflexivity|]. by rewrite IH.
Qed.

Lemma trim_padded (s : string) : Js.trim (" " +:+ s +:+ " ") = Js.trim s.
Proof.
  unfold Js.trim. simpl.
  induction s as [|c s IH]; simpl; [reflexivity|].
  destruct (Js.is_space c); [exact IH|].
  apply (trimEnd_blank_after (String c s)).
Qed.

Lemma COMMAND_TABLE_keys_normal (k : string) (c : Command) :
  (k, c) ∈ COMMAND_TABLE -> Js.toLowerCase (Js.trim k) = k.
Proof.
  intros H. unfold COMMAND_TABLE in H.
  repeat (apply elem_of_cons in H as [H|H];
          [injection H as -> _; vm_compute; reflexivity|]).
  by apply elem_of_nil in H.
Qed.

Lemma COMMAND_TABLE_no_chat (k m : string) : (k, CmdChat m) ∉ COMMAND_TABLE.
Proof.
  intros H. unfold COMMAND_TABLE in H.
  repeat (apply elem_of_cons in H as [H|H]; [discriminate H|]).
  by apply elem_of_nil in H.
Qed.

Lemma parseCommand_table (s : string) (c : Command) :
  (Js.toLowerCase (Js.trim s), c) ∈ COMMAND_TABLE ->
  parseCommand s = OwnEntry c.
Proof.
  intros H. apply COMMAND_MAP_lookup in H.
  unfold parseCommand, COMMAND_MAP_get. rewrite H. reflexivity.
Qed.

(** X17.  Blanks around the input never matter, and neither does the case
    of a slash command: an input whose trimmed, lower-cased text is a key of
    the table parses to that key's command, and so do its lower-cased and
    its padded forms.  Every key of the table parses to its own command. *)
Theorem parseCommand_normalises_input (s : string) :
  parseCommand (Js.trim s) = parseCommand s
  /\ parseCommand (" " +:+ s +:+ " ") = parseCommand s
  /\ (forall c, (Js.toLowerCase (Js.trim s), c) ∈ COMMAND_TABLE ->
        parseCommand s = OwnEntry c
        /\ parseCommand (Js.toLowerCase s) = OwnEntry c)
  /\ (forall k c, (k, c) ∈ COMMAND_TABLE -> parseCommand k = OwnEntry c).
Proof.
  split; [|split; [|split]].
  - unfold parseCommand. by rewrite trim_idempotent.
  - unfold parseCommand. by rewrite trim_padded.
  - intros c H. split; [by apply parseCommand_table|].
    apply parseCommand_table.
    by rewrite trim_toLowerCase, toLowerCase_idempotent.
  - intros k c H. apply parseCommand_table.
    by rewrite (COMMAND_TABLE_keys_normal k c H).
Qed.

(** X18.  A chat command always carries the trimmed input, which has no
    white space at either end; no line ever parses to a chat message with
    the text of a table command, because the table itself holds no chat
    entry. *)
Theorem parseCommand_chat_is_trimmed (s m : string) :
  parseCommand s = OwnEntry (CmdChat m) ->
  m = Js.trim s
  /\ not_space (first_char m) /\ not_space (last_char m)
  /\ forall c, (Js.toLowerCase m, c) ∉ COMMAND_TABLE.
Proof.
  intros H.
  assert (Hm : m = Js.trim s
               /\ COMMAND_MAP !! Js.toLowerCase (Js.trim s) = None).
  { unfold parseCommand, COMMAND_MAP_get in H.
    remember (Js.trim s) as trimmed eqn:Et. clear Et.
    remember (Js.toLowerCase trimmed) as lowered eqn:El. clear El.
    destruct (COMMAND_MAP !! lowered) as [c|] eqn:E.
    - assert (Hc : c = CmdChat m) by congruence. subst c.
      apply COMMAND_MAP_lookup in E. by destruct (COMMAND_TABLE_no_chat _ _ E).
    - split; [|reflexivity].
      destruct (bool_decide (lowered ∈ Js.Object_prototype_keys));
        [discriminate H|].
      destruct trimmed as [|a t]; cbn [Js.truthy negb] in H;
        [by injection H as <-|].
      destruct (Js.startsWith (String a t) "/"); by injection H as <-. }
  destruct Hm as [-> Hnone].
  split; [reflexivity|]. split; [apply trim_first|]. split; [apply trim_last|].
  intros c Hc. apply COMMAND_MAP_lookup in Hc. congruence.
Qed.

Lemma parseCommand_chat_is_trimmed_witness :
  parseCommand "  make it Funnier " = OwnEntry (CmdChat "make it Funnier")
  /\ "make it Funnier" = Js.trim "  make it Funnier ".
Proof.
  assert (H : parseCommand "  make it Funnier "
              = OwnEntry (CmdChat "make it Funnier"))
    by (vm_compute; reflexivity).
  split; [exact H|].
  exact (proj1 (parseCommand_chat_is_trimmed _ _ H)).
Defined.

(** ** The command loop *)

Lemma on_service_run {A} (method : string) (m : M A) (c : Cli) svc :
  service (state c) = Some svc ->
  on_service method m c
  = ((m svc).1, with_state (with_service (Some (m svc).2) (state c)) c).
Proof. intros H. unfold on_service. rewrite H. by destruct (m svc). Qed.

Lemma handleContent_inv env contentType c svc :
  service (state c) = Some svc ->
  exists r svc',
    generate env contentType regenerate_options svc = (Returned r, svc')
    /\ generate_outcome env contentType regenerate_options svc r svc'
    /\ handleContent env contentType c
       = (Returned tt,
          if success r && Js.truthy (content r)
          then print (PrintContent (content r) contentType)
                 (with_state
                    (with_lastContentType (Some contentType)
                       (with_lastContent (content r)
                          (with_service (Some svc') (state c)))) c)
          else print (PrintError (error_or r "Failed to generate content"))
                 (with_state (with_service (Some svc') (state c)) c)).
Proof.
  intros H.
  destruct (generate_inv env contentType regenerate_options svc)
    as (r & svc' & E & Hout).
  exists r, svc'. split; [exact E|]. split; [exact Hout|].
  unfold handleContent. rewrite H.
  fold regenerate_options.
  rewrite (on_service_run _ _ _ _ H), E. simpl.
  by destruct (success r && Js.truthy (content r)).
Qed.

(** X19.  [handleContent] always regenerates.  It never throws; when the
    generation succeeds with a non-empty text, that text is printed, becomes
    the last content with its type, and is the cached entry of the type;
    otherwise an error is printed, the last content stays what it was, and
    the cache has no entry for the type any more, even if it had one. *)
Theorem handleContent_regenerates env contentType c svc :
  service (state c) = Some svc ->
  exists r svc',
    generate env contentType regenerate_options svc = (Returned r, svc')
    /\ (handleContent env contentType c).1 = Returned tt
    /\ service (state (handleContent env contentType c).2) = Some svc'
    /\ appTopic (state (handleContent env contentType c).2) = appTopic (state c)
    /\ if success r && Js.truthy (content r)
       then lastContent (state (handleContent env contentType c).2) = content r
            /\ lastContentType (state (handleContent env contentType c).2)
               = Some contentType
            /\ printed (handleContent env contentType c).2
               = printed c ++ [PrintContent (content r) contentType]
            /\ cache svc' !! contentType = Some (content r)
       else lastContent (state (handleContent env contentType c).2)
            = lastContent (state c)
            /\ lastContentType (state (handleContent env contentType c).2)
               = lastContentType (state c)
            /\ printed (handleContent env contentType c).2
               = printed c
                 ++ [PrintError (error_or r "Failed to generate content")]
            /\ cache svc' !! contentType = None.
Proof.
  intros H.
  destruct (handleContent_inv env contentType c svc H)
    as (r & svc' & E & Hout & Hrun).
  exists r, svc'. split; [exact E|]. rewrite Hrun.
  pose proof (generate_outcome_cache _ _ _ _ _ _ Hout) as Hcache.
  destruct (success r && Js.truthy (content r)); simpl;
    repeat split; rewrite Hcache; simpl;
    [apply lookup_insert_eq | apply lookup_delete_eq].
Qed.

Lemma handleContent_regenerates_witness :
  service (state (startup env_drafts (Some "cats") some_answers fresh_cli).2)
  = Some (startup_service env_drafts)
  /\ (handleContent env_drafts hooks
        (startup env_drafts (Some "cats") some_answers fresh_cli).2).1
     = Returned tt.
Proof.
  assert (H : service (state (startup env_drafts (Some "cats") some_answers
                                fresh_cli).2)
              = Some (startup_service env_drafts))
    by (vm_compute; reflexivity).
  split; [exact H|].
  destruct (handleContent_regenerates env_drafts hooks _ _ H)
    as (r & svc' & _ & E & _).
  exact E.
Defined.

Lemma generate_frame env contentType options svc :
  exists r,
    (generate env contentType options svc).1 = Returned r
    /\ topic (context (generate env contentType options svc).2)
       = topic (context svc)
    /\ platform (context (generate env contentType options svc).2)
       = platform (context svc)
    /\ currentModel (generate env contentType options svc).2 = currentModel svc.
Proof.
  destruct (generate_inv env contentType options svc) as (r & svc' & E & Hout).
  destruct (generate_outcome_frame _ _ _ _ _ _ Hout) as (_ & _ & H3 & _ & H5 & H6).
  exists r. rewrite E. by repeat split.
Qed.

Lemma refine_frame env contentType request svc :
  exists r,
    (refine env contentType request svc).1 = Returned r
    /\ topic (context (refine env contentType request svc).2)
       = topic (context svc)
    /\ platform (context (refine env contentType request svc).2)
       = platform (context svc)
    /\ currentModel (refine env contentType request svc).2 = currentModel svc.
Proof.
  destruct (refine_inv env contentType request svc)
    as [[_ E]|(text & r & svc' & _ & _ & E & Hout)]; rewrite E.
  - eexists. by repeat split.
  - destruct (sendPrompt_outcome_frame _ _ _ _ _ _ Hout)
      as (_ & _ & H3 & _ & H5 & H6 & _).
    exists r. by repeat split.
Qed.

Lemma cleanup_returns env s : exists s', cleanup env s = (Returned tt, s').
Proof.
  unfold cleanup, try_catch, ret.
  match goal with
  | |- context [match ?m s with _ => _ end] => destruct (m s) as [[[]|e] s']
  end; eauto.
Qed.

Lemma switchModel_returns_model env m s s' :
  switchModel env m s = (Returned tt, s') -> currentModel s' = m.
Proof.
  unfold switchModel, createSession, destroy, bind, gets, try_catch, perform,
    modify, throw, ret. simpl.
  intros H. repeat (case_match; simpl in *; simplify_eq); try reflexivity.
  by apply bool_decide_eq_true in H0.
Qed.

Lemma handleChat_cases env message c :
  (Js.trim message = EmptyString -> handleChat env message c = (Returned tt, c))
  /\ (forall svc t,
        Js.trim message <> EmptyString ->
        service (state c) = Some svc ->
        lastContentType (state c) = Some t ->
        lastContent (state c) <> EmptyString ->
        exists r svc',
          refine env t message svc = (Returned r, svc')
          /\ topic (context svc') = topic (context svc)
          /\ handleChat env message c
             = (Returned tt,
                if success r && Js.truthy (content r)
                then print (PrintContent (content r) t)
                       (with_state
                          (with_lastContent (content r)
                             (with_service (Some svc') (state c))) c)
                else print (PrintError (error_or r "Failed to refine content"))
                       (with_state (with_service (Some svc') (state c)) c)))
  /\ (forall svc,
        Js.trim message <> EmptyString ->
        service (state c) = Some svc ->
        lastContentType (state c) = None \/ lastContent (state c) = EmptyString ->
        handleChat env message c
        = handleContent env search
            (with_state
               (with_service (Some (setTopic message svc).2)
                  (with_appTopic message (state c))) c)).
Proof.
  split; [|split].
  - intros H. unfold handleChat. by rewrite H.
  - intros svc t Hm Hs Ht Hl.
    apply truthy_true_iff in Hm. apply truthy_true_iff in Hl.
    destruct (refine_frame env t message svc) as (r & E & Htopic & _).
    exists r, (refine env t message svc).2.
    split; [by rewrite <- E; destruct (refine env t message svc)|].
    split; [exact Htopic|].
    unfold handleChat. rewrite Hm, Hs, Ht, Hl. simpl.
    rewrite (on_service_run _ _ _ _ Hs), E.
    by destruct (success r && Js.truthy (content r)).
  - intros svc Hm Hs Hlast. apply truthy_true_iff in Hm.
    unfold handleChat. rewrite Hm, Hs. simpl.
    assert (Hs' : service (state (with_state (with_appTopic message (state c)) c))
                  = Some svc) by exact Hs.
    destruct Hlast as [Hn|He].
    + rewrite Hn. by rewrite (on_service_run _ _ _ _ Hs').
    + destruct (lastContentType (state c));
        rewrite ?He; simpl; by rewrite (on_service_run _ _ _ _ Hs').
Qed.

(** X20.  [handleChat] ignores a blank message.  Otherwise, when there is
    a last content it asks the service to refine that content with the
    message and touches neither topic; a successful, non-empty refinement
    becomes the last content, anything else prints an error.  When there is
    no last content the message becomes the topic of both the loop and the
    service, which clears the cache, and a search content is generated. *)
Theorem handleChat_routes env message c :
  (Js.trim message = EmptyString -> handleChat env message c = (Returned tt, c))
  /\ (forall svc t,
        Js.trim message <> EmptyString ->
        service (state c) = Some svc ->
        lastContentType (state c) = Some t ->
        lastContent (state c) <> EmptyString ->
        exists r svc',
          refine env t message svc = (Returned r, svc')
          /\ topic (context svc') = topic (context svc)
          /\ handleChat env message c
             = (Returned tt,
                if success r && Js.truthy (content r)
                then print (PrintContent (content r) t)
                       (with_state
                          (with_lastContent (content r)
                             (with_service (Some svc') (state c))) c)
                else print (PrintError (error_or r "Failed to refine content"))
                       (with_state (with_service (Some svc') (state c)) c)))
  /\ (forall svc,
        Js.trim message <> EmptyString ->
        service (state c) = Some svc ->
        lastContentType (state c) = None \/ lastContent (state c) = EmptyString ->
        handleChat env message c
        = handleContent env search
            (with_state
               (with_service (Some (setTopic message svc).2)
                  (with_appTopic message (state c))) c)).
Proof. exact (handleChat_cases env message c). Qed.


(** *** What the loop keeps *)

Lemma handleContent_keeps env contentType c :
  (handleContent env contentType c).1 = Returned tt
  /\ (synced (state c) -> synced (state (handleContent env contentType c).2))
  /\ (model_synced (state c) ->
      model_synced (state (handleContent env contentType c).2))
  /\ (last_coherent (state c) ->
      last_coherent (state (handleContent env contentType c).2))
  /\ (is_Some (service (state c)) ->
      is_Some (service (state (handleContent env contentType c).2))).
Proof.
  destruct (service (state c)) as [svc|] eqn:Hs.
  - destruct (handleContent_inv env contentType c svc Hs)
      as (r & svc' & E & Hout & ->).
    destruct (generate_outcome_frame _ _ _ _ _ _ Hout)
      as (_ & _ & H3 & _ & H5 & H6).
    unfold synced, model_synced, last_coherent. rewrite Hs.
    destruct (success r && Js.truthy (content r)) eqn:Hok; simpl.
    + apply andb_true_iff in Hok as [_ Hok].
      split; [reflexivity|]. split; [|split; [|split]].
      * intros H svc0 [= <-]. rewrite H5, H6. by apply H.
      * intros H svc0 [= <-]. rewrite H3. by apply H.
      * intros _. split; eauto.
      * eauto.
    + split; [reflexivity|]. split; [|split; [|split]].
      * intros H svc0 [= <-]. rewrite H5, H6. by apply H.
      * intros H svc0 [= <-]. rewrite H3. by apply H.
      * trivial.
      * eauto.
  - unfold handleContent. rewrite Hs. simpl.
    unfold synced, model_synced, last_coherent. simpl. rewrite Hs.
    split; [reflexivity|]. split; [|split; [|split]]; trivial.
Qed.

Lemma setTopic_synced (st : AppState) (t : string) svc :
  service st = Some svc -> synced st ->
  synced (with_service (Some (setTopic t svc).2) (with_appTopic t st)).
Proof.
  intros Hs H svc0 [= <-]. simpl. split; [reflexivity|]. by apply (H svc Hs).
Qed.

Lemma handleChat_keeps env message c :
  (handleChat env message c).1 = Returned tt
  /\ (synced (state c) -> synced (state (handleChat env message c).2))
  /\ (model_synced (state c) ->
      model_synced (state (handleChat env message c).2))
  /\ (last_coherent (state c) ->
      last_coherent (state (handleChat env message c).2))
  /\ (is_Some (service (state c)) ->
      is_Some (service (state (handleChat env message c).2))).
Proof.
  destruct (handleChat_cases env message c) as (Hblank & Hrefine & Htopic).
  destruct (Js.trim message) as [|a m] eqn:Hm.
  { rewrite (Hblank eq_refl). simpl.
    split; [reflexivity|]. split; [|split; [|split]]; trivial. }
  destruct (service (state c)) as [svc|] eqn:Hs.
  2:{ unfold handleChat. rewrite Hm, Hs. simpl.
      unfold synced, model_synced, last_coherent. simpl. rewrite Hs.
      split; [reflexivity|]. split; [|split; [|split]]; trivial. }
  assert (Hne : String a m <> EmptyString) by discriminate.
  assert (Hfresh :
    lastContentType (state c) = None \/ lastContent (state c) = EmptyString ->
    (handleChat env message c).1 = Returned tt
    /\ (synced (state c) -> synced (state (handleChat env message c).2))
    /\ (model_synced (state c) ->
        model_synced (state (handleChat env message c).2))
    /\ (last_coherent (state c) ->
        last_coherent (state (handleChat env message c).2))
    /\ (is_Some (Some svc) ->
        is_Some (service (state (handleChat env message c).2)))).
  { intros Hlast. rewrite (Htopic svc Hne eq_refl Hlast).
    set (c1 := with_state _ c).
    destruct (handleContent_keeps env search c1) as (H1 & H2 & H3 & H4 & H5).
    split; [exact H1|]. split; [|split; [|split]].
    - intros H. apply H2. subst c1. simpl. by apply setTopic_synced.
    - intros H. apply H3. subst c1. intros svc0 [= <-]. by apply (H svc Hs).
    - intros H. apply H4. subst c1. exact H.
    - intros _. apply H5. subst c1. simpl. eauto. }
  destruct (lastContentType (state c)) as [t|] eqn:Ht; [|by apply Hfresh; left].
  destruct (lastContent (state c)) as [|b l] eqn:Hl; [by apply Hfresh; right|].
  assert (Hl' : String b l <> EmptyString) by discriminate.
  destruct (Hrefine svc t Hne eq_refl eq_refl Hl') as (r & svc' & E & _ & ->).
  destruct (refine_frame env t message svc) as (r0 & _ & H5 & H6 & H3).
  rewrite E in H5, H6, H3. simpl in H5, H6, H3.
  unfold synced, model_synced, last_coherent. rewrite Hs, Ht, Hl.
  destruct (success r && Js.truthy (content r)) eqn:Hok; simpl.
  - apply andb_true_iff in Hok as [_ Hok]. rewrite Ht.
    split; [reflexivity|]. split; [|split; [|split]].
    + intros H svc0 [= <-]. rewrite H5, H6. by apply H.
    + intros H svc0 [= <-]. rewrite H3. by apply H.
    + intros _. split; eauto.
    + eauto.
  - rewrite Ht, Hl. split; [reflexivity|]. split; [|split; [|split]].
    + intros H svc0 [= <-]. rewrite H5, H6. by apply H.
    + intros H svc0 [= <-]. rewrite H3. by apply H.
    + trivial.
    + eauto.
Qed.

(** Five conjuncts, one goal each. *)
Ltac conjuncts := split; [|split; [|split; [|split]]].

Lemma run_switch_keeps env command p c :
  (synced (state c) -> synced (state (run_switch env command p c).2))
  /\ (last_coherent (state c) ->
      last_coherent (state (run_switch env command p c).2))
  /\ (is_Some (service (state c)) ->
      is_Some (service (state (run_switch env command p c).2)))
  /\ (model_synced (state c) ->
      (run_switch env command p c).1 = Returned Continue ->
      model_synced (state (run_switch env command p c).2))
  /\ (forall e, (run_switch env command p c).1 = Raised e ->
        service (state c) = None
        \/ (command = CmdPlatform /\ promptPlatform p = Raised e)
        \/ (command = CmdTopic /\ promptTopic p = Raised e)
        \/ (command = CmdModel
            /\ (promptModel p = Raised e
                \/ exists m svc,
                     promptModel p = Returned m
                     /\ service (state c) = Some svc
                     /\ (switchModel env m svc).1 = Raised e))).
Proof.
  destruct command as [contentType| | | | | | | | |message].
  - unfold run_switch.
    destruct (handleContent_keeps env contentType c) as (H1 & H2 & H3 & H4 & H5).
    destruct (handleContent env contentType c) as [[[]|e] c1]; simpl in *;
      [|discriminate].
    conjuncts; try done; auto.
  - (* platform *)
    unfold run_switch.
    destruct (promptPlatform p) as [newPlatform|e0];
      [|simpl; conjuncts; try done; intros e [= <-]; right; left; done].
    destruct (bool_decide _); simpl; [conjuncts; try done|].
    destruct (service (state c)) as [svc|] eqn:Hs.
    + assert (Hs' : service (state (with_state (with_appPlatform
                       newPlatform (state c)) c)) = Some svc) by exact Hs.
      rewrite (on_service_run _ _ _ _ Hs'). simpl.
      unfold synced, model_synced, last_coherent. simpl. rewrite Hs.
      conjuncts; try done.
      * intros H svc0 [= <-]. simpl. split; [by apply (H svc)|reflexivity].
      * intros H _ svc0 [= <-]. simpl. by apply H.
    + unfold on_service. simpl. rewrite Hs. simpl.
      unfold synced, model_synced, last_coherent. simpl. rewrite Hs.
      conjuncts; try done. eauto.
  - (* topic *)
    unfold run_switch.
    destruct (promptTopic p) as [newTopic|e0];
      [|simpl; conjuncts; try done; intros e [= <-]; right; right; left; done].
    destruct (bool_decide _); simpl; [conjuncts; try done|].
    destruct (service (state c)) as [svc|] eqn:Hs.
    + assert (Hs' : service (state (with_state (with_appTopic
                       newTopic (state c)) c)) = Some svc) by exact Hs.
      rewrite (on_service_run _ _ _ _ Hs'). simpl.
      unfold synced, model_synced, last_coherent. simpl. rewrite Hs.
      conjuncts; try done.
      * intros H svc0 [= <-]. simpl. split; [reflexivity|by apply (H svc)].
      * intros H _ svc0 [= <-]. simpl. by apply H.
    + unfold on_service. simpl. rewrite Hs. simpl.
      unfold synced, model_synced, last_coherent. simpl. rewrite Hs.
      conjuncts; try done. eauto.
  - (* model *)
    unfold run_switch.
    destruct (promptModel p) as [newModel|e0] eqn:Hp;
      [|simpl; conjuncts; try done; intros e [= <-]; right; right; right;
        split; [reflexivity | by left]].
    destruct (bool_decide _); simpl; [conjuncts; try done|].
    destruct (service (state c)) as [svc|] eqn:Hs.
    + rewrite (on_service_run _ _ _ _ Hs).
      pose proof (switchModel_context env newModel svc) as Hc.
      pose proof (switchModel_returns_model env newModel svc) as Hm.
      unfold context_step in Hc.
      destruct (switchModel env newModel svc) as [[[]|e] s'] eqn:Hsw;
        simpl in *;
        unfold synced, model_synced, last_coherent; simpl; rewrite ?Hs;
        (conjuncts; try done; eauto).
      * intros H svc0 [= <-]. rewrite Hc. by apply H.
      * intros _ _ svc0 [= <-]. by apply Hm.
      * intros H svc0 [= <-]. rewrite Hc. by apply H.
      * intros e1 [= <-]. right; right; right. split; [reflexivity|]. right.
        exists newModel, svc. by rewrite Hsw.
    + unfold on_service. rewrite Hs. simpl.
      conjuncts; try done; eauto.
  - (* copy *)
    unfold run_switch; simpl.
    destruct (Js.truthy _); [destruct (copyToClipboard p)|]; simpl;
      (conjuncts; try done).
  - unfold run_switch; simpl.
    destruct (lastContentType (state c)); [destruct (Js.truthy _)|]; simpl;
      (conjuncts; try done).
  - unfold run_switch; simpl. conjuncts; try done.
  - unfold run_switch; simpl. conjuncts; try done.
  - (* quit *)
    unfold run_switch. simpl.
    destruct (service (state c)) as [svc|] eqn:Hs.
    + assert (Hs' : service (state (print PrintGoodbye c)) = Some svc) by exact Hs.
      rewrite (on_service_run _ _ _ _ Hs').
      destruct (cleanup_returns env svc) as (s' & E).
      pose proof (cleanup_context env svc) as Hc. rewrite E in Hc |- *. simpl in *.
      unfold synced, last_coherent. simpl.
      conjuncts; try done; eauto.
      intros H svc0 [= <-]. unfold context_step in Hc. rewrite Hc. by apply H.
    + simpl. conjuncts; try done.
  - unfold run_switch.
    destruct (handleChat_keeps env message c) as (H1 & H2 & H3 & H4 & H5).
    destruct (handleChat env message c) as [[[]|e] c1]; simpl in *;
      [|discriminate].
    conjuncts; try done; auto.
Qed.

Lemma parseCommand_inherited (input : string) :
  Js.toLowerCase (Js.trim input) = "constructor"
  \/ Js.toLowerCase (Js.trim input) = "__proto__" ->
  parseCommand input = Inherited (Js.toLowerCase (Js.trim input)).
Proof.
  intros H. unfold parseCommand. cbv zeta.
  remember (Js.trim input) as trimmed eqn:Et. clear Et.
  remember (Js.toLowerCase trimmed) as lowered eqn:El. clear El.
  assert (E1 : COMMAND_MAP_get "constructor" = Some (Inherited "constructor"))
    by (vm_compute; reflexivity).
  assert (E2 : COMMAND_MAP_get "__proto__" = Some (Inherited "__proto__"))
    by (vm_compute; reflexivity).
  destruct H as [-> | ->]; [by rewrite E1 | by rewrite E2].
Qed.

(** X21.  One pass through the chat loop keeps the loop's topic and
    platform equal to the service's, keeps [lastContent] and
    [lastContentType] set together, and never drops the service.  When the
    pass goes on to the next prompt the loop's model is the service's too.
    With a service in place a pass throws only what a prompt it awaits
    rejects with (the command prompt, or the platform, topic or model prompt
    of that command) or what [switchModel] throws; and a prompt that rejects
    throws out of the pass with the state as it was. *)
Theorem run_pass_keeps_invariants env line p c :
  (synced (state c) -> synced (state (run_pass env line p c).2))
  /\ (last_coherent (state c) ->
      last_coherent (state (run_pass env line p c).2))
  /\ (is_Some (service (state c)) ->
      is_Some (service (state (run_pass env line p c).2)))
  /\ (model_synced (state c) ->
      (run_pass env line p c).1 = Returned Continue ->
      model_synced (state (run_pass env line p c).2))
  /\ (forall e, (run_pass env line p c).1 = Raised e ->
        service (state c) = None
        \/ line = Raised e
        \/ exists input,
             line = Returned input
             /\ ((parseCommand input = OwnEntry CmdPlatform
                  /\ promptPlatform p = Raised e)
                 \/ (parseCommand input = OwnEntry CmdTopic
                     /\ promptTopic p = Raised e)
                 \/ (parseCommand input = OwnEntry CmdModel
                     /\ (promptModel p = Raised e
                         \/ exists m svc,
                              promptModel p = Returned m
                              /\ service (state c) = Some svc
                              /\ (switchModel env m svc).1 = Raised e))))
  /\ (forall e,
        line = Raised e
        \/ (exists input,
              line = Returned input
              /\ ((parseCommand input = OwnEntry CmdPlatform
                   /\ promptPlatform p = Raised e)
                  \/ (parseCommand input = OwnEntry CmdTopic
                      /\ promptTopic p = Raised e)
                  \/ (parseCommand input = OwnEntry CmdModel
                      /\ promptModel p = Raised e))) ->
        run_pass env line p c = (Raised e, print ShowPromptStatus c)).
Proof.
  split; [|split; [|split; [|split; [|split]]]].
  6:{ intros e [->|(input & -> & H)]; [reflexivity|].
      unfold run_pass.
      destruct H as [[Hc Hp]|[[Hc Hp]|[Hc Hp]]];
        rewrite Hc; unfold run_switch; by rewrite Hp. }
  all: unfold run_pass; destruct line as [input|e0]; [|simpl; try done].
  all: try (destruct (parseCommand input) as [command|k] eqn:Hparse;
            [|simpl; try done]).
  all: try (destruct (run_switch_keeps env command p (print ShowPromptStatus c))
              as (H1 & H2 & H3 & H4 & H5)).
  - exact H1.
  - exact H2.
  - exact H3.
  - exact H4.
  - intros e He. destruct (H5 e He) as [H|[[-> H]|[[-> H]|[-> H]]]].
    + by left.
    + right; right. exists input. split; [reflexivity|]. by left.
    + right; right. exists input. split; [reflexivity|]. right. by left.
    + right; right. exists input. split; [reflexivity|]. right. by right.
  - intros e [= <-]. right. by left.
Qed.

(** X22.  A line whose trimmed, lower-cased text is [constructor] or
    [__proto__] is no command at all: the loop shows its prompt and goes on
    without running, printing or changing anything else.  Every other line
    is dispatched as the command [parseCommand] returns. *)
Theorem iteration_on_inherited_names env input answers c :
  (Js.toLowerCase (Js.trim input) = "constructor"
   \/ Js.toLowerCase (Js.trim input) = "__proto__" ->
   iteration env input answers c = (Returned Continue, print ShowPromptStatus c))
  /\ (Js.toLowerCase (Js.trim input) <> "constructor" ->
      Js.toLowerCase (Js.trim input) <> "__proto__" ->
      exists command,
        parseCommand input = OwnEntry command
        /\ iteration env input answers c
           = dispatch env command answers (print ShowPromptStatus c)).
Proof.
  split.
  - intros H. unfold iteration, run_pass. by rewrite (parseCommand_inherited input H).
  - intros H1 H2.
    assert (Hin : Js.toLowerCase (Js.trim input) ∉ Js.Object_prototype_keys).
    { intros Hin. by destruct (toLowerCase_inherited _ Hin). }
    pose proof (parseCommand_eq input Hin) as E.
    unfold iteration, run_pass, dispatch.
    destruct (parseCommand input) as [command|k]; [|discriminate E].
    by exists command.
Qed.

(** X23.  After the topic is changed with the topic command, the last
    content of the old topic is still the loop's last content while the
    service's cache is empty: the next chat message is sent to [refine],
    which has nothing to refine, so the loop prints that error and changes
    nothing. *)
Theorem chat_after_topic_change env answers message c svc t :
  service (state c) = Some svc ->
  lastContentType (state c) = Some t ->
  lastContent (state c) <> EmptyString ->
  chosenTopic answers <> appTopic (state c) ->
  Js.trim message <> EmptyString ->
  exists c1 svc1,
    dispatch env CmdTopic answers c = (Returned Continue, c1)
    /\ service (state c1) = Some svc1
    /\ cache svc1 = ∅
    /\ topic (context svc1) = chosenTopic answers
    /\ appTopic (state c1) = chosenTopic answers
    /\ lastContent (state c1) = lastContent (state c)
    /\ lastContentType (state c1) = Some t
    /\ handleChat env message c1
       = (Returned tt,
          print (PrintError "No content to refine. Generate content first.") c1).
Proof.
  intros Hs Ht Hl Hne Hm.
  unfold dispatch, run_switch, answered. cbn [promptTopic].
  rewrite (bool_decide_eq_false_2 _ Hne).
  assert (Hs' : service (state (with_state (with_appTopic
                     (chosenTopic answers) (state c)) c)) = Some svc) by exact Hs.
  rewrite (on_service_run _ _ _ _ Hs'). simpl.
  eexists _, _. split; [reflexivity|]. simpl.
  split; [reflexivity|]. split; [reflexivity|]. split; [reflexivity|].
  split; [reflexivity|]. split; [reflexivity|]. split; [exact Ht|].
  apply truthy_true_iff in Hm. apply truthy_true_iff in Hl.
  unfold handleChat. rewrite Hm. simpl. rewrite Ht, Hl.
  unfold on_service. simpl.
  match goal with
  | |- context [refine env t message ?s] =>
      destruct (refine_inv env t message s)
        as [[_ E]|(text & r & svc' & Hc & _)]
  end.
  - rewrite E. reflexivity.
  - unfold cache in Hc. simpl in Hc. by rewrite (lookup_empty t) in Hc.
Qed.

Lemma chat_after_topic_change_witness :
  let c := (startup env_drafts (Some "cats") some_answers fresh_cli).2 in
  service (state c) = Some (startup_service env_drafts)
  /\ lastContentType (state c) = Some script
  /\ lastContent (state c) <> EmptyString
  /\ chosenTopic some_answers <> appTopic (state c)
  /\ Js.trim "shorter" <> EmptyString
  /\ exists c1,
       dispatch env_drafts CmdTopic some_answers c = (Returned Continue, c1)
       /\ handleChat env_drafts "shorter" c1
          = (Returned tt,
             print (PrintError "No content to refine. Generate content first.") c1).
Proof.
  intros c.
  assert (H1 : service (state c) = Some (startup_service env_drafts))
    by (vm_compute; reflexivity).
  assert (H2 : lastContentType (state c) = Some script)
    by (vm_compute; reflexivity).
  assert (H3 : lastContent (state c) <> EmptyString) by (vm_compute; discriminate).
  assert (H4 : chosenTopic some_answers <> appTopic (state c))
    by (vm_compute; discriminate).
  assert (H5 : Js.trim "shorter" <> EmptyString) by (vm_compute; discriminate).
  split; [exact H1|]. split; [exact H2|]. split; [exact H3|].
  split; [exact H4|]. split; [exact H5|].
  destruct (chat_after_topic_change env_drafts some_answers "shorter" c
              (startup_service env_drafts) script H1 H2 H3 H4 H5)
    as (c1 & svc1 & E & _ & _ & _ & _ & _ & _ & Hchat).
  exists c1. split; [exact E|exact Hchat].
Defined.

(** X24.  The quit command prints the goodbye, runs the service's cleanup
    and exits with code 0 whatever the cleanup meets; without a service it
    exits with code 0 all the same. *)
Theorem quit_exits_zero env answers c :
  exists c',
    dispatch env CmdQuit answers c = (Returned (Exit 0), c')
    /\ printed c' = printed c ++ [PrintGoodbye]
    /\ (forall svc, service (state c) = Some svc ->
          service (state c') = Some (cleanup env svc).2)
    /\ (service (state c) = None -> state c' = state c).
Proof.
  unfold dispatch, run_switch.
  destruct (service (state c)) as [svc|] eqn:Hs.
  - assert (Hs' : service (state (print PrintGoodbye c)) = Some svc) by exact Hs.
    simpl. rewrite Hs. rewrite (on_service_run _ _ _ _ Hs').
    destruct (cleanup_returns env svc) as (s' & E). rewrite E. simpl.
    eexists. split; [reflexivity|]. simpl.
    split; [reflexivity|]. split; [|discriminate].
    intros svc0 [= <-]. by rewrite E.
  - simpl. rewrite Hs. eexists. split; [reflexivity|]. simpl.
    split; [reflexivity|]. split; [discriminate|reflexivity].
Qed.

(** X25.  How [run] comes to its chat loop.  The topic is the command-line
    argument when that is a non-empty text and the prompted topic otherwise;
    the model is gpt-4o.  When [initialize] throws, the error's message is
    printed, the process exits with code 1 and nothing is generated.
    Otherwise a script is generated with [regenerate] set, the loop starts
    whether or not that generation succeeded, and the loop's topic, platform
    and model are those of the service. *)
Theorem startup_outcomes env initialTopic answers c :
  let t := match initialTopic with
           | Some (String a r) => String a r
           | _ => chosenTopic answers
           end in
  let svc0 := new_CopilotService env t (chosenPlatform answers) gpt_4o in
  let out := startup env initialTopic answers c in
  appTopic (state out.2) = t
  /\ appPlatform (state out.2) = chosenPlatform answers
  /\ appModel (state out.2) = gpt_4o
  /\ synced (state out.2)
  /\ model_synced (state out.2)
  /\ (forall e, (initialize env svc0).1 = Raised e ->
        out.1 = Returned (Exit 1)
        /\ last (printed out.2) = Some (PrintError (message_or e "Failed to connect"))
        /\ service (state out.2) = Some (initialize env svc0).2
        /\ lastContent (state out.2) = lastContent (state c)
        /\ lastContentType (state out.2) = lastContentType (state c))
  /\ ((initialize env svc0).1 = Returned tt ->
        out.1 = Returned Continue
        /\ service (state out.2)
           = Some (generate env script regenerate_options (initialize env svc0).2).2
        /\ (last_coherent (state c) -> last_coherent (state out.2))).
Proof.
  intros t svc0 out.
  assert (Et : (if Js.truthy_opt initialTopic then default EmptyString initialTopic
                else chosenTopic answers) = t).
  { subst t. by destruct initialTopic as [[|a r]|]. }
  subst out. unfold startup, run_setup, answered. cbv zeta.
  cbn [promptTopic promptPlatform].
  assert (Et' : (if Js.truthy_opt initialTopic
                 then Returned (default EmptyString initialTopic)
                 else Returned (chosenTopic answers)) = Returned t).
  { rewrite <- Et. by destruct (Js.truthy_opt initialTopic). }
  rewrite Et'. fold svc0.
  fold regenerate_options.
  set (c2 := if Js.truthy_opt (EXA_API_KEY env) then _ else _).
  assert (Hlast : state c2 = state c).
  { subst c2. by destruct (Js.truthy_opt (EXA_API_KEY env)). }
  rewrite Hlast.
  set (c3 := with_state _ c2).
  assert (Hs3 : service (state c3) = Some svc0) by reflexivity.
  rewrite (on_service_run _ _ _ _ Hs3).
  destruct (initialize_cases env svc0) as (o & s1 & E & _ & Hmodel & _).
  pose proof (initialize_context env svc0) as Hctx. unfold context_step in Hctx.
  rewrite E in Hctx |- *. simpl in Hctx. simpl fst. simpl snd.
  destruct o as [[]|e].
  - set (c5 := print _ _).
    assert (Hs5 : service (state c5) = Some s1) by reflexivity.
    rewrite (on_service_run _ _ _ _ Hs5).
    destruct (generate_frame env script regenerate_options s1)
      as (r & Er & H5 & H6 & H3).
    rewrite Er.
    set (s2 := (generate env script regenerate_options s1).2) in *.
    unfold synced, model_synced, last_coherent.
    assert (Hsync : topic (context s2) = t
                    /\ platform (context s2) = chosenPlatform answers).
    { by rewrite H5, H6, Hctx. }
    assert (Hm2 : currentModel s2 = gpt_4o) by (by rewrite H3, Hmodel).
    destruct (success r && Js.truthy (content r)) eqn:Hok; simpl.
    + apply andb_true_iff in Hok as [_ Hok].
      split; [reflexivity|]. split; [reflexivity|]. split; [reflexivity|].
      split; [|split; [|split]].
      * by intros svc [= <-].
      * by intros svc [= <-].
      * discriminate.
      * intros _. split; [reflexivity|]. split; [reflexivity|].
        intros _. split; eauto.
    + split; [reflexivity|]. split; [reflexivity|]. split; [reflexivity|].
      split; [|split; [|split]].
      * by intros svc [= <-].
      * by intros svc [= <-].
      * discriminate.
      * intros _. split; [reflexivity|]. split; [reflexivity|]. trivial.
  - unfold synced, model_synced. simpl.
    split; [reflexivity|]. split; [reflexivity|]. split; [reflexivity|].
    split; [|split; [|split]].
    + intros svc [= <-]. by rewrite Hctx.
    + intros svc [= <-]. by rewrite Hmodel.
    + intros e0 [= <-]. split; [reflexivity|]. split; [by rewrite last_snoc|].
      by split.
    + discriminate.
Qed.
